(** * Synthetic e-commerce data generator: a shallow embedding

    The development follows [src/data_generator.py]
    ([EcommerceDataGenerator]) and [src/data_generator_fixed.py]
    ([RobustDataGenerator]).

    Conventions of the embedding.
    - Python and numpy floating-point numbers are represented by exact
      rationals ([Q]); [round(x, n)] is rounding to [n] decimal digits,
      ties to even.  A double differs from the rational it stands for
      by a relative error of 2^-53 at most, which moves a result of
      [round] only next to a tie.  The statements made on this model
      are those such an error leaves true: bounds, and distances with
      a margin far above it; no equality is claimed between a stored
      amount and a formula in which a drawn fraction takes part.
    - Python integers are [Z]; [range(n)] runs [Z.to_nat n] times.
    - A [datetime] is a proleptic Gregorian day ordinal (as returned by
      [date.toordinal()]) together with the microsecond within the day.
    - The three pseudo-random generators ([random], [numpy.random],
      [Faker]) are reached through the interface [RandomSource]; the
      wall clock ([datetime.now()]) is a sequence of readings.
    - A pandas [DataFrame] is the list of its rows, each row a record. *)

From stdpp Require Import gmap strings list.
From Stdlib Require Import ZArith QArith Qround Qabs Lia Lqa Sorted.
From Stdlib Require Import Ascii DecimalString.

Local Open Scope Z_scope.

(* ------------------------------------------------------------------ *)
(** ** Numbers *)

Module PyNum.

(** [int(x)] on a float: truncation toward zero. *)
Definition py_int (x : Q) : Z := Z.quot (Qnum x) (Z.pos (Qden x)).

(** Nearest integer, ties to the even neighbour. *)
Definition round_half_even (x : Q) : Z :=
  let f := Qfloor x in
  match Qcompare (x - inject_Z f) (1 # 2) with
  | Lt => f
  | Gt => f + 1
  | Eq => if Z.even f then f else f + 1
  end.

(** [round(x, ndigits)] on the rational [x].  Python rounds the exact
    value of the double, ties to even, and returns the double nearest to
    the decimal: the two agree unless the double and the rational it
    stands for lie on different sides of a tie. *)
Definition py_round (x : Q) (ndigits : nat) : Q :=
  Qmake (round_half_even (x * inject_Z (Z.pos (10 ^ Pos.of_nat ndigits))))
        (10 ^ Pos.of_nat ndigits).

(** [x < y] on floats. *)
Definition Qltb (x y : Q) : bool := negb (Qle_bool y x).

(** [max(a, b)] on integers. *)
Definition py_max (a b : Z) : Z := if a <? b then b else a.

End PyNum.
Export PyNum.

(* ------------------------------------------------------------------ *)
(** ** Calendar: the parts of [datetime] the generators use *)

Module PyDate.

(** A [date] is its ordinal: day 1 is 0001-01-01. *)
Definition date := Z.

Record datetime := mkDatetime {
  dt_ordinal : date;      (* [.date().toordinal()] *)
  dt_micros  : Z          (* microseconds since midnight *)
}.

(** [dt.date()] *)
Definition dt_date (dt : datetime) : date := dt_ordinal dt.

(** The value of [dt + timedelta(days=n)]; that of
    [dt - timedelta(days=n)] is [add_days dt (- n)].  Python computes
    it only when the result is a date of the years 1 to 9999 and raises
    OverflowError otherwise: see [sub_days] below, which the generators
    use where the number of days is an input.  [add_days] alone stands
    where the result lies between two dates that exist already (a day
    of the window between its start and the clock reading) or a fixed
    thirty days at most before the clock reading. *)
Definition add_days (dt : datetime) (n : Z) : datetime :=
  mkDatetime (dt_ordinal dt + n) (dt_micros dt).

(** [date.max.toordinal()], the ordinal of 9999-12-31; ordinals start
    at 1. *)
Definition MAXORDINAL : Z := 3652059.

(** A day ordinal that is a date. *)
Definition date_ok (d : Z) : bool := (1 <=? d) && (d <=? MAXORDINAL).

(** [timedelta(days=n)] exists: "days must have magnitude <=
    999999999". *)
Definition timedelta_ok (n : Z) : bool := Z.abs n <=? 999999999.

(** [date.weekday()]: Monday is 0, Sunday is 6. *)
Definition weekday (d : date) : Z := (d + 6) mod 7.

Definition days_before_month (m : Z) : Z :=
  match m with
  | 1 => 0 | 2 => 31 | 3 => 59 | 4 => 90 | 5 => 120 | 6 => 151
  | 7 => 181 | 8 => 212 | 9 => 243 | 10 => 273 | 11 => 304 | 12 => 334
  | _ => 0
  end.

Definition days_in_month_common (m : Z) : Z :=
  match m with
  | 1 => 31 | 2 => 28 | 3 => 31 | 4 => 30 | 5 => 31 | 6 => 30
  | 7 => 31 | 8 => 31 | 9 => 30 | 10 => 31 | 11 => 30 | 12 => 31
  | _ => 0
  end.

Definition b2z (b : bool) : Z := if b then 1 else 0.

(** [datetime._ord2ymd]: ordinal to (year, month, day). *)
Definition ord2ymd (n0 : Z) : Z * Z * Z :=
  let n := n0 - 1 in
  let n400 := n / 146097 in
  let n := n mod 146097 in
  let n100 := n / 36524 in
  let n := n mod 36524 in
  let n4 := n / 1461 in
  let n := n mod 1461 in
  let n1 := n / 365 in
  let n := n mod 365 in
  let year := n400 * 400 + 1 + n100 * 100 + n4 * 4 + n1 in
  if (n1 =? 4) || (n100 =? 4) then (year - 1, 12, 31)
  else
    let leapyear := (n1 =? 3) && (negb (n4 =? 24) || (n100 =? 3)) in
    let month := Z.shiftr (n + 50) 5 in
    let preceding :=
      days_before_month month + b2z ((2 <? month) && leapyear) in
    if n <? preceding then
      let month' := month - 1 in
      let preceding' :=
        preceding
        - (days_in_month_common month' + b2z ((month' =? 2) && leapyear)) in
      (year, month', n - preceding' + 1)
    else (year, month, n - preceding + 1).

(** [date.month] *)
Definition month (d : date) : Z := snd (fst (ord2ymd d)).

End PyDate.
Export PyDate.

(* ------------------------------------------------------------------ *)
(** ** Effects: exceptions, the random sources and the wall clock *)

(** Exceptions a run can end with.  [ConfigurationError] is the error the
    design document names; no statement of the source raises it. *)
Inductive exception :=
| ValueError
| IndexError
| KeyError
| OverflowError
| ConfigurationError.

(** [Faker] providers called by the generator. *)
Inductive provider :=
| word | company | first_name | last_name | email | phone_number | city.

(** The pseudo-random generators behind [random], [numpy.random], pandas
    [sample] and [Faker], as one state [G] (all are seeded together by
    the constructor).  Each operation returns the drawn value and the
    next state; the laws are the ranges the libraries document. *)
Class RandomSource (G : Type) := {
  rs_seed : Z -> G;
  (* [random.Random._randbelow(n)], behind [random.choice] *)
  random_randbelow : nat -> G -> nat * G;
  np_lognormal : Q -> Q -> G -> Q * G;
  np_uniform : Q -> Q -> G -> Q * G;
  np_poisson : Q -> G -> Z * G;
  np_randint : Z -> Z -> G -> Z * G;
  (* [np.random.choice(a, p=p)]: the index of the element drawn *)
  np_choice : nat -> list Q -> G -> nat * G;
  np_random : G -> Q * G;
  (* [DataFrame.sample(1)]: the position of the row drawn *)
  pd_sample : nat -> G -> nat * G;
  fake_text : provider -> G -> string * G;
  (* [fake.date_between(start_date, end_date)], relative to today *)
  fake_date_between : string -> string -> date -> G -> date * G;

  random_randbelow_lt n g :
    (0 < n)%nat -> (fst (random_randbelow n g) < n)%nat;
  np_poisson_nonneg lam g : 0 <= fst (np_poisson lam g);
  np_randint_range lo hi g :
    lo < hi -> lo <= fst (np_randint lo hi g) < hi;
  np_choice_lt n p g : (0 < n)%nat -> (fst (np_choice n p g) < n)%nat;
  np_uniform_range lo hi g :
    (lo <= hi)%Q -> (lo <= fst (np_uniform lo hi g) <= hi)%Q;
  np_random_range g : (0 <= fst (np_random g) < 1)%Q;
  pd_sample_lt n g : (0 < n)%nat -> (fst (pd_sample n g) < n)%nat
}.

(** The state a run threads: the generators, the number of clock
    readings made so far, and (for stating when an error happens) the
    number of random draws made so far. *)
Record world (G : Type) := mkWorld {
  w_rng : G;
  w_ticks : nat;
  w_draws : nat
}.
Arguments mkWorld {G} _ _ _.
Arguments w_rng {G} _.
Arguments w_ticks {G} _.
Arguments w_draws {G} _.

Inductive outcome (G A : Type) :=
| Ok (a : A) (w : world G)
| Raise (e : exception) (w : world G).
Arguments Ok {G A} _ _.
Arguments Raise {G A} _ _.

(** The wall clock: its k-th reading. *)
Definition clock := nat -> datetime.

(** Computations of the generator. *)
Definition M (G A : Type) : Type := clock -> world G -> outcome G A.

Definition ret {G A} (a : A) : M G A := fun _ w => Ok a w.

Definition bind {G A B} (m : M G A) (k : A -> M G B) : M G B :=
  fun clk w =>
    match m clk w with
    | Ok a w' => k a clk w'
    | Raise e w' => Raise e w'
    end.

Definition raise {G A} (e : exception) : M G A := fun _ w => Raise e w.

(** [datetime.now()] *)
Definition now {G} : M G datetime :=
  fun clk w =>
    Ok (clk (w_ticks w)) (mkWorld (w_rng w) (S (w_ticks w)) (w_draws w)).

(** [dt - timedelta(days=n)], with both of its OverflowErrors: that of
    the [timedelta] constructor and that of a result outside the years
    1 to 9999. *)
Definition sub_days {G} (dt : datetime) (n : Z) : M G datetime :=
  if timedelta_ok n && date_ok (dt_ordinal dt - n)
  then ret (add_days dt (- n))
  else raise OverflowError.

(** One call into a random generator. *)
Definition draw {G A} (f : G -> A * G) : M G A :=
  fun _ w =>
    let '(a, g) := f (w_rng w) in
    Ok a (mkWorld g (w_ticks w) (S (w_draws w))).

Declare Scope gen_scope.
Delimit Scope gen_scope with gen.
Notation "x <- m ;; k" := (bind m (fun x => k))
  (at level 20, m at level 99, k at level 200) : gen_scope.
Notation "' p <- m ;; k" := (bind m (fun x => let 'p := x in k))
  (at level 20, p pattern, m at level 99, k at level 200) : gen_scope.

(** [for x in xs: acc = body(x, acc)] *)
Fixpoint for_each {G I A} (xs : list I) (body : I -> A -> M G A) (acc : A)
  : M G A :=
  match xs with
  | [] => ret acc
  | x :: xs' => bind (body x acc) (for_each xs' body)
  end.

(** [range(n)] and [range(a, b)] *)
Definition range (n : Z) : list Z := map Z.of_nat (seq 0 (Z.to_nat n)).
Definition range2 (a b : Z) : list Z :=
  map (fun k => a + Z.of_nat k) (seq 0 (Z.to_nat (b - a))).

Section Draws.
Context {G : Type} `{RandomSource G}.
Local Open Scope gen_scope.

(** [random.choice(seq)] *)
Definition random_choice {A} (l : list A) : M G A :=
  match l with
  | [] => raise IndexError
  | _ =>
      i <- draw (random_randbelow (length l)) ;;
      match l !! i with
      | Some x => ret x
      | None => raise IndexError
      end
  end.

(** [np.random.randint(low, high)] *)
Definition randint (low high : Z) : M G Z :=
  if low <? high then draw (np_randint low high) else raise ValueError.

(** [np.random.choice(a, p=p)] *)
Definition choice {A} (a : list A) (p : list Q) : M G A :=
  match a with
  | [] => raise ValueError
  | _ =>
      i <- draw (np_choice (length a) p) ;;
      match a !! i with
      | Some x => ret x
      | None => raise ValueError
      end
  end.

(** [df.iloc[i]] *)
Definition iloc {A} (df : list A) (i : Z) : M G A :=
  match (if 0 <=? i then df !! Z.to_nat i
         else df !! Z.to_nat (Z.of_nat (length df) + i)) with
  | Some row => ret row
  | None => raise IndexError
  end.

(** [fake.date_between(start_date=s, end_date=e)]: [Faker] resolves the
    relative bounds against today's date. *)
Definition date_between (s e : string) : M G date :=
  t <- now ;;
  draw (fake_date_between s e (dt_date t)).

End Draws.

(* ------------------------------------------------------------------ *)
(** ** Strings *)

Module PyStr.

Definition upper_ascii (c : ascii) : ascii :=
  let n := nat_of_ascii c in
  if ((97 <=? n) && (n <=? 122))%nat then ascii_of_nat (n - 32) else c.

Definition lower_ascii (c : ascii) : ascii :=
  let n := nat_of_ascii c in
  if ((65 <=? n) && (n <=? 90))%nat then ascii_of_nat (n + 32) else c.

Fixpoint lower (s : string) : string :=
  match s with
  | EmptyString => EmptyString
  | String c s' => String (lower_ascii c) (lower s')
  end.

(** [s.capitalize()], on ASCII letters. *)
Definition capitalize (s : string) : string :=
  match s with
  | EmptyString => EmptyString
  | String c s' => String (upper_ascii c) (lower s')
  end.

Fixpoint zeros (n : nat) : string :=
  match n with
  | O => EmptyString
  | S n' => String "0" (zeros n')
  end.

(** [f"{i:04d}"] for [0 <= i]. *)
Definition format_04d (i : Z) : string :=
  let s := NilZero.string_of_uint (N.to_uint (Z.to_N i)) in
  String.append (zeros (4 - String.length s)) s.

End PyStr.
Export PyStr.

(* ------------------------------------------------------------------ *)
(** ** [EcommerceDataGenerator] *)

Module Ecommerce.

(** The attributes [__init__] sets and the stages read. *)
Record config := mkConfig {
  n_products : Z;
  n_customers : Z;
  n_days : Z
}.

(** The values [__init__] assigns. *)
Definition default_config : config := mkConfig 50 200 365.

Definition categories : list string :=
  ["Electrónica"; "Ropa"; "Hogar"; "Deportes"; "Libros"; "Juguetes"]%string.

Definition subcategories : list (string * list string) :=
  [ ("Electrónica", ["Smartphones"; "Laptops"; "Tablets"; "Accesorios"]);
    ("Ropa", ["Hombre"; "Mujer"; "Niños"; "Deportiva"]);
    ("Hogar", ["Cocina"; "Decoración"; "Muebles"; "Jardín"]);
    ("Deportes", ["Fitness"; "Running"; "Natación"; "Ciclismo"]);
    ("Libros", ["Ficción"; "No Ficción"; "Técnicos"; "Infantiles"]);
    ("Juguetes", ["Educativos"; "Videojuegos"; "Exterior"; "Bebés"])
  ]%string.

Record product := mkProduct {
  p_product_id : Z;
  p_product_name : string;
  p_category : string;
  p_subcategory : string;
  p_price : Q;
  p_cost : Q;
  p_margin : Q;
  p_sku : string;
  p_supplier : string;
  p_weight_kg : Q;
  p_created_date : date
}.

Record customer := mkCustomer {
  c_customer_id : Z;
  c_first_name : string;
  c_last_name : string;
  c_email : string;
  c_phone : string;
  c_city : string;
  c_region : string;
  c_customer_type : string;
  c_signup_date : date;
  c_last_purchase_date : option date;
  c_total_spent : Q;
  c_total_orders : Z
}.

Record sale := mkSale {
  s_sale_id : Z;
  s_date : date;
  s_datetime : datetime;
  s_customer_id : Z;
  s_product_id : Z;
  s_quantity : Z;
  s_unit_price : Q;
  s_subtotal : Q;
  s_discount_pct : Q;
  s_discount_amount : Q;
  s_total : Q;
  s_cost : Q;
  s_profit : Q;
  s_payment_method : string;
  s_channel : string;
  s_region : string;
  s_category : string;
  s_subcategory : string
}.

Record inventory_record := mkInventory {
  i_date : date;
  i_product_id : Z;
  i_product_name : string;
  i_category : string;
  i_current_stock : Z;
  i_daily_sales : Z;
  i_reorder_point : Z;
  i_ideal_stock : Z;
  i_stock_status : string
}.

(** What [generate_all_data] returns. *)
Record tables := mkTables {
  t_products : list product;
  t_customers : list customer;
  t_sales : list sale;
  t_inventory : list inventory_record
}.

(** [seasonal_factor(date)], the closure inside [generate_sales], and
    its two local variables. *)
Definition day_factor (d : datetime) : Q :=
  if 4 <=? weekday (dt_date d) then 1.5%Q else 1.0%Q.

Definition month_factor (d : datetime) : Q :=
  let month := month (dt_date d) in
  if month =? 12 then 2.5%Q
  else if month =? 11 then 2.0%Q
  else if (month =? 6) || (month =? 7) then 1.3%Q
  else 1.0%Q.

Definition seasonal_factor (d : datetime) : Q :=
  (day_factor d * month_factor d)%Q.

(** The dict literal of [generate_sales], from the values drawn for one
    sale.  The amounts are written as the source writes them; evaluated
    on rationals they carry no binary rounding error, which the source's
    doubles do (and [cost], the one amount the source does not round, is
    there the double product). *)
Definition sale_row (sale_id : Z) (current_date : datetime)
    (product : product) (customer : customer)
    (quantity : Z) (discount : Q) (payment_method channel : string) : sale :=
  let subtotal := (p_price product * inject_Z quantity)%Q in
  let discount_amount := (subtotal * discount)%Q in
  let total := (subtotal - discount_amount)%Q in
  let profit :=
    ((p_price product - p_cost product) * inject_Z quantity
     * (1 - discount))%Q in
  {| s_sale_id := sale_id;
     s_date := dt_date current_date;
     s_datetime := current_date;
     s_customer_id := c_customer_id customer;
     s_product_id := p_product_id product;
     s_quantity := quantity;
     s_unit_price := p_price product;
     s_subtotal := py_round subtotal 2;
     s_discount_pct := py_round (discount * 100) 1;
     s_discount_amount := py_round discount_amount 2;
     s_total := py_round total 2;
     s_cost := (p_cost product * inject_Z quantity)%Q;
     s_profit := py_round profit 2;
     s_payment_method := payment_method;
     s_channel := channel;
     s_region := c_region customer;
     s_category := p_category product;
     s_subcategory := p_subcategory product |}.

(** The variables the loops of [generate_sales] update. *)
Record sales_state := mkSalesState {
  ss_current_date : datetime;
  ss_sale_id : Z;
  ss_sales : list sale
}.

(** The variables the day loop of [generate_inventory] updates. *)
Record stock_state := mkStockState {
  st_current_stock : Z;
  st_inventory : list inventory_record
}.

(** [sales.groupby("customer_id").agg(total=sum, sale_id=count, date=max)]:
    one entry per customer id that occurs in [sales]. *)
Definition customer_stats (sales : list sale) : gmap Z (Q * Z * date) :=
  foldl
    (fun (m : gmap Z (Q * Z * date)) s =>
       match m !! s_customer_id s with
       | None => <[s_customer_id s := ((0 + s_total s)%Q, 1, s_date s)]> m
       | Some (spent, orders, last) =>
           <[s_customer_id s :=
               ((spent + s_total s)%Q, orders + 1, Z.max last (s_date s))]> m
       end)
    ∅ sales.

(** [pd.merge(customers, customer_stats, on="customer_id", how="left")]:
    every customer row, with the statistics of its id when there are
    some (the [calc_*] columns are NaN otherwise). *)
Definition merge_left (customers : list customer)
    (stats : gmap Z (Q * Z * date))
  : list (customer * option (Q * Z * date)) :=
  map (fun c => (c, stats !! c_customer_id c)) customers.

(** The three masked assignments, then the drop of the [calc_*]
    columns. *)
Definition assign_stats (row : customer * option (Q * Z * date))
  : customer :=
  match row with
  | (c, Some (spent, orders, last)) =>
      {| c_customer_id := c_customer_id c;
         c_first_name := c_first_name c;
         c_last_name := c_last_name c;
         c_email := c_email c;
         c_phone := c_phone c;
         c_city := c_city c;
         c_region := c_region c;
         c_customer_type := c_customer_type c;
         c_signup_date := c_signup_date c;
         c_last_purchase_date := Some last;
         c_total_spent := spent;
         c_total_orders := orders |}
  | (c, None) => c
  end.

(** The customer update of [generate_all_data] (its steps 1 to 3).  The
    three columns always exist in the rows of [generate_customers], and
    [fillna(0)] finds nothing to fill in them. *)
Definition update_customers (customers : list customer)
    (sales : list sale) : list customer :=
  match sales with
  | [] => customers
  | _ => map assign_stats (merge_left customers (customer_stats sales))
  end.

Section Stages.
Context {G : Type} `{RandomSource G}.
Variable self : config.
Local Open Scope gen_scope.

(** [self.subcategories[category]] *)
Definition subcategories_of (category : string) : M G (list string) :=
  match List.find (fun kv => String.eqb (fst kv) category) subcategories
  with
  | Some kv => ret (snd kv)
  | None => raise KeyError
  end.

Definition generate_products : M G (list product) :=
  for_each (range2 1 (n_products self + 1))
    (fun i products =>
       category <- random_choice categories ;;
       subs <- subcategories_of category ;;
       subcategory <- random_choice subs ;;
       x <- draw (np_lognormal 3.5 0.8) ;;
       let base_price := (x * 10)%Q in
       let price := py_round base_price 2 in
       margin <- draw (np_uniform 0.3 0.7) ;;
       let cost := py_round (price * (1 - margin)) 2 in
       w1 <- draw (fake_text word) ;;
       w2 <- draw (fake_text word) ;;
       supplier <- draw (fake_text company) ;;
       weight <- draw (np_uniform 0.1 5.0) ;;
       created <- date_between "-2y" "-1y" ;;
       ret (products ++
            [ {| p_product_id := i;
                 p_product_name :=
                   String.append (capitalize w1)
                     (String.append " " (capitalize w2));
                 p_category := category;
                 p_subcategory := subcategory;
                 p_price := price;
                 p_cost := cost;
                 p_margin := py_round (margin * 100) 1;
                 p_sku := String.append "SKU-" (format_04d i);
                 p_supplier := supplier;
                 p_weight_kg := py_round weight 2;
                 p_created_date := created |} ]))
    [].

Definition regions : list string :=
  ["Norte"; "Sur"; "Este"; "Oeste"; "Centro"]%string.
Definition customer_types : list string :=
  ["Ocasional"; "Regular"; "Premium"; "Empresa"]%string.

Definition generate_customers : M G (list customer) :=
  for_each (range2 1 (n_customers self + 1))
    (fun i customers =>
       signup_date <- date_between "-3y" "today" ;;
       first <- draw (fake_text first_name) ;;
       last <- draw (fake_text last_name) ;;
       mail <- draw (fake_text email) ;;
       phone <- draw (fake_text phone_number) ;;
       town <- draw (fake_text city) ;;
       region <- random_choice regions ;;
       customer_type <- random_choice customer_types ;;
       ret (customers ++
            [ {| c_customer_id := i;
                 c_first_name := first;
                 c_last_name := last;
                 c_email := mail;
                 c_phone := phone;
                 c_city := town;
                 c_region := region;
                 c_customer_type := customer_type;
                 c_signup_date := signup_date;
                 c_last_purchase_date := None;
                 c_total_spent := 0.0%Q;
                 c_total_orders := 0 |} ]))
    [].

(** The body of [for _ in range(daily_sales)]. *)
Definition one_sale (products_df : list product)
    (customers_df : list customer) (st : sales_state) : M G sales_state :=
  pi <- randint 0 (Z.of_nat (length products_df)) ;;
  product <- iloc products_df pi ;;
  ci <- randint 0 (Z.of_nat (length customers_df)) ;;
  customer <- iloc customers_df ci ;;
  quantity <- choice [1; 2; 3; 4; 5]
                [0.6%Q; 0.2%Q; 0.1%Q; 0.05%Q; 0.05%Q] ;;
  u <- draw np_random ;;
  discount <- (if Qltb u 0.2 then draw (np_uniform 0 0.3)
               else ret 0%Q) ;;
  payment_method <-
    random_choice
      ["Tarjeta"; "Transferencia"; "Efectivo"; "MercadoPago"]%string ;;
  channel <-
    random_choice ["Web"; "App"; "Físico"; "Marketplace"]%string ;;
  let sale :=
    sale_row (ss_sale_id st) (ss_current_date st) product customer
      quantity discount payment_method channel in
  ret (mkSalesState (ss_current_date st) (ss_sale_id st + 1)
         (ss_sales st ++ [sale])).

(** The body of [for day in range(self.n_days)]. *)
Definition one_day (products_df : list product)
    (customers_df : list customer) (st : sales_state) : M G sales_state :=
  let current_date := add_days (ss_current_date st) 1 in
  base_sales <- draw (np_poisson 50) ;;
  let seasonal_adjustment := seasonal_factor current_date in
  let daily_sales :=
    py_int (inject_Z base_sales * seasonal_adjustment) in
  for_each (range daily_sales)
    (fun _ => one_sale products_df customers_df)
    (mkSalesState current_date (ss_sale_id st) (ss_sales st)).

Definition generate_sales (products_df : list product)
    (customers_df : list customer) : M G (list sale) :=
  t <- now ;;
  current_date <- sub_days t (n_days self) ;;
  st <- for_each (range (n_days self))
          (fun _ => one_day products_df customers_df)
          (mkSalesState current_date 1 []) ;;
  ret (ss_sales st).

(** The body of [for day in range(30)] in [generate_inventory]. *)
Definition inventory_day (product : product)
    (reorder_point ideal_stock : Z) (day : Z) (st : stock_state)
  : M G stock_state :=
  t <- now ;;
  let date := add_days t (- (30 - day)) in
  daily_sales <- draw (np_poisson 2) ;;
  let current_stock := py_max 0 (st_current_stock st - daily_sales) in
  current_stock <-
    (if current_stock <=? reorder_point then
       u <- draw np_random ;;
       if Qltb u 0.3 then
         restock <- randint reorder_point ideal_stock ;;
         ret (current_stock + restock)
       else ret current_stock
     else ret current_stock) ;;
  ret (mkStockState current_stock
         (st_inventory st ++
          [ {| i_date := dt_date date;
               i_product_id := p_product_id product;
               i_product_name := p_product_name product;
               i_category := p_category product;
               i_current_stock := current_stock;
               i_daily_sales := daily_sales;
               i_reorder_point := reorder_point;
               i_ideal_stock := ideal_stock;
               i_stock_status :=
                 if reorder_point <? current_stock then "OK"%string
                 else "LOW"%string |} ])).

Definition generate_inventory (products_df : list product)
  : M G (list inventory_record) :=
  for_each products_df
    (fun product inventory =>
       current_stock <- randint 10 100 ;;
       let reorder_point := py_int (inject_Z current_stock * 0.3) in
       let ideal_stock := py_int (inject_Z current_stock * 1.5) in
       st <- for_each (range 30)
               (inventory_day product reorder_point ideal_stock)
               (mkStockState current_stock inventory) ;;
       ret (st_inventory st))
    [].

(** [generate_all_data], up to the tables it returns.  The block under
    [if save_to_csv:] (the directory and the four CSV files) and the
    printed summary are outside the embedding: they do not change the
    tables, and a run in which a write fails does not return.  What is
    proved of [generate_all_data] is therefore proved of the runs that
    return.  In the source this [def] sits one level too deep (under
    [generate_inventory], after its [return]); it is read here as the
    method of the class its [self] parameter and its callers take it
    to be. *)
Definition generate_all_data : M G tables :=
  products <- generate_products ;;
  customers <- generate_customers ;;
  sales <- generate_sales products customers ;;
  inventory <- generate_inventory products ;;
  let customers := update_customers customers sales in
  ret (mkTables products customers sales inventory).

End Stages.

(** A run: construct the generator with [seed], set its attributes,
    call [generate_all_data] under the wall clock [clk]. *)
Definition initial_world {G} `{RandomSource G} (seed : Z) : world G :=
  mkWorld (rs_seed seed) 0 0.

Definition run {G} `{RandomSource G} (seed : Z) (cfg : config)
    (clk : clock) : outcome G tables :=
  generate_all_data cfg clk (initial_world seed).

End Ecommerce.

(* ------------------------------------------------------------------ *)
(** ** [RobustDataGenerator] *)

Module Robust.

Record product := mkProduct {
  p_product_id : Z;
  p_name : string;
  p_category : string;
  p_price : Q;
  p_cost : Q;
  p_margin_pct : Q
}.

Record sale := mkSale {
  s_date : date;
  s_product_id : Z;
  s_product_name : string;
  s_category : string;
  s_quantity : Z;
  s_unit_price : Q;
  s_total : Q;
  s_cost : Q;
  s_profit : Q;
  s_customer_id : Z;
  s_region : string
}.

(** What [generate_all] returns. *)
Record tables := mkTables {
  t_products : list product;
  t_sales : list sale
}.

(** The class has no customer stage: the ids of the customer records a
    run generates are none. *)
Definition generated_customer_ids (t : tables) : list Z := [].

Definition categories : list string :=
  ["Electronics"; "Clothing"; "Home"; "Sports"; "Books"]%string.

Section Stages.
Context {G : Type} `{RandomSource G}.
Local Open Scope gen_scope.

Definition generate_products : M G (list product) :=
  let n_products := 100 in
  for_each (range2 1 (n_products + 1))
    (fun i data =>
       category <- random_choice categories ;;
       x <- draw (np_uniform 10 500) ;;
       let price := py_round x 2 in
       y <- draw (np_uniform 0.3 0.7) ;;
       let cost := py_round (price * y) 2 in
       ret (data ++
            [ {| p_product_id := i;
                 p_name :=
                   String.append "Product "
                     (NilZero.string_of_uint (N.to_uint (Z.to_N i)));
                 p_category := category;
                 p_price := price;
                 p_cost := cost;
                 p_margin_pct :=
                   py_round ((price - cost) / price * 100) 1 |} ]))
    [].

(** [products_df.sample(1).iloc[0]] *)
Definition sample1 {A} (df : list A) : M G A :=
  match df with
  | [] => raise ValueError
  | _ =>
      i <- draw (pd_sample (length df)) ;;
      match df !! i with
      | Some row => ret row
      | None => raise IndexError
      end
  end.

(** The body of [for _ in range(n_sales)]. *)
Definition one_sale (products_df : list product) (current_date : datetime)
    (sales : list sale) : M G (list sale) :=
  product <- sample1 products_df ;;
  quantity <- randint 1 4 ;;
  let total := py_round (p_price product * inject_Z quantity) 2 in
  let profit :=
    py_round ((p_price product - p_cost product) * inject_Z quantity) 2 in
  customer_id <- randint 1 1001 ;;
  region <-
    random_choice ["North"; "South"; "East"; "West"; "Central"]%string ;;
  ret (sales ++
       [ {| s_date := dt_date current_date;
            s_product_id := p_product_id product;
            s_product_name := p_name product;
            s_category := p_category product;
            s_quantity := quantity;
            s_unit_price := p_price product;
            s_total := total;
            s_cost := py_round (p_cost product * inject_Z quantity) 2;
            s_profit := profit;
            s_customer_id := customer_id;
            s_region := region |} ]).

(** The body of [for day in range(n_days)]. *)
Definition one_day (products_df : list product) (start_date : datetime)
    (day : Z) (sales : list sale) : M G (list sale) :=
  let current_date := add_days start_date day in
  let is_weekend := 5 <=? weekday (dt_date current_date) in
  n_sales <- draw (np_poisson (if is_weekend then 60 else 40)) ;;
  for_each (range n_sales)
    (fun _ => one_sale products_df current_date) sales.

Definition generate_sales (products_df : list product) (n_days : Z)
  : M G (list sale) :=
  t <- now ;;
  start_date <- sub_days t n_days ;;
  for_each (range n_days) (one_day products_df start_date) [].

(** [generate_all], up to the tables it returns.  The block under
    [if save:] (the directory and the two CSV files) is outside the
    embedding: it does not change the tables, and a run in which a write
    fails does not return.  The printed summary reads [sales['date']], a
    column an empty sale table does not have. *)
Definition generate_all : M G tables :=
  products <- generate_products ;;
  sales <- generate_sales products 180 ;;
  match sales with
  | [] => raise KeyError
  | _ => ret (mkTables products sales)
  end.

End Stages.

Definition run {G} `{RandomSource G} (seed : Z) (clk : clock)
  : outcome G tables :=
  generate_all clk (mkWorld (rs_seed seed) 0 0).

End Robust.

(* ------------------------------------------------------------------ *)
(** ** A scripted random source

    The draws are read off a tape of rationals, one entry per call, each
    entry brought into the range of the operation that reads it; an
    exhausted tape keeps answering with 0.  It serves to evaluate the
    generators on chosen draws. *)

Module Scripted.

Definition tape := list Q.

Definition next (g : tape) : Q * tape :=
  match g with
  | [] => (0%Q, [])
  | x :: g' => (x, g')
  end.

Definition below (n : nat) (g : tape) : nat * tape :=
  let '(x, g') := next g in
  ((Z.to_nat (Z.abs (Qfloor x)) mod n)%nat, g').

Definition clamp (lo hi x : Q) : Q :=
  if Qltb x lo then lo else if Qltb hi x then hi else x.

Definition lognormal (_ _ : Q) (g : tape) : Q * tape := next g.

Definition uniform (lo hi : Q) (g : tape) : Q * tape :=
  let '(x, g') := next g in (clamp lo hi x, g').

Definition poisson (_ : Q) (g : tape) : Z * tape :=
  let '(x, g') := next g in (Z.abs (Qfloor x), g').

Definition randint_ (lo hi : Z) (g : tape) : Z * tape :=
  let '(x, g') := next g in (lo + Qfloor x mod (hi - lo), g').

Definition random (g : tape) : Q * tape :=
  let '(x, g') := next g in
  ((if Qle_bool 0 x && Qltb x 1 then x else 0%Q), g').

Definition text (p : provider) (g : tape) : string * tape :=
  ((match p with
    | word => "lorem"
    | company => "Acme Ltd"
    | first_name => "Ana"
    | last_name => "Diaz"
    | email => "ana@example.org"
    | phone_number => "555-0100"
    | city => "Lima"
    end)%string, g).

Definition date_between_ (_ _ : string) (today : date) (g : tape)
  : date * tape :=
  let '(x, g') := next g in (today - Z.abs (Qfloor x), g').

End Scripted.

#[export, refine] Instance scripted_source (script : Z -> Scripted.tape)
  : RandomSource Scripted.tape :=
  {| rs_seed := script;
     random_randbelow := Scripted.below;
     np_lognormal := Scripted.lognormal;
     np_uniform := Scripted.uniform;
     np_poisson := Scripted.poisson;
     np_randint := Scripted.randint_;
     np_choice := fun n _ => Scripted.below n;
     np_random := Scripted.random;
     pd_sample := Scripted.below;
     fake_text := Scripted.text;
     fake_date_between := Scripted.date_between_ |}.
Proof.
  - intros n g Hn. unfold Scripted.below. destruct (Scripted.next g); simpl.
    apply Nat.mod_upper_bound. lia.
  - intros lam g. unfold Scripted.poisson. destruct (Scripted.next g); simpl.
    apply Z.abs_nonneg.
  - intros lo hi g Hlt. unfold Scripted.randint_.
    destruct (Scripted.next g) as [x g']; simpl.
    pose proof (Z.mod_pos_bound (Qfloor x) (hi - lo)). lia.
  - intros n p g Hn. unfold Scripted.below. destruct (Scripted.next g); simpl.
    apply Nat.mod_upper_bound. lia.
  - intros lo hi g Hle. unfold Scripted.uniform.
    destruct (Scripted.next g) as [x g']; simpl.
    unfold Scripted.clamp, Qltb.
    destruct (Qle_bool lo x) eqn:E1; simpl.
    + destruct (Qle_bool x hi) eqn:E2; simpl.
      * apply Qle_bool_iff in E1, E2. split; assumption.
      * split; [assumption | apply Qle_refl].
    + split; [apply Qle_refl | assumption].
  - intros g. unfold Scripted.random.
    destruct (Scripted.next g) as [x g']; simpl. unfold Qltb.
    destruct (Qle_bool 0 x) eqn:E1; simpl.
    + destruct (Qle_bool 1 x) eqn:E2; simpl.
      * split; [apply Qle_refl | reflexivity].
      * split; [apply Qle_bool_iff; assumption |].
        apply Qnot_le_lt. intros Hc. apply Qle_bool_iff in Hc. congruence.
    + split; [apply Qle_refl | reflexivity].
  - intros n g Hn. unfold Scripted.below. destruct (Scripted.next g); simpl.
    apply Nat.mod_upper_bound. lia.
Defined.


(* ------------------------------------------------------------------ *)
(** ** Vocabulary of the statements *)

Module Spec.
Import Ecommerce.

(** A row [generate_sales] can append under sale id [sale_id] on the day
    [d]: built by [sale_row] from a product and a customer of the two
    tables, a quantity of the discrete distribution and a discount
    fraction [discount]. *)
Definition emitted (products : list product) (customers : list customer)
    (sale_id : Z) (d : datetime) (discount : Q) (s : sale) : Prop :=
  exists product customer quantity payment_method channel,
    In product products /\ In customer customers /\
    In quantity [1; 2; 3; 4; 5] /\
    (0 <= discount <= 0.3)%Q /\
    s = sale_row sale_id d product customer quantity discount
          payment_method channel.

(** The k-th sale id of a run that numbers 1, 2, ... *)
Definition ids_from (first : Z) (n : nat) : list Z :=
  map (fun k => first + Z.of_nat k) (seq 0 n).

(** The state [generate_sales] enters its day loop with. *)
Definition sales_start (self : config) (t : datetime) : sales_state :=
  mkSalesState (add_days t (- n_days self)) 1 [].

(** What every reading of the wall clock is: a [datetime], of the years
    1 to 9999. *)
Definition is_datetime (t : datetime) : Prop :=
  1 <= dt_ordinal t <= MAXORDINAL /\ 0 <= dt_micros t < 86400000000.

(** The window of [n] days before the reading [t] has a start:
    [timedelta(days=n)] exists and [t - timedelta(days=n)] is a date of
    the years 1 to 9999. *)
Definition window_start_exists (t : datetime) (n : Z) : Prop :=
  Z.abs n <= 999999999 /\ 1 <= dt_ordinal t - n <= MAXORDINAL.

(** The world after one clock reading. *)
Definition ticked {G} (w : world G) : world G :=
  mkWorld (w_rng w) (S (w_ticks w)) (w_draws w).

(** Sale ids: the counter is one more than the number of rows, and the
    rows carry 1, 2, ... in order. *)
Definition ids_inv (st : sales_state) : Prop :=
  ss_sale_id st = 1 + Z.of_nat (length (ss_sales st)) /\
  map s_sale_id (ss_sales st) = ids_from 1 (length (ss_sales st)).

(** Shape: every row was built by [sale_row] from the two tables. *)
Definition rows_inv (products : list product) (customers : list customer)
    (st : sales_state) : Prop :=
  Forall (fun s => exists sale_id d discount,
                     emitted products customers sale_id d discount s)
         (ss_sales st).

(** A row of the day [d]. *)
Definition dated (d : datetime) (s : sale) : Prop :=
  s_datetime s = d /\ s_date s = dt_date d.

Definition date_le (a b : sale) : Prop := s_date a <= s_date b.

(** "Raises a ConfigurationError before any random draw": the outcome of
    a run started in the world [w0]. *)
Definition fails_fast {G A} (w0 : world G) (r : outcome G A) : Prop :=
  exists w', r = Raise ConfigurationError w' /\ w_draws w' = w_draws w0.

(** Referential integrity of a sale table against the ids of the product
    table and of the customer table. *)
Definition references_resolve (product_ids customer_ids : list Z)
    (sale_refs : list (Z * Z)) : Prop :=
  forall pid cid, In (pid, cid) sale_refs ->
    In pid product_ids /\ In cid customer_ids.

(** The sales of one customer, and the three aggregates over them. *)
Definition sales_of (customer_id : Z) (sales : list sale) : list sale :=
  filter (fun s => s_customer_id s = customer_id) sales.

Definition count_orders (customer_id : Z) (sales : list sale) : Z :=
  Z.of_nat (length (sales_of customer_id sales)).

Fixpoint sum_total (sales : list sale) : Q :=
  match sales with
  | [] => 0%Q
  | s :: rest => (s_total s + sum_total rest)%Q
  end.

Fixpoint max_date (sales : list sale) : option date :=
  match sales with
  | [] => None
  | s :: rest =>
      match max_date rest with
      | None => Some (s_date s)
      | Some d => Some (Z.max (s_date s) d)
      end
  end.

(** The aggregate columns as [generate_customers] initialises them. *)
Definition initialised (c : customer) : Prop :=
  c_total_spent c = 0.0%Q /\ c_total_orders c = 0 /\
  c_last_purchase_date c = None.

(** What the group-by holds for a customer id. *)
Definition stats_match (cid : Z) (sales : list sale)
    (entry : option (Q * Z * date)) : Prop :=
  match entry with
  | None => sales_of cid sales = []
  | Some (spent, orders, last) =>
      sales_of cid sales <> [] /\
      (spent == sum_total (sales_of cid sales))%Q /\
      orders = count_orders cid sales /\
      Some last = max_date (sales_of cid sales)
  end.

(** "The stock recorded after a restock lies between the reorder point
    and the ideal stock." *)
Definition restocked_into_range (row : inventory_record) : Prop :=
  i_reorder_point row <= i_current_stock row <= i_ideal_stock row.

(** The day factor with Friday and Saturday as the weekend days. *)
Definition friday_saturday_factor (d : datetime) : Q :=
  if decide (weekday (dt_date d) = 4 \/ weekday (dt_date d) = 5)
  then 1.5%Q else 1.0%Q.

(** Number of rows dated [d]. *)
Definition sales_on (d : date) (sales : list sale) : Z :=
  Z.of_nat (length (filter (fun s => s_date s = d) sales)).

(** The two equations of the arithmetic-consistency property, read on
    the fields stored in the row. *)
Definition arithmetic_consistent (s : sale) : Prop :=
  let q := inject_Z (s_quantity s) in
  let keep := (1 - s_discount_pct s / 100)%Q in
  (s_total s == py_round (s_unit_price s * q * keep) 2)%Q /\
  (s_profit s == py_round ((s_unit_price s - s_cost s) * q * keep) 2)%Q.

(** The monetary fields as roundings of the data-model formulas, with
    [unit_cost] the cost of the product sold. *)
Definition rounded_data_model (unit_cost : Q) (s : sale) : Prop :=
  let q := inject_Z (s_quantity s) in
  let keep := (1 - s_discount_pct s / 100)%Q in
  (s_subtotal s == py_round (s_unit_price s * q) 2)%Q /\
  (s_discount_amount s
   == py_round (s_unit_price s * q * (s_discount_pct s / 100)) 2)%Q /\
  (s_total s == py_round (s_unit_price s * q * keep) 2)%Q /\
  (s_cost s == py_round (unit_cost * q) 2)%Q /\
  (s_profit s == py_round ((s_unit_price s - unit_cost) * q * keep) 2)%Q.

(** A value of [round(., 2)]: an amount in whole cents. *)
Definition two_decimals (x : Q) : Prop := exists k : Z, x = k # 100.

(** [x] and [y] agree to a cent and a thousandth of the amount [a]:
    twice the distance that rounding an amount to the cent and a
    percentage to one decimal can put between them. *)
Definition close_to (a x y : Q) : Prop :=
  (Qabs (x - y) <= 0.01 + 0.001 * Qabs a)%Q.

(** The two equations of the arithmetic-consistency property on the
    stored fields, as far as they hold: to that distance, and with the
    stored [cost] read as the cost of the whole line. *)
Definition nearly_consistent (s : sale) : Prop :=
  let gross := (s_unit_price s * inject_Z (s_quantity s))%Q in
  let keep := (1 - s_discount_pct s / 100)%Q in
  close_to gross (s_total s) (gross * keep) /\
  close_to (gross - s_cost s) (s_profit s) ((gross - s_cost s) * keep).

(** The four rounded monetary fields: amounts in whole cents, the
    subtotal within a cent of [unit_price * quantity], the others at
    that distance of their data-model formulas on the stored
    [discount_pct]. *)
Definition rounded_near_data_model (s : sale) : Prop :=
  let gross := (s_unit_price s * inject_Z (s_quantity s))%Q in
  let keep := (1 - s_discount_pct s / 100)%Q in
  (two_decimals (s_subtotal s) /\ two_decimals (s_discount_amount s) /\
   two_decimals (s_total s) /\ two_decimals (s_profit s)) /\
  (Qabs (s_subtotal s - gross) <= 0.01)%Q /\
  close_to gross (s_discount_amount s) (gross * (s_discount_pct s / 100)) /\
  close_to gross (s_total s) (gross * keep) /\
  close_to (gross - s_cost s) (s_profit s) ((gross - s_cost s) * keep).

(** The rows of the robust generator: product ids of the table, customer
    ids between 1 and 1000. *)
Definition robust_rows_ok (products : list Robust.product)
    (sales : list Robust.sale) : Prop :=
  Forall (fun s =>
            (exists p, In p products
                       /\ Robust.p_product_id p = Robust.s_product_id s) /\
            1 <= Robust.s_customer_id s <= 1000) sales.

(** A row of [generate_products] for the loop index [i]. *)
Definition product_row_ok (i : Z) (p : product) : Prop :=
  p_product_id p = i /\
  p_sku p = String.append "SKU-" (format_04d i) /\
  In (p_category p) categories /\
  (exists subs, In (p_category p, subs) subcategories
                /\ In (p_subcategory p) subs) /\
  (30.0 <= p_margin p <= 70.0)%Q /\
  ((0 <= p_price p)%Q -> (0 <= p_cost p <= p_price p)%Q).

(** A row of the inventory walk of a product of [products]. *)
Definition inventory_row_ok (products : list product)
    (row : inventory_record) : Prop :=
  (exists p, In p products /\ i_product_id row = p_product_id p
             /\ i_product_name row = p_product_name p
             /\ i_category row = p_category p) /\
  (exists initial_stock,
     10 <= initial_stock < 100 /\
     i_reorder_point row = 3 * initial_stock / 10 /\
     i_ideal_stock row = 15 * initial_stock / 10) /\
  0 <= i_daily_sales row /\
  0 <= i_current_stock row /\
  i_stock_status row
  = (if decide (i_current_stock row <= i_reorder_point row)
     then "LOW" else "OK")%string.

(** A sale row against the two tables it was drawn from. *)
Definition sale_row_ok (products : list product)
    (customers : list customer) (s : sale) : Prop :=
  (exists p, In p products /\ s_product_id s = p_product_id p
             /\ s_unit_price s = p_price p
             /\ s_category s = p_category p
             /\ s_subcategory s = p_subcategory p
             /\ s_cost s = (p_cost p * inject_Z (s_quantity s))%Q) /\
  (exists c, In c customers /\ s_customer_id s = c_customer_id c
             /\ s_region s = c_region c) /\
  1 <= s_quantity s <= 5 /\
  s_date s = dt_date (s_datetime s) /\
  (0 <= s_discount_pct s <= 30)%Q /\
  ((0 <= s_unit_price s)%Q ->
   (0 <= s_discount_amount s <= s_subtotal s)%Q /\
   (0 <= s_total s <= s_subtotal s)%Q).

(** A sale row of the robust generator against its product table. *)
Definition robust_sale_ok (products : list Robust.product)
    (s : Robust.sale) : Prop :=
  (exists p, In p products /\
     Robust.s_product_id s = Robust.p_product_id p /\
     Robust.s_product_name s = Robust.p_name p /\
     Robust.s_category s = Robust.p_category p /\
     Robust.s_unit_price s = Robust.p_price p /\
     Robust.s_total s
     = py_round (Robust.p_price p * inject_Z (Robust.s_quantity s)) 2 /\
     Robust.s_cost s
     = py_round (Robust.p_cost p * inject_Z (Robust.s_quantity s)) 2 /\
     Robust.s_profit s
     = py_round ((Robust.p_price p - Robust.p_cost p)
                 * inject_Z (Robust.s_quantity s)) 2) /\
  1 <= Robust.s_quantity s <= 3 /\
  1 <= Robust.s_customer_id s <= 1000 /\
  In (Robust.s_region s)
     ["North"; "South"; "East"; "West"; "Central"]%string.

(** A row of the robust product catalogue for the loop index [i]. *)
Definition robust_product_ok (i : Z) (p : Robust.product) : Prop :=
  Robust.p_product_id p = i /\
  Robust.p_name p
  = String.append "Product "
      (NilZero.string_of_uint (N.to_uint (Z.to_N i))) /\
  In (Robust.p_category p) Robust.categories /\
  (10 <= Robust.p_price p <= 500)%Q /\
  (0 <= Robust.p_cost p <= Robust.p_price p)%Q.

Definition robust_date_le (a b : Robust.sale) : Prop :=
  Robust.s_date a <= Robust.s_date b.

(** Number of rows of the robust generator dated [d]. *)
Definition robust_sales_on (d : date) (sales : list Robust.sale) : Z :=
  Z.of_nat (length (filter (fun s => Robust.s_date s = d) sales)).

(** The columns of a customer row that the update never writes. *)
Definition same_profile (c c' : customer) : Prop :=
  c_customer_id c' = c_customer_id c /\
  c_first_name c' = c_first_name c /\
  c_last_name c' = c_last_name c /\
  c_email c' = c_email c /\
  c_phone c' = c_phone c /\
  c_city c' = c_city c /\
  c_region c' = c_region c /\
  c_customer_type c' = c_customer_type c /\
  c_signup_date c' = c_signup_date c.

(** Sum of a column of integers. *)
Definition sum_Z (l : list Z) : Z := foldr Z.add 0 l.

(** One day of the stock walk: from the stock [before] to the row of the
    day.  Either the stock is what the day's sales leave (never below 0),
    or that remainder was at most the reorder point and a restock
    quantity of [reorder_point, ideal_stock) was added to it. *)
Definition stock_step (before : Z) (row : inventory_record) : Prop :=
  let left := py_max 0 (before - i_daily_sales row) in
  i_current_stock row = left \/
  left <= i_reorder_point row /\
  exists restock,
    i_reorder_point row <= restock < i_ideal_stock row /\
    i_current_stock row = left + restock.

(** Consecutive rows of one product, starting from the stock [before]. *)
Fixpoint stock_walk (before : Z) (rows : list inventory_record) : Prop :=
  match rows with
  | [] => True
  | row :: rest => stock_step before row /\ stock_walk (i_current_stock row) rest
  end.

(** The thirty rows of one product under the clock [clk]. *)
Definition inventory_block_ok (clk : clock) (rows : list inventory_record)
  : Prop :=
  (exists initial_stock, 10 <= initial_stock < 100
                         /\ stock_walk initial_stock rows) /\
  Forall2 (fun day row =>
             exists k, i_date row = dt_date (clk k) - (30 - day))
    (range 30) rows.

(** A row of [generate_customers] for the loop index [i]. *)
Definition customer_row_ok (i : Z) (c : customer) : Prop :=
  c_customer_id c = i /\
  initialised c /\
  In (c_region c) regions /\
  In (c_customer_type c) customer_types.

End Spec.
Export Spec.

(* ------------------------------------------------------------------ *)
(** ** Concrete runs

    Small inputs on which the generators are evaluated: one product, one
    customer, a clock that stands still at noon, and scripted draws. *)

Module Scenario.
Import Ecommerce.

(** The scripted source; the stage functions do not read the seed. *)
Definition source (script : Scripted.tape) : RandomSource Scripted.tape :=
  scripted_source (fun _ => script).

Definition world_of (script : Scripted.tape) : world Scripted.tape :=
  mkWorld script 0 0.

(** 2024-03-05 (a Tuesday) and 2024-03-03 (a Sunday), 12:00:00. *)
Definition tuesday_noon : datetime := mkDatetime 738950 43200000000.
Definition sunday_noon : datetime := mkDatetime 738948 43200000000.
(** One microsecond later. *)
Definition tuesday_noon_later : datetime := mkDatetime 738950 43200000001.

Definition still (t : datetime) : clock := fun _ => t.

Definition the_product : product :=
  {| p_product_id := 1;
     p_product_name := "Lorem Ipsum";
     p_category := "Hogar";
     p_subcategory := "Cocina";
     p_price := 100.0%Q;
     p_cost := 60.0%Q;
     p_margin := 40.0%Q;
     p_sku := "SKU-0001";
     p_supplier := "Acme Ltd";
     p_weight_kg := 1.5%Q;
     p_created_date := 738400 |}.

Definition one_product : list product := [the_product].

Definition the_customer : customer :=
  {| c_customer_id := 1;
     c_first_name := "Ana";
     c_last_name := "Diaz";
     c_email := "ana@example.org";
     c_phone := "555-0100";
     c_city := "Lima";
     c_region := "Norte";
     c_customer_type := "Regular";
     c_signup_date := 738000;
     c_last_purchase_date := None;
     c_total_spent := 0.0%Q;
     c_total_orders := 0 |}.

Definition one_customer : list customer := [the_customer].

(** One day; a Poisson draw of 2; the first sale draws quantity 2 and a
    discount of 0.1234, the second (the tape being exhausted) quantity 1
    and a discount of 0. *)
Definition one_day_config : config := mkConfig 1 1 1.
Definition two_sales_script : Scripted.tape :=
  [2; 0; 0; 1; 0.1; 0.1234; 0; 0]%Q.

Definition two_sales : outcome Scripted.tape (list sale) :=
  @generate_sales _ (source two_sales_script) one_day_config
    one_product one_customer (still tuesday_noon)
    (world_of two_sales_script).

(** The same day loop when the one day of the window is a Sunday. *)
Definition sunday_script : Scripted.tape := [2]%Q.
Definition sunday_sales : outcome Scripted.tape (list sale) :=
  @generate_sales _ (source sunday_script) one_day_config
    one_product one_customer (still sunday_noon) (world_of sunday_script).

(** No product, one customer, one day: the customer stage makes its
    draws, then the day loop draws a count of 0, or of 2. *)
Definition no_product_config : config := mkConfig 0 1 1.
Definition quiet_day_script : Scripted.tape := [30; 0; 0; 0]%Q.
Definition busy_day_script : Scripted.tape := [30; 0; 0; 2]%Q.

Definition no_product_run (script : Scripted.tape)
  : outcome Scripted.tape tables :=
  @run _ (source script) 42 no_product_config (still tuesday_noon).

Definition no_product_sales (script : Scripted.tape)
  : outcome Scripted.tape (list sale) :=
  @generate_sales _ (source script) one_day_config [] one_customer
    (still tuesday_noon) (world_of script).

(** A whole run of [generate_all_data]: one product (price 100.00, cost
    60.00), one customer, one day with the two sales above, and an
    inventory walk that starts at 10 units, sells 7 on its first day and
    restocks 14. *)
Definition full_script : Scripted.tape :=
  [ 0; 0; 10; 0.4; 1.5; 400;
    30; 0; 0;
    2; 0; 0; 1; 0.1; 0.1234; 0; 0; 0; 0; 0; 0.5; 0; 0;
    0; 7; 0.1; 11 ]%Q.

Definition full_run (clk : clock) : outcome Scripted.tape tables :=
  @run _ (source full_script) 42 one_day_config clk.

(** A run of [RobustDataGenerator.generate_all]: the hundred products
    draw 0 throughout, the first day has one sale, the others none. *)
Definition robust_script : Scripted.tape := replicate 300 0%Q ++ [1%Q].

Definition robust_run_at (t : datetime)
  : outcome Scripted.tape Robust.tables :=
  @Robust.run _ (source robust_script) 42 (still t).

Definition robust_run : outcome Scripted.tape Robust.tables :=
  robust_run_at tuesday_noon.

(** One day of the inventory walk of the product above: 10 units in
    stock (reorder point 3, ideal stock 15), 7 sold, then the restock
    test draws 0.1 and the restock quantity 14. *)
Definition restock_script : Scripted.tape := [7; 0.1; 11]%Q.
Definition restock_day : outcome Scripted.tape stock_state :=
  @inventory_day _ (source restock_script) the_product
    3 15 0 (mkStockState 10 [])
    (still tuesday_noon) (world_of restock_script).

Definition state_of (r : outcome Scripted.tape stock_state) : stock_state :=
  match r with Ok st _ => st | Raise _ _ => mkStockState 0 [] end.

(** Two days of the robust generator over one product: one sale on the
    first day (a Sunday), two on the second (a Monday). *)
Definition robust_products : list Robust.product :=
  [ {| Robust.p_product_id := 1;
       Robust.p_name := "Product 1";
       Robust.p_category := "Home";
       Robust.p_price := 20.0%Q;
       Robust.p_cost := 8.0%Q;
       Robust.p_margin_pct := 60.0%Q |} ].

Definition robust_sales_script : Scripted.tape :=
  [1; 0; 1; 6; 2; 2]%Q.

Definition robust_sales : outcome Scripted.tape (list Robust.sale) :=
  @Robust.generate_sales _ (source robust_sales_script) robust_products 2
    (still tuesday_noon) (world_of robust_sales_script).

(** One iteration of the day loop of [generate_sales], on the draws of
    the two sales above. *)
Definition one_day_run : outcome Scripted.tape sales_state :=
  @one_day _ (source two_sales_script) one_product one_customer
    (mkSalesState tuesday_noon 1 []) (still tuesday_noon)
    (world_of two_sales_script).

Definition day_state (r : outcome Scripted.tape sales_state) : sales_state :=
  match r with Ok st _ => st | Raise _ _ => mkSalesState tuesday_noon 1 [] end.

(** Two products and two customers, each stage run on its own. *)
Definition two_rows_config : config := mkConfig 2 2 1.
Definition products_script : Scripted.tape :=
  [ 0; 0; 10; 0.4; 1.5; 400;
    1; 1; 25; 0.5; 2; 100 ]%Q.
Definition customers_script : Scripted.tape := [30; 0; 0; 60; 1; 1]%Q.

Definition tables_of {T} (default : T) (r : outcome Scripted.tape T) : T :=
  match r with Ok t _ => t | Raise _ _ => default end.

Definition rows_of {A} (r : outcome Scripted.tape (list A)) : list A :=
  match r with Ok rows _ => rows | Raise _ _ => [] end.

Definition world_after {A} (r : outcome Scripted.tape A)
  : world Scripted.tape :=
  match r with Ok _ w => w | Raise _ w => w end.

End Scenario.
(* ================================================================== *)
(** * Properties *)

(** ** Reading a run backwards *)

Section Inversion.
Context {G : Type} `{RandomSource G}.
Local Open Scope gen_scope.

Lemma bind_Ok {A B} (m : M G A) (k : A -> M G B) clk w b w2 :
  bind m k clk w = Ok b w2 ->
  exists a w1, m clk w = Ok a w1 /\ k a clk w1 = Ok b w2.
Proof.
  unfold bind. destruct (m clk w) as [a w1 | e w1]; [eauto | discriminate].
Qed.

Lemma ret_Ok {A} (a b : A) clk (w w' : world G) :
  ret a clk w = Ok b w' -> b = a /\ w' = w.
Proof. unfold ret. intros [= -> ->]. auto. Qed.

Lemma draw_Ok {A} (f : G -> A * G) clk w a w' :
  draw f clk w = Ok a w' ->
  a = fst (f (w_rng w)) /\
  w' = mkWorld (snd (f (w_rng w))) (w_ticks w) (S (w_draws w)).
Proof.
  unfold draw. destruct (f (w_rng w)) as [a0 g]. intros [= <- <-]. auto.
Qed.

Lemma now_Ok clk (w : world G) t w' :
  now clk w = Ok t w' ->
  t = clk (w_ticks w) /\
  w' = mkWorld (w_rng w) (S (w_ticks w)) (w_draws w).
Proof. unfold now. intros [= <- <-]. auto. Qed.

Lemma window_start_exists_iff t n :
  window_start_exists t n <->
  timedelta_ok n && date_ok (dt_ordinal t - n) = true.
Proof.
  unfold window_start_exists, timedelta_ok, date_ok.
  rewrite !andb_true_iff, !Z.leb_le. tauto.
Qed.

Lemma sub_days_Ok dt n clk (w : world G) d w' :
  sub_days dt n clk w = Ok d w' ->
  d = add_days dt (- n) /\ w' = w /\ window_start_exists dt n.
Proof.
  unfold sub_days.
  destruct (timedelta_ok n && date_ok (dt_ordinal dt - n)) eqn:E;
    [| discriminate].
  intros [= <- <-]. apply window_start_exists_iff in E. auto.
Qed.

Lemma sub_days_run dt n clk (w : world G) :
  window_start_exists dt n ->
  sub_days dt n clk w = Ok (add_days dt (- n)) w.
Proof.
  intros Hok. apply window_start_exists_iff in Hok.
  unfold sub_days. rewrite Hok. reflexivity.
Qed.

Lemma sub_days_raise dt n clk (w : world G) :
  ~ window_start_exists dt n ->
  sub_days dt n clk w = Raise OverflowError w.
Proof.
  intros Hno. unfold sub_days.
  destruct (timedelta_ok n && date_ok (dt_ordinal dt - n)) eqn:E;
    [| reflexivity].
  apply window_start_exists_iff in E. contradiction.
Qed.

Lemma randint_Ok lo hi clk w a w' :
  randint lo hi clk w = Ok a w' ->
  lo < hi /\ lo <= a < hi /\ a = fst (np_randint lo hi (w_rng w)).
Proof.
  unfold randint. destruct (lo <? hi) eqn:E; [| discriminate].
  apply Z.ltb_lt in E. intros Hd. apply draw_Ok in Hd as [-> _].
  split; [assumption |]. split; [| reflexivity].
  apply np_randint_range; assumption.
Qed.

Lemma iloc_Ok {A} (df : list A) i clk (w : world G) row w' :
  iloc df i clk w = Ok row w' -> In row df /\ w' = w.
Proof.
  unfold iloc.
  destruct (if 0 <=? i then df !! Z.to_nat i
            else df !! Z.to_nat (Z.of_nat (length df) + i)) as [r |] eqn:E;
    [| discriminate].
  intros Hr. apply ret_Ok in Hr as [-> ->]. split; [| reflexivity].
  apply list_elem_of_In.
  destruct (0 <=? i); eapply list_elem_of_lookup_2; eassumption.
Qed.

Lemma random_choice_Ok {A} (l : list A) clk w x w' :
  random_choice l clk w = Ok x w' -> In x l.
Proof.
  unfold random_choice. destruct l as [| y l']; [discriminate |].
  intros Hb. apply bind_Ok in Hb as (i & w1 & _ & Hk).
  destruct ((y :: l') !! i) as [z |] eqn:E; [| discriminate].
  apply ret_Ok in Hk as [-> _].
  apply list_elem_of_In. eapply list_elem_of_lookup_2; eassumption.
Qed.

Lemma choice_Ok {A} (a : list A) p clk w x w' :
  choice a p clk w = Ok x w' -> In x a.
Proof.
  unfold choice. destruct a as [| y l']; [discriminate |].
  intros Hb. apply bind_Ok in Hb as (i & w1 & _ & Hk).
  destruct ((y :: l') !! i) as [z |] eqn:E; [| discriminate].
  apply ret_Ok in Hk as [-> _].
  apply list_elem_of_In. eapply list_elem_of_lookup_2; eassumption.
Qed.

(** A loop invariant carries over a whole [for]. *)
Lemma for_each_invariant {I A} (P : A -> Prop) (xs : list I)
    (body : I -> A -> M G A) :
  (forall x a clk w a' w', P a -> body x a clk w = Ok a' w' -> P a') ->
  forall acc clk w r w',
    P acc -> for_each xs body acc clk w = Ok r w' -> P r.
Proof.
  intros Hbody. induction xs as [| x xs IH]; intros acc clk w r w' HP Hrun.
  - simpl in Hrun. apply ret_Ok in Hrun as [-> _]. assumption.
  - simpl in Hrun. apply bind_Ok in Hrun as (a1 & w1 & H1 & H2).
    eapply IH; [| eassumption]. eapply Hbody; eassumption.
Qed.

Lemma for_each_app {I A} (xs ys : list I) (body : I -> A -> M G A) acc
    clk w :
  for_each (xs ++ ys) body acc clk w =
  bind (for_each xs body acc) (for_each ys body) clk w.
Proof.
  revert acc w. induction xs as [| x xs IH]; intros acc w; simpl.
  - reflexivity.
  - unfold bind. destruct (body x acc clk w) as [a1 w1 | e w1].
    + specialize (IH a1 w1). unfold bind in IH. exact IH.
    + reflexivity.
Qed.

End Inversion.

(** Take the next step of a run apart. *)
Ltac step_run H :=
  let a := fresh "a" in
  let w := fresh "w" in
  let H1 := fresh "Hstep" in
  apply bind_Ok in H as (a & w & H1 & H).

(** ** Running forwards: the steps that cannot fail *)

Section Totality.
Context {G : Type} `{RandomSource G}.

Lemma bind_run {A B} (m : M G A) (k : A -> M G B) clk w a w1 :
  m clk w = Ok a w1 -> bind m k clk w = k a clk w1.
Proof. unfold bind. intros ->. reflexivity. Qed.

Lemma draw_run {A} (f : G -> A * G) clk w :
  draw f clk w =
  Ok (fst (f (w_rng w)))
     (mkWorld (snd (f (w_rng w))) (w_ticks w) (S (w_draws w))).
Proof. unfold draw. destruct (f (w_rng w)). reflexivity. Qed.

Lemma randint_total lo hi clk w :
  lo < hi ->
  exists a w', randint lo hi clk w = Ok a w' /\ lo <= a < hi.
Proof.
  intros Hlt. unfold randint.
  destruct (lo <? hi) eqn:E; [| apply Z.ltb_ge in E; lia].
  rewrite draw_run. eexists _, _. split; [reflexivity |].
  apply np_randint_range. exact Hlt.
Qed.

Lemma iloc_total {A} (df : list A) i clk (w : world G) :
  0 <= i < Z.of_nat (length df) -> exists row, iloc df i clk w = Ok row w.
Proof.
  intros Hi. unfold iloc.
  destruct (0 <=? i) eqn:E; [| apply Z.leb_gt in E; lia].
  destruct (lookup_lt_is_Some_2 df (Z.to_nat i)) as [row Hrow]; [lia |].
  rewrite Hrow. exists row. reflexivity.
Qed.

Lemma random_choice_total {A} (l : list A) clk w :
  l <> [] -> exists x w', random_choice l clk w = Ok x w'.
Proof.
  intros Hne. unfold random_choice. destruct l as [| y l']; [congruence |].
  erewrite bind_run; [| apply draw_run].
  destruct (lookup_lt_is_Some_2 (y :: l')
              (fst (random_randbelow (length (y :: l')) (w_rng w))))
    as [x Hx].
  { apply random_randbelow_lt. simpl. lia. }
  rewrite Hx. eexists _, _. reflexivity.
Qed.

Lemma choice_total {A} (a : list A) p clk w :
  a <> [] -> exists x w', choice a p clk w = Ok x w'.
Proof.
  intros Hne. unfold choice. destruct a as [| y l']; [congruence |].
  erewrite bind_run; [| apply draw_run].
  destruct (lookup_lt_is_Some_2 (y :: l')
              (fst (np_choice (length (y :: l')) p (w_rng w))))
    as [x Hx].
  { apply np_choice_lt. simpl. lia. }
  rewrite Hx. eexists _, _. reflexivity.
Qed.

Lemma for_each_total {I A} (xs : list I) (body : I -> A -> M G A) :
  (forall x a clk w, exists a' w', body x a clk w = Ok a' w') ->
  forall acc clk w, exists r w', for_each xs body acc clk w = Ok r w'.
Proof.
  intros Hbody. induction xs as [| x xs IH]; intros acc clk w; simpl.
  - eexists _, _. reflexivity.
  - destruct (Hbody x acc clk w) as (a1 & w1 & H1).
    erewrite bind_run; [| exact H1]. apply IH.
Qed.

End Totality.

(** Take the next step of a run forwards, along a known result. *)
Ltac run_with H := erewrite bind_run; [| exact H].
Ltac run_draw := erewrite bind_run; [| apply draw_run].

(** ** Rounding *)

Lemma round_half_even_comp (x y : Q) :
  (x == y)%Q -> round_half_even x = round_half_even y.
Proof.
  intros Hxy. unfold round_half_even.
  rewrite (Qfloor_comp _ _ Hxy).
  assert (Hd : (x - inject_Z (Qfloor y) == y - inject_Z (Qfloor y))%Q)
    by (rewrite Hxy; reflexivity).
  rewrite (Qcompare_comp _ _ Hd _ _ (Qeq_refl (1 # 2))). reflexivity.
Qed.

Lemma py_round_comp (x y : Q) n :
  (x == y)%Q -> py_round x n = py_round y n.
Proof.
  intros Hxy. unfold py_round. f_equal.
  apply round_half_even_comp. rewrite Hxy. reflexivity.
Qed.

(** A rounded value is half a unit of the last digit away at most. *)
Lemma round_half_even_near x :
  (Qabs (inject_Z (round_half_even x) - x) <= 1 # 2)%Q.
Proof.
  apply Qabs_Qle_condition.
  pose proof (Qfloor_le x) as Hlo.
  pose proof (Qlt_floor x) as Hhi.
  rewrite inject_Z_plus in Hhi. change (inject_Z 1) with 1%Q in Hhi.
  unfold round_half_even.
  destruct (Qcompare (x - inject_Z (Qfloor x)) (1 # 2)) eqn:E.
  - apply Qeq_alt in E.
    destruct (Z.even (Qfloor x));
      [| rewrite inject_Z_plus; change (inject_Z 1) with 1%Q]; lra.
  - apply Qlt_alt in E. lra.
  - apply Qgt_alt in E. rewrite inject_Z_plus.
    change (inject_Z 1) with 1%Q. lra.
Qed.

Lemma Qmake_100 k : (k # 100 == inject_Z k / 100)%Q.
Proof. unfold Qeq, Qdiv, Qmult, Qinv, inject_Z. simpl. lia. Qed.

Lemma Qmake_10 k : (k # 10 == inject_Z k / 10)%Q.
Proof. unfold Qeq, Qdiv, Qmult, Qinv, inject_Z. simpl. lia. Qed.

Lemma py_round_near_2 x : (Qabs (py_round x 2 - x) <= 1 # 200)%Q.
Proof.
  pose proof (round_half_even_near (x * inject_Z 100)) as Hr.
  apply Qabs_Qle_condition in Hr. apply Qabs_Qle_condition.
  unfold py_round.
  change (10 ^ Pos.of_nat 2)%positive with 100%positive.
  change (Z.pos 100) with 100%Z.
  set (k := round_half_even (x * inject_Z 100)) in *.
  rewrite Qmake_100. change (inject_Z 100) with 100%Q in Hr.
  unfold Qdiv. change (/ 100)%Q with (1 # 100)%Q. lra.
Qed.

Lemma py_round_near_1 x : (Qabs (py_round x 1 - x) <= 1 # 20)%Q.
Proof.
  pose proof (round_half_even_near (x * inject_Z 10)) as Hr.
  apply Qabs_Qle_condition in Hr. apply Qabs_Qle_condition.
  unfold py_round.
  change (10 ^ Pos.of_nat 1)%positive with 10%positive.
  change (Z.pos 10) with 10%Z.
  set (k := round_half_even (x * inject_Z 10)) in *.
  rewrite Qmake_10. change (inject_Z 10) with 10%Q in Hr.
  unfold Qdiv. change (/ 10)%Q with (1 # 10)%Q. lra.
Qed.

Lemma py_round_two_decimals x : two_decimals (py_round x 2).
Proof. eexists. reflexivity. Qed.

(** An amount [x] within half a cent of [a * f], and a percentage within
    a twentieth of [100 * f]: on the percentage, [x] is within half a
    cent and a two-thousandth of [a] of the same product. *)
Lemma near_on_percentage a f pct x :
  (Qabs (x - a * f) <= 1 # 200)%Q ->
  (Qabs (pct - f * 100) <= 1 # 20)%Q ->
  (Qabs (x - a * (pct / 100)) <= (1 # 200) + (1 # 2000) * Qabs a)%Q.
Proof.
  intros Hx Hpct.
  assert (Hsplit : (x - a * (pct / 100)
                    == (x - a * f) + a * (- ((pct - f * 100) / 100)))%Q)
    by field.
  rewrite Hsplit.
  eapply Qle_trans; [apply Qabs_triangle |].
  apply Qplus_le_compat; [exact Hx |].
  rewrite Qabs_Qmult, Qmult_comm.
  apply Qmult_le_compat_r; [| apply Qabs_nonneg].
  rewrite Qabs_opp. unfold Qdiv. rewrite Qabs_Qmult.
  change (Qabs (/ 100)) with (1 # 100)%Q.
  apply Qabs_Qle_condition in Hpct.
  assert (Hp : (Qabs (pct - f * 100) <= 1 # 20)%Q)
    by (apply Qabs_Qle_condition; exact Hpct).
  lra.
Qed.

(** The same on the complement [1 - f]. *)
Lemma near_on_kept_percentage a f pct x :
  (Qabs (x - a * (1 - f)) <= 1 # 200)%Q ->
  (Qabs (pct - f * 100) <= 1 # 20)%Q ->
  (Qabs (x - a * (1 - pct / 100)) <= (1 # 200) + (1 # 2000) * Qabs a)%Q.
Proof.
  intros Hx Hpct.
  assert (Hsplit : (x - a * (1 - pct / 100)
                    == (x - a * (1 - f)) + a * ((pct - f * 100) / 100))%Q)
    by field.
  rewrite Hsplit.
  eapply Qle_trans; [apply Qabs_triangle |].
  apply Qplus_le_compat; [exact Hx |].
  rewrite Qabs_Qmult, Qmult_comm.
  apply Qmult_le_compat_r; [| apply Qabs_nonneg].
  unfold Qdiv. rewrite Qabs_Qmult.
  change (Qabs (/ 100)) with (1 # 100)%Q.
  lra.
Qed.

Lemma close_to_weaken a x y :
  (Qabs (x - y) <= (1 # 200) + (1 # 2000) * Qabs a)%Q -> close_to a x y.
Proof.
  intros Hxy. unfold close_to. pose proof (Qabs_nonneg a). lra.
Qed.

Lemma py_int_floor (x : Q) : (0 <= x)%Q -> py_int x = Qfloor x.
Proof.
  destruct x as [n d]. unfold Qle, py_int, Qfloor. simpl. intros Hn.
  apply Z.quot_div_nonneg; lia.
Qed.

(** ** Lists *)

Lemma filter_all {A} (P : A -> Prop) `{forall x, Decision (P x)}
    (l : list A) :
  Forall P l -> filter P l = l.
Proof.
  induction 1 as [| x l Hx Hl IH]; [reflexivity |].
  rewrite filter_cons_True by exact Hx. rewrite IH. reflexivity.
Qed.

Lemma filter_none {A} (P : A -> Prop) `{forall x, Decision (P x)}
    (l : list A) :
  Forall (fun x => ~ P x) l -> filter P l = [].
Proof.
  induction 1 as [| x l Hx Hl IH]; [reflexivity |].
  rewrite filter_cons_False by exact Hx. exact IH.
Qed.

Section LoopShape.
Context {G : Type}.

(** A body that ignores the loop variable only counts the iterations. *)
Lemma for_each_ignore {I J A} (xs : list I) (ys : list J)
    (body : A -> M G A) acc clk w :
  length xs = length ys ->
  for_each xs (fun _ => body) acc clk w
  = for_each ys (fun _ => body) acc clk w.
Proof.
  revert ys acc w. induction xs as [| x xs IH]; intros [| y ys] acc w Hlen;
    simpl in Hlen; try discriminate; simpl.
  - reflexivity.
  - unfold bind. destruct (body acc clk w) as [a1 w1 | e w1].
    + apply IH. lia.
    + reflexivity.
Qed.

End LoopShape.

(** ** The transaction generator, loop by loop *)

Section SalesRun.
Import Ecommerce.
Context {G : Type} `{RandomSource G}.
Variables (products : list product) (customers : list customer).

Lemma one_sale_Ok st clk w st' w' :
  one_sale products customers st clk w = Ok st' w' ->
  exists discount s,
    emitted products customers (ss_sale_id st) (ss_current_date st)
      discount s /\
    st' = mkSalesState (ss_current_date st) (ss_sale_id st + 1)
            (ss_sales st ++ [s]).
Proof.
  unfold one_sale. intros Hrun.
  step_run Hrun. apply randint_Ok in Hstep as _.
  step_run Hrun. apply iloc_Ok in Hstep as [Hp ->].
  step_run Hrun. apply randint_Ok in Hstep as _.
  step_run Hrun. apply iloc_Ok in Hstep as [Hc ->].
  step_run Hrun. apply choice_Ok in Hstep as Hq.
  step_run Hrun. clear Hstep.
  step_run Hrun.
  assert (Hd : (0 <= a5 <= 0.3)%Q).
  { destruct (Qltb a4 0.2).
    - apply draw_Ok in Hstep as [-> _]. apply np_uniform_range. discriminate.
    - apply ret_Ok in Hstep as [-> _]. split; discriminate. }
  step_run Hrun. step_run Hrun.
  apply ret_Ok in Hrun as [-> _].
  eexists a5, _. split; [| reflexivity].
  exists a0, a2, a3, a6, a7. auto.
Qed.


Lemma ids_from_snoc first n :
  ids_from first (S n) = ids_from first n ++ [first + Z.of_nat n].
Proof.
  unfold ids_from. rewrite seq_S, map_app. reflexivity.
Qed.

Lemma one_sale_ids st clk w st' w' :
  ids_inv st -> one_sale products customers st clk w = Ok st' w' ->
  ids_inv st'.
Proof.
  intros [Hid Hmap] Hrun.
  apply one_sale_Ok in Hrun as (discount & s & Hs & ->).
  destruct Hs as (p & c & q & pm & ch & _ & _ & _ & _ & ->).
  unfold ids_inv; simpl. rewrite length_app, map_app; simpl.
  rewrite Nat.add_1_r, ids_from_snoc, Hmap, Hid.
  split; [lia | reflexivity].
Qed.

Lemma one_day_ids st clk w st' w' :
  ids_inv st -> one_day products customers st clk w = Ok st' w' ->
  ids_inv st'.
Proof.
  intros Hinv Hrun. unfold one_day in Hrun. step_run Hrun.
  eapply (for_each_invariant ids_inv); [| | exact Hrun].
  - intros x sa ck wa sb wb. apply one_sale_ids.
  - exact Hinv.
Qed.


Lemma one_sale_rows st clk w st' w' :
  rows_inv products customers st -> one_sale products customers st clk w = Ok st' w' ->
  rows_inv products customers st'.
Proof.
  intros Hinv Hrun.
  apply one_sale_Ok in Hrun as (discount & s & Hs & ->).
  unfold rows_inv in *; simpl. apply Forall_app. split; [exact Hinv |].
  constructor; [eauto | constructor].
Qed.

Lemma one_day_rows st clk w st' w' :
  rows_inv products customers st -> one_day products customers st clk w = Ok st' w' ->
  rows_inv products customers st'.
Proof.
  intros Hinv Hrun. unfold one_day in Hrun. step_run Hrun.
  eapply (for_each_invariant (rows_inv products customers)); [| | exact Hrun].
  - intros x sa ck wa sb wb. apply one_sale_rows.
  - exact Hinv.
Qed.

(** Dates: what one day and a run of days append. *)

Lemma sale_loop_dates {I} (xs : list I) st clk w st' w' :
  for_each xs (fun _ => one_sale products customers) st clk w = Ok st' w' ->
  ss_current_date st' = ss_current_date st /\
  exists new,
    ss_sales st' = ss_sales st ++ new /\
    length new = length xs /\
    Forall (dated (ss_current_date st)) new.
Proof.
  revert st w. induction xs as [| x xs IH]; intros st w Hrun; simpl in Hrun.
  - apply ret_Ok in Hrun as [-> _]. split; [reflexivity |].
    exists []. rewrite app_nil_r. auto.
  - step_run Hrun.
    apply one_sale_Ok in Hstep as (discount & s & Hs & ->).
    apply IH in Hrun as (Hd & new & Hnew & Hlen & Hall). simpl in *.
    split; [exact Hd |].
    exists (s :: new). rewrite Hnew, <- app_assoc. simpl.
    split; [reflexivity |]. split; [lia |].
    constructor; [| exact Hall].
    destruct Hs as (p & c & q & pm & ch & _ & _ & _ & _ & ->).
    split; reflexivity.
Qed.

Lemma one_day_dates st clk w st' w' :
  one_day products customers st clk w = Ok st' w' ->
  let d := add_days (ss_current_date st) 1 in
  let base := fst (np_poisson 50 (w_rng w)) in
  ss_current_date st' = d /\
  exists new,
    ss_sales st' = ss_sales st ++ new /\
    length new =
      Z.to_nat (py_int (inject_Z base * seasonal_factor d)) /\
    Forall (dated d) new.
Proof.
  intros Hrun d base. unfold one_day in Hrun. step_run Hrun.
  apply draw_Ok in Hstep as [-> _].
  apply sale_loop_dates in Hrun as (Hd & new & Hnew & Hlen & Hall).
  simpl in *. split; [exact Hd |]. exists new.
  split; [exact Hnew |]. split; [| exact Hall].
  rewrite Hlen. unfold range. rewrite length_map, length_seq. reflexivity.
Qed.


Lemma StronglySorted_app_between {A} (R : A -> A -> Prop) l1 l2 :
  StronglySorted R l1 -> StronglySorted R l2 ->
  (forall a b, In a l1 -> In b l2 -> R a b) ->
  StronglySorted R (l1 ++ l2).
Proof.
  induction l1 as [| a l1 IH]; intros H1 H2 Hb; simpl; [exact H2 |].
  inversion H1 as [| a' l' Hs Hall]; subst.
  constructor.
  - apply IH; [exact Hs | exact H2 |]. intros; apply Hb; simpl; auto.
  - apply Forall_app. split; [exact Hall |].
    apply Forall_forall. intros b Hin. apply Hb; simpl; auto.
    apply list_elem_of_In. exact Hin.
Qed.

Lemma same_day_sorted d (l : list sale) :
  Forall (dated d) l -> StronglySorted date_le l.
Proof.
  intros Hall. induction Hall as [| s l Hs Hl IH]; constructor.
  - exact IH.
  - eapply Forall_impl; [exact Hl |]. intros b Hb. unfold date_le.
    destruct Hs as [_ Hs], Hb as [_ Hb]. rewrite Hs, Hb. lia.
Qed.

Lemma dt_date_add_days d n : dt_date (add_days d n) = dt_date d + n.
Proof. reflexivity. Qed.

Lemma add_days_add d a b : add_days (add_days d a) b = add_days d (a + b).
Proof. unfold add_days; simpl. f_equal. lia. Qed.

Lemma day_loop_dates {I} (xs : list I) st clk w st' w' :
  for_each xs (fun _ => one_day products customers) st clk w = Ok st' w' ->
  ss_current_date st' =
    add_days (ss_current_date st) (Z.of_nat (length xs)) /\
  exists new,
    ss_sales st' = ss_sales st ++ new /\
    Forall (fun s =>
              dt_date (ss_current_date st) < s_date s
              <= dt_date (ss_current_date st) + Z.of_nat (length xs)) new /\
    StronglySorted date_le new.
Proof.
  revert st w. induction xs as [| x xs IH]; intros st w Hrun; simpl in Hrun.
  - apply ret_Ok in Hrun as [-> _]. split.
    + unfold add_days; destruct (ss_current_date st); simpl.
      f_equal. lia.
    + exists []. rewrite app_nil_r. repeat split; constructor.
  - step_run Hrun.
    apply one_day_dates in Hstep as (Hd1 & new1 & Hnew1 & _ & Hall1).
    apply IH in Hrun as (Hd & new2 & Hnew2 & Hall2 & Hsorted2).
    rewrite Hd1 in *. split.
    + rewrite Hd, add_days_add. f_equal. simpl length. lia.
    + exists (new1 ++ new2). rewrite Hnew2, Hnew1, <- app_assoc.
      split; [reflexivity |]. split.
      * apply Forall_app. split.
        -- eapply Forall_impl; [exact Hall1 |]. intros s [_ Hs].
           rewrite Hs, dt_date_add_days. simpl length. lia.
        -- eapply Forall_impl; [exact Hall2 |]. cbv beta. intros s Hs.
           rewrite dt_date_add_days in Hs. simpl length. lia.
      * apply StronglySorted_app_between.
        -- eapply same_day_sorted; exact Hall1.
        -- exact Hsorted2.
        -- intros s1 s2 Ha Hb. unfold date_le.
           rewrite Forall_forall in Hall1, Hall2.
           apply list_elem_of_In in Ha, Hb.
           destruct (Hall1 s1 Ha) as [_ Hda]. specialize (Hall2 s2 Hb).
           rewrite Hda. rewrite dt_date_add_days in *. lia.
Qed.

Lemma generate_sales_Ok self clk w sales w' :
  generate_sales self products customers clk w = Ok sales w' ->
  exists st,
    for_each (range (n_days self))
      (fun _ => one_day products customers)
      (sales_start self (clk (w_ticks w))) clk (ticked w) = Ok st w' /\
    sales = ss_sales st.
Proof.
  unfold generate_sales. intros Hrun. step_run Hrun.
  apply now_Ok in Hstep as [-> ->].
  apply bind_Ok in Hrun as (start & w0 & Hstart & Hrun).
  apply sub_days_Ok in Hstart as (-> & -> & _).
  apply bind_Ok in Hrun as (st & w1 & Hloop & Hrun).
  apply ret_Ok in Hrun as [-> ->].
  exists st. split; [exact Hloop | reflexivity].
Qed.

(** A run that returns had a window whose start is a date. *)
Lemma generate_sales_window self clk w sales w' :
  generate_sales self products customers clk w = Ok sales w' ->
  window_start_exists (clk (w_ticks w)) (n_days self).
Proof.
  unfold generate_sales. intros Hrun. step_run Hrun.
  apply now_Ok in Hstep as [-> ->].
  apply bind_Ok in Hrun as (start & w0 & Hstart & _).
  apply sub_days_Ok in Hstart as (_ & _ & Hok). exact Hok.
Qed.

(** Without one the run ends at the subtraction, the clock read and
    nothing drawn. *)
Lemma generate_sales_overflow self clk w :
  ~ window_start_exists (clk (w_ticks w)) (n_days self) ->
  generate_sales self products customers clk w
  = Raise OverflowError (ticked w).
Proof.
  intros Hno. unfold generate_sales.
  erewrite bind_run; [| reflexivity].
  unfold bind. rewrite sub_days_raise by exact Hno. reflexivity.
Qed.

Lemma generate_sales_rows self clk w sales w' :
  generate_sales self products customers clk w = Ok sales w' ->
  Forall (fun s => exists sale_id d discount,
                     emitted products customers sale_id d discount s) sales.
Proof.
  intros Hrun. apply generate_sales_Ok in Hrun as (st & Hloop & ->).
  eapply (for_each_invariant (rows_inv products customers)) in Hloop.
  - exact Hloop.
  - intros x sa ck wa sb wb. apply one_day_rows.
  - constructor.
Qed.

Lemma range_length n : length (range n) = Z.to_nat n.
Proof. unfold range. rewrite length_map, length_seq. reflexivity. Qed.

(** With a product and a customer to pick, the generator runs to its
    end. *)
Lemma one_sale_total st clk w :
  products <> [] -> customers <> [] ->
  exists st' w', one_sale products customers st clk w = Ok st' w'.
Proof.
  intros Hp Hc. unfold one_sale.
  assert (Hlp : 0 < Z.of_nat (length products))
    by (destruct products; [congruence | simpl; lia]).
  assert (Hlc : 0 < Z.of_nat (length customers))
    by (destruct customers; [congruence | simpl; lia]).
  destruct (randint_total 0 _ clk w Hlp) as (pi & w1 & Hr1 & Hpi).
  run_with Hr1.
  destruct (iloc_total products pi clk w1 Hpi) as (product & Hi1).
  run_with Hi1.
  destruct (randint_total 0 _ clk w1 Hlc) as (ci & w2 & Hr2 & Hci).
  run_with Hr2.
  destruct (iloc_total customers ci clk w2 Hci) as (customer & Hi2).
  run_with Hi2.
  destruct (choice_total [1; 2; 3; 4; 5]
              [0.6%Q; 0.2%Q; 0.1%Q; 0.05%Q; 0.05%Q] clk w2)
    as (q & w3 & Hq); [discriminate |].
  run_with Hq. run_draw.
  set (w4 := mkWorld _ _ _).
  assert (Hd : exists d w5,
             (if Qltb (fst (np_random (w_rng w3))) 0.2
              then draw (np_uniform 0 0.3) else ret 0%Q) clk w4 = Ok d w5).
  { destruct (Qltb _ _); [rewrite draw_run |]; eexists _, _; reflexivity. }
  destruct Hd as (d & w5 & Hd). run_with Hd.
  destruct (random_choice_total
              ["Tarjeta"; "Transferencia"; "Efectivo"; "MercadoPago"]%string
              clk w5) as (pm & w6 & Hpm); [discriminate |].
  run_with Hpm.
  destruct (random_choice_total
              ["Web"; "App"; "Físico"; "Marketplace"]%string clk w6)
    as (ch & w7 & Hch); [discriminate |].
  run_with Hch.
  eexists _, _. reflexivity.
Qed.

Lemma one_day_total st clk w :
  products <> [] -> customers <> [] ->
  exists st' w', one_day products customers st clk w = Ok st' w'.
Proof.
  intros Hp Hc. unfold one_day. run_draw.
  apply for_each_total. intros x a ck wa. apply one_sale_total; assumption.
Qed.

Lemma generate_sales_total self clk w :
  products <> [] -> customers <> [] ->
  window_start_exists (clk (w_ticks w)) (n_days self) ->
  exists sales w', generate_sales self products customers clk w = Ok sales w'.
Proof.
  intros Hp Hc Hok. unfold generate_sales.
  erewrite bind_run; [| reflexivity].
  erewrite bind_run; [| apply sub_days_run; exact Hok].
  edestruct (for_each_total (range (n_days self))
               (fun _ : Z => one_day products customers)) as (st & w' & Hst).
  { intros x a ck wa. apply one_day_total; assumption. }
  run_with Hst. eexists _, _. reflexivity.
Qed.

(** With an empty table the first attempted sale fails, in [randint]. *)
Lemma one_sale_empty st clk w :
  products = [] \/ customers = [] ->
  exists w',
    one_sale products customers st clk w = Raise ValueError w' /\
    (w_draws w <= w_draws w')%nat.
Proof.
  intros [-> | ->]; unfold one_sale.
  - exists w. split; [reflexivity | lia].
  - destruct products as [| p ps] eqn:Hp.
    + exists w. split; [reflexivity | lia].
    + destruct (randint_total 0 (Z.of_nat (length (p :: ps))) clk w)
        as (pi & w1 & Hr1 & Hpi); [simpl; lia |].
      run_with Hr1.
      destruct (iloc_total (p :: ps) pi clk w1 Hpi) as (product & Hi1).
      run_with Hi1.
      exists w1. split; [reflexivity |].
      unfold randint in Hr1.
      destruct (0 <? Z.of_nat (length (p :: ps))); [| discriminate].
      rewrite draw_run in Hr1. injection Hr1 as _ <-. simpl. lia.
Qed.

Lemma one_day_empty st clk w :
  products = [] \/ customers = [] ->
  (exists st' w',
     one_day products customers st clk w = Ok st' w' /\
     ss_sales st' = ss_sales st /\ (w_draws w < w_draws w')%nat) \/
  (exists w',
     one_day products customers st clk w = Raise ValueError w' /\
     (w_draws w < w_draws w')%nat).
Proof.
  intros Hempty. unfold one_day. run_draw.
  set (w1 := mkWorld _ _ _).
  destruct (range _) as [| x xs]; simpl.
  - left. eexists _, _. split; [reflexivity |]. simpl. split; [reflexivity | lia].
  - right. destruct (one_sale_empty
                       (mkSalesState (add_days (ss_current_date st) 1)
                          (ss_sale_id st) (ss_sales st)) clk w1 Hempty)
      as (w' & Hraise & Hdraws).
    exists w'. unfold bind. rewrite Hraise. split; [reflexivity |].
    subst w1. simpl in Hdraws. lia.
Qed.

Lemma day_loop_empty {I} (xs : list I) st clk w :
  products = [] \/ customers = [] ->
  (exists st' w',
     for_each xs (fun _ => one_day products customers) st clk w = Ok st' w' /\
     ss_sales st' = ss_sales st /\ (w_draws w <= w_draws w')%nat) \/
  (exists w',
     for_each xs (fun _ => one_day products customers) st clk w
     = Raise ValueError w' /\
     (w_draws w < w_draws w')%nat).
Proof.
  intros Hempty. revert st w.
  induction xs as [| x xs IH]; intros st w; simpl.
  - left. exists st, w. split; [reflexivity |]. split; [reflexivity | lia].
  - destruct (one_day_empty st clk w Hempty)
      as [(st1 & w1 & Hday & Hsales & Hdraws) | (w1 & Hday & Hdraws)].
    + run_with Hday.
      destruct (IH st1 w1)
        as [(st2 & w2 & Hrest & Hsales2 & Hdraws2) | (w2 & Hrest & Hdraws2)].
      * left. exists st2, w2. split; [exact Hrest |].
        split; [congruence | lia].
      * right. exists w2. split; [exact Hrest | lia].
    + right. exists w1. unfold bind. rewrite Hday.
      split; [reflexivity | exact Hdraws].
Qed.

End SalesRun.

(* ================================================================== *)
(** * The claims *)

Section SalesClaims.
Import Ecommerce.
Context {G : Type} `{RandomSource G}.

Lemma ids_from_1 n : ids_from 1 n = map Z.of_nat (seq 1 n).
Proof.
  unfold ids_from. rewrite <- seq_shift, map_map.
  apply map_ext. intros k. lia.
Qed.

Lemma generate_sales_ids self products customers clk w sales w' :
  generate_sales self products customers clk w = Ok sales w' ->
  map s_sale_id sales = map Z.of_nat (seq 1 (length sales)).
Proof.
  intros Hrun. apply generate_sales_Ok in Hrun as (st & Hloop & ->).
  rewrite <- ids_from_1.
  eapply (for_each_invariant ids_inv) in Hloop.
  - apply Hloop.
  - intros x sa ck wa sb wb. apply one_day_ids.
  - split; reflexivity.
Qed.

(** C5.  In every run of [generate_sales] that returns a sale table, the
    sale ids in emission order are exactly 1, 2, ..., len(sales): one
    counter for the whole run, never restarted by the day loop, without
    gap or repetition. *)
Theorem C5_sale_ids_are_1_to_len self products customers clk w sales w' :
  generate_sales self products customers clk w = Ok sales w' ->
  map s_sale_id sales = map Z.of_nat (seq 1 (length sales)) /\
  (forall i s, sales !! i = Some s -> s_sale_id s = Z.of_nat i + 1) /\
  NoDup (map s_sale_id sales).
Proof.
  intros Hrun. pose proof (generate_sales_ids _ _ _ _ _ _ _ Hrun) as Hids.
  split; [exact Hids |]. split.
  - intros i s Hs.
    assert (Hi : map s_sale_id sales !! i = Some (s_sale_id s))
      by (rewrite list_lookup_fmap, Hs; reflexivity).
    rewrite Hids, list_lookup_fmap in Hi.
    destruct (seq 1 (length sales) !! i) as [k |] eqn:Hk; [| discriminate].
    apply lookup_seq in Hk as [-> _]. injection Hi as <-. lia.
  - rewrite Hids. apply NoDup_fmap_2; [intros a b; lia |].
    apply NoDup_seq.
Qed.

Lemma StronglySorted_lookup_lt {A} (R : A -> A -> Prop) (l : list A) :
  StronglySorted R l ->
  forall i j a b,
    l !! i = Some a -> l !! j = Some b -> (i < j)%nat -> R a b.
Proof.
  induction 1 as [| x l Hs IH Hall]; intros i j a b Ha Hb Hij.
  - rewrite lookup_nil in Ha. discriminate.
  - destruct j as [| j]; [lia |]. simpl in Hb. destruct i as [| i].
    + injection Ha as <-. rewrite Forall_forall in Hall. apply Hall.
      eapply list_elem_of_lookup_2. exact Hb.
    + simpl in Ha. eapply IH; [exact Ha | exact Hb | lia].
Qed.

(** C10.  In every run of [generate_sales] that returns a sale table, the
    rows are in non-decreasing order of date (the rows of a day come
    together, before those of the next day), so that the order of the
    sale ids is the chronological order; and every date lies among the
    [n_days] consecutive days that end on the day the clock showed when
    the run began. *)
Theorem C10_sales_in_date_order self products customers clk w sales w' :
  generate_sales self products customers clk w = Ok sales w' ->
  let today := dt_date (clk (w_ticks w)) in
  StronglySorted date_le sales /\
  (forall i j a b,
     sales !! i = Some a -> sales !! j = Some b -> (i < j)%nat ->
     s_sale_id a < s_sale_id b /\ s_date a <= s_date b) /\
  Forall (fun s => today - n_days self < s_date s <= today) sales.
Proof.
  intros Hrun today.
  pose proof (generate_sales_ids _ _ _ _ _ _ _ Hrun) as Hids.
  apply generate_sales_Ok in Hrun as (st & Hloop & ->).
  apply day_loop_dates in Hloop as (_ & new & Hnew & Hall & Hsorted).
  simpl in Hnew. rewrite Hnew in *. clear Hnew.
  split; [exact Hsorted |]. split.
  - intros i j a b Ha Hb Hij. split.
    + assert (Hi : forall k s, new !! k = Some s ->
                               s_sale_id s = Z.of_nat k + 1).
      { intros k s Hs.
        assert (Hk : map s_sale_id new !! k = Some (s_sale_id s))
          by (rewrite list_lookup_fmap, Hs; reflexivity).
        rewrite Hids, list_lookup_fmap in Hk.
        destruct (seq 1 (length new) !! k) as [m |] eqn:Hm; [| discriminate].
        apply lookup_seq in Hm as [-> _]. injection Hk as <-. lia. }
      rewrite (Hi _ _ Ha), (Hi _ _ Hb). lia.
    + exact (StronglySorted_lookup_lt _ _ Hsorted _ _ _ _ Ha Hb Hij).
  - eapply Forall_impl; [exact Hall |]. cbv beta. intros s Hs.
    rewrite range_length in Hs. unfold sales_start, dt_date in *.
    simpl in Hs. subst today. lia.
Qed.

(** What the arithmetic of one row gives on its stored fields.  The
    amounts are rounded from products with the drawn fraction
    [discount]; the row keeps [discount_pct], that fraction in percent
    rounded to one decimal. *)
Lemma emitted_near_data_model products customers sale_id d discount s :
  emitted products customers sale_id d discount s ->
  rounded_near_data_model s.
Proof.
  intros (p & c & q & pm & ch & _ & _ & _ & _ & ->).
  unfold rounded_near_data_model, sale_row.
  cbn [s_unit_price s_quantity s_discount_pct s_subtotal s_discount_amount
       s_total s_profit s_cost].
  set (gross := (p_price p * inject_Z q)%Q).
  pose proof (py_round_near_1 (discount * 100)) as Hpct.
  split; [repeat split; apply py_round_two_decimals |].
  split.
  { pose proof (py_round_near_2 gross) as Hsub.
    eapply Qle_trans; [exact Hsub | discriminate]. }
  split.
  { apply close_to_weaken.
    apply near_on_percentage with (f := discount);
      [apply py_round_near_2 | exact Hpct]. }
  split.
  { apply close_to_weaken.
    apply near_on_kept_percentage with (f := discount); [| exact Hpct].
    assert (Hsame : (gross * (1 - discount)
                     == gross - gross * discount)%Q) by ring.
    rewrite Hsame. apply py_round_near_2. }
  apply close_to_weaken.
  apply near_on_kept_percentage with (f := discount); [| exact Hpct].
  assert (Hsame : ((gross - p_cost p * inject_Z q) * (1 - discount)
                   == (p_price p - p_cost p) * inject_Z q
                      * (1 - discount))%Q)
    by (unfold gross; ring).
  rewrite Hsame. apply py_round_near_2.
Qed.

(** C2, as the code has it.  The row stores [discount_pct], the drawn
    discount fraction in percent rounded to one decimal, while [total]
    and [profit] are rounded from amounts computed with the fraction
    itself; and the stored [cost] is the cost of the whole line.  On the
    stored fields of every row of [generate_sales], [total] agrees with
    [unit_price * quantity * (1 - discount_pct/100)], and [profit] with
    [(unit_price * quantity - cost) * (1 - discount_pct/100)], to a cent
    and a thousandth of the amount, not exactly. *)
Theorem C2_totals_nearly_consistent self products customers clk w sales w' :
  generate_sales self products customers clk w = Ok sales w' ->
  Forall nearly_consistent sales.
Proof.
  intros Hrun. apply generate_sales_rows in Hrun.
  eapply Forall_impl; [exact Hrun |].
  intros s (sid & d & discount & Hs).
  apply emitted_near_data_model in Hs.
  destruct Hs as (_ & _ & _ & Htotal & Hprofit).
  split; assumption.
Qed.

(** C8, as the code has it.  In every row of [generate_sales] the
    fields subtotal, discount_amount, total and profit are stored
    rounded to two decimals: each is an amount in whole cents.  The
    subtotal is within a cent of [unit_price * quantity].  The other
    three are rounded from amounts computed with the drawn discount
    fraction, which the row keeps in percent and rounded to one decimal:
    they agree with their data-model formulas on the stored
    [discount_pct] to a cent and a thousandth of the amount, not
    exactly. *)
Theorem C8_money_in_cents_near_data_model self products customers clk w
    sales w' :
  generate_sales self products customers clk w = Ok sales w' ->
  Forall rounded_near_data_model sales.
Proof.
  intros Hrun. apply generate_sales_rows in Hrun.
  eapply Forall_impl; [exact Hrun |].
  intros s (sid & d & discount & Hs).
  eapply emitted_near_data_model. exact Hs.
Qed.

Lemma seasonal_factor_nonneg d : (0 <= seasonal_factor d)%Q.
Proof.
  unfold seasonal_factor, day_factor, month_factor.
  apply Qmult_le_0_compat.
  - destruct (4 <=? weekday (dt_date d)); discriminate.
  - destruct (month (dt_date d) =? 12); [discriminate |].
    destruct (month (dt_date d) =? 11); [discriminate |].
    destruct ((month (dt_date d) =? 6) || (month (dt_date d) =? 7));
      discriminate.
Qed.

Lemma day_factor_weekdays d :
  day_factor d
  = if decide (weekday (dt_date d) = 4 \/ weekday (dt_date d) = 5
               \/ weekday (dt_date d) = 6)
    then 1.5%Q else 1.0%Q.
Proof.
  unfold day_factor.
  pose proof (Z.mod_pos_bound (dt_date d + 6) 7 ltac:(lia)) as Hw.
  fold (weekday (dt_date d)) in Hw.
  destruct (4 <=? weekday (dt_date d)) eqn:E; case_decide; try reflexivity.
  - apply Z.leb_le in E. lia.
  - apply Z.leb_gt in E. lia.
Qed.

Lemma month_factor_months d :
  month_factor d
  = match month (dt_date d) with
    | 12 => 2.5%Q
    | 11 => 2.0%Q
    | 6 | 7 => 1.3%Q
    | _ => 1.0%Q
    end.
Proof.
  unfold month_factor.
  destruct (month (dt_date d) =? 12) eqn:E12;
    [apply Z.eqb_eq in E12; rewrite E12; reflexivity |].
  destruct (month (dt_date d) =? 11) eqn:E11;
    [apply Z.eqb_eq in E11; rewrite E11; reflexivity |].
  destruct (month (dt_date d) =? 6) eqn:E6;
    [apply Z.eqb_eq in E6; rewrite E6; reflexivity |].
  destruct (month (dt_date d) =? 7) eqn:E7;
    [apply Z.eqb_eq in E7; rewrite E7; reflexivity |].
  apply Z.eqb_neq in E12, E11, E6, E7. simpl.
  destruct (month (dt_date d)) as [| m | m]; try reflexivity.
  do 4 (destruct m as [m | m |]; try reflexivity; try congruence).
Qed.

(** C6, as the code has it.  In a run of [generate_sales] that returns a
    sale table, take the k-th day of the window and the Poisson draw
    [base_count] made when the run reaches that day: the number of rows
    dated that day is [floor(base_count * day_factor * month_factor)],
    where [day_factor] is 1.5 on Friday, Saturday and Sunday
    ([weekday() >= 4]) and 1.0 on the other days, and [month_factor] is
    2.5 in December, 2.0 in November, 1.3 in June and July and 1.0 in the
    other months. *)
Theorem C6_daily_count self products customers clk w sales w' (k : nat) :
  generate_sales self products customers clk w = Ok sales w' ->
  (k < Z.to_nat (n_days self))%nat ->
  exists st_k w_k,
    for_each (range (Z.of_nat k)) (fun _ => one_day products customers)
      (sales_start self (clk (w_ticks w))) clk (ticked w) = Ok st_k w_k /\
    let day :=
      add_days (clk (w_ticks w)) (- n_days self + Z.of_nat k + 1) in
    let base_count := fst (np_poisson 50 (w_rng w_k)) in
    sales_on (dt_date day) sales
    = Qfloor (inject_Z base_count * (day_factor day * month_factor day)) /\
    day_factor day
    = (if decide (weekday (dt_date day) = 4 \/ weekday (dt_date day) = 5
                  \/ weekday (dt_date day) = 6)
       then 1.5%Q else 1.0%Q) /\
    month_factor day
    = match month (dt_date day) with
      | 12 => 2.5%Q
      | 11 => 2.0%Q
      | 6 | 7 => 1.3%Q
      | _ => 1.0%Q
      end.
Proof.
  intros Hrun Hk.
  apply generate_sales_Ok in Hrun as (st & Hloop & ->).
  set (xs := range (n_days self)) in *.
  assert (Hlen : length xs = Z.to_nat (n_days self)) by apply range_length.
  rewrite <- (take_drop k xs) in Hloop.
  destruct (drop k xs) as [| x rest] eqn:Hdrop.
  { apply (f_equal length) in Hdrop. rewrite length_drop in Hdrop.
    simpl in Hdrop. lia. }
  rewrite for_each_app in Hloop.
  apply bind_Ok in Hloop as (st_k & w_k & Hpre & Hloop).
  simpl in Hloop. apply bind_Ok in Hloop as (st1 & w1 & Hday & Hrest).
  rewrite (for_each_ignore _ (range (Z.of_nat k))) in Hpre
    by (rewrite length_take, range_length; lia).
  exists st_k, w_k. split; [exact Hpre |].
  intros day base_count.
  split; [| split; [apply day_factor_weekdays | apply month_factor_months]].
  apply day_loop_dates in Hpre as (Hd0 & new0 & Hnew0 & Hall0 & _).
  apply one_day_dates in Hday as (Hd1 & new1 & Hnew1 & Hlen1 & Hall1).
  apply day_loop_dates in Hrest as (_ & new2 & Hnew2 & Hall2 & _).
  rewrite range_length, Nat2Z.id in Hd0, Hall0.
  simpl in Hnew0, Hd0, Hall0.
  rewrite Hd0, add_days_add in Hd1, Hall1, Hlen1.
  rewrite Hd1 in Hall2.
  assert (Hday : add_days (add_days (clk (w_ticks w)) (- n_days self))
                   (Z.of_nat k + 1) = day).
  { subst day. rewrite add_days_add. f_equal. lia. }
  rewrite Hday in *. fold base_count in Hlen1.
  unfold sales_on.
  rewrite Hnew2, Hnew1, Hnew0. rewrite !filter_app, !length_app.
  rewrite (filter_none _ new0), (filter_all _ new1), (filter_none _ new2).
  - simpl. rewrite Nat.add_0_r, Hlen1.
    assert (Hpos : (0 <= inject_Z base_count * seasonal_factor day)%Q).
    { apply Qmult_le_0_compat; [| apply seasonal_factor_nonneg].
      unfold Qle; simpl. pose proof (np_poisson_nonneg 50 (w_rng w_k)).
      fold base_count in H0. lia. }
    rewrite py_int_floor by exact Hpos.
    rewrite Z2Nat.id; [reflexivity |].
    apply (Qfloor_resp_le 0) in Hpos. exact Hpos.
  - eapply Forall_impl; [exact Hall2 |]. cbv beta. intros s Hs. lia.
  - eapply Forall_impl; [exact Hall1 |]. intros s [_ Hs]. exact Hs.
  - eapply Forall_impl; [exact Hall0 |]. cbv beta. intros s Hs.
    subst day. rewrite dt_date_add_days.
    unfold dt_date, add_days in *. simpl in *. lia.
Qed.

(** C7, as the code has it.  With an empty product table or an empty
    customer table [generate_sales] checks nothing beforehand and raises
    no ConfigurationError, at whatever moment [t] it reads the clock.
    When the window has a start (the date [n_days] days before [t]
    exists), either the run ends
    with the ValueError of [randint(0, 0)], raised at the first attempted
    sale, after random draws have been made; or no sale is attempted on
    any day and the run returns an empty sale table; a window of no days
    returns it without a single draw.  When the window has no start, the
    run ends with the OverflowError of the date subtraction, the clock
    read and nothing drawn. *)
Theorem C7_empty_tables_value_error_or_no_sales self products customers
    clk w :
  products = [] \/ customers = [] ->
  is_datetime (clk (w_ticks w)) ->
  (window_start_exists (clk (w_ticks w)) (n_days self) ->
   ((exists w', generate_sales self products customers clk w = Ok [] w') \/
    (exists w',
       generate_sales self products customers clk w = Raise ValueError w' /\
       (w_draws w < w_draws w')%nat)) /\
   (n_days self <= 0 ->
    generate_sales self products customers clk w = Ok [] (ticked w))) /\
  (~ window_start_exists (clk (w_ticks w)) (n_days self) ->
   generate_sales self products customers clk w
   = Raise OverflowError (ticked w)).
Proof.
  intros Hempty _. split; [| apply generate_sales_overflow].
  intros Hok. split.
  - unfold generate_sales. erewrite bind_run; [| reflexivity].
    erewrite bind_run; [| apply sub_days_run; exact Hok].
    destruct (day_loop_empty products customers (range (n_days self))
                (mkSalesState (add_days (clk (w_ticks w)) (- n_days self))
                   1 [])
                clk (ticked w) Hempty)
      as [(st & w' & Hloop & Hsales & _) | (w' & Hloop & Hdraws)].
    + left. exists w'. fold (ticked w). run_with Hloop.
      unfold ret. simpl in Hsales. rewrite Hsales. reflexivity.
    + right. exists w'. fold (ticked w). unfold bind. rewrite Hloop.
      split; [reflexivity | exact Hdraws].
  - intros Hn. unfold generate_sales.
    erewrite bind_run; [| reflexivity].
    erewrite bind_run; [| apply sub_days_run; exact Hok].
    unfold range.
    replace (Z.to_nat (n_days self)) with 0%nat by lia. reflexivity.
Qed.

End SalesClaims.

Lemma C5_witness :
  Scenario.two_sales
  = Ok (Scenario.rows_of Scenario.two_sales)
       (Scenario.world_after Scenario.two_sales) /\
  map Ecommerce.s_sale_id (Scenario.rows_of Scenario.two_sales) = [1; 2].
Proof.
  assert (Hrun : Scenario.two_sales
                 = Ok (Scenario.rows_of Scenario.two_sales)
                      (Scenario.world_after Scenario.two_sales))
    by (vm_compute; reflexivity).
  split; [exact Hrun |].
  destruct (C5_sale_ids_are_1_to_len (H := Scenario.source _)
              Scenario.one_day_config Scenario.one_product
              Scenario.one_customer (Scenario.still Scenario.tuesday_noon)
              (Scenario.world_of _) _ _ Hrun) as [Hids _].
  rewrite Hids. vm_compute. reflexivity.
Defined.

Lemma C10_witness :
  Scenario.two_sales
  = Ok (Scenario.rows_of Scenario.two_sales)
       (Scenario.world_after Scenario.two_sales) /\
  Forall (fun s => 738950 - 1 < Ecommerce.s_date s <= 738950)
    (Scenario.rows_of Scenario.two_sales).
Proof.
  assert (Hrun : Scenario.two_sales
                 = Ok (Scenario.rows_of Scenario.two_sales)
                      (Scenario.world_after Scenario.two_sales))
    by (vm_compute; reflexivity).
  split; [exact Hrun |].
  exact (proj2 (proj2
           (C10_sales_in_date_order (H := Scenario.source _)
              Scenario.one_day_config Scenario.one_product
              Scenario.one_customer (Scenario.still Scenario.tuesday_noon)
              (Scenario.world_of _) _ _ Hrun))).
Defined.

(** The first sale of the scripted run: 2 units at 100.00, discount
    fraction 0.1234, stored as 12.3 percent. *)
Lemma C2_counterexample :
  Scenario.two_sales
  = Ok (Scenario.rows_of Scenario.two_sales)
       (Scenario.world_after Scenario.two_sales) /\
  ~ Forall arithmetic_consistent (Scenario.rows_of Scenario.two_sales).
Proof.
  split; [vm_compute; reflexivity |].
  intros Hall. apply Forall_inv in Hall. destruct Hall as [Htotal _].
  vm_compute in Htotal. discriminate.
Qed.

Lemma C8_counterexample :
  Scenario.two_sales
  = Ok (Scenario.rows_of Scenario.two_sales)
       (Scenario.world_after Scenario.two_sales) /\
  ~ Forall (rounded_data_model 60.0) (Scenario.rows_of Scenario.two_sales).
Proof.
  split; [vm_compute; reflexivity |].
  intros Hall. apply Forall_inv in Hall.
  destruct Hall as (_ & _ & Htotal & _).
  vm_compute in Htotal. discriminate.
Qed.

Lemma C2_witness :
  Scenario.two_sales
  = Ok (Scenario.rows_of Scenario.two_sales)
       (Scenario.world_after Scenario.two_sales) /\
  Forall nearly_consistent (Scenario.rows_of Scenario.two_sales).
Proof.
  assert (Hrun : Scenario.two_sales
                 = Ok (Scenario.rows_of Scenario.two_sales)
                      (Scenario.world_after Scenario.two_sales))
    by (vm_compute; reflexivity).
  split; [exact Hrun |].
  exact (C2_totals_nearly_consistent (H := Scenario.source _)
           Scenario.one_day_config Scenario.one_product
           Scenario.one_customer (Scenario.still Scenario.tuesday_noon)
           (Scenario.world_of _) _ _ Hrun).
Defined.

Lemma C8_witness :
  Scenario.two_sales
  = Ok (Scenario.rows_of Scenario.two_sales)
       (Scenario.world_after Scenario.two_sales) /\
  Forall rounded_near_data_model (Scenario.rows_of Scenario.two_sales).
Proof.
  assert (Hrun : Scenario.two_sales
                 = Ok (Scenario.rows_of Scenario.two_sales)
                      (Scenario.world_after Scenario.two_sales))
    by (vm_compute; reflexivity).
  split; [exact Hrun |].
  exact (C8_money_in_cents_near_data_model (H := Scenario.source _)
           Scenario.one_day_config Scenario.one_product
           Scenario.one_customer (Scenario.still Scenario.tuesday_noon)
           (Scenario.world_of _) _ _ Hrun).
Defined.

(** 2024-03-03 is a Sunday in March; the Poisson draw is 2 and three
    rows are emitted, where a Friday-and-Saturday weekend gives two. *)
Lemma C6_counterexample :
  Scenario.sunday_sales
  = Ok (Scenario.rows_of Scenario.sunday_sales)
       (Scenario.world_after Scenario.sunday_sales) /\
  weekday (dt_date Scenario.sunday_noon) = 6 /\
  fst (Scripted.poisson 50 Scenario.sunday_script) = 2 /\
  sales_on (dt_date Scenario.sunday_noon)
    (Scenario.rows_of Scenario.sunday_sales) = 3 /\
  sales_on (dt_date Scenario.sunday_noon)
    (Scenario.rows_of Scenario.sunday_sales)
  <> Qfloor (inject_Z 2
             * (friday_saturday_factor Scenario.sunday_noon
                * Ecommerce.month_factor Scenario.sunday_noon)).
Proof.
  split; [vm_compute; reflexivity |].
  split; [reflexivity |]. split; [reflexivity |].
  split; [vm_compute; reflexivity |].
  vm_compute. discriminate.
Qed.

Lemma C6_witness :
  Scenario.two_sales
  = Ok (Scenario.rows_of Scenario.two_sales)
       (Scenario.world_after Scenario.two_sales) /\
  (0 < Z.to_nat (Ecommerce.n_days Scenario.one_day_config))%nat /\
  sales_on 738950 (Scenario.rows_of Scenario.two_sales)
  = Qfloor (inject_Z 2
            * (Ecommerce.day_factor Scenario.tuesday_noon
               * Ecommerce.month_factor Scenario.tuesday_noon)).
Proof.
  assert (Hrun : Scenario.two_sales
                 = Ok (Scenario.rows_of Scenario.two_sales)
                      (Scenario.world_after Scenario.two_sales))
    by (vm_compute; reflexivity).
  assert (Hk : (0 < Z.to_nat (Ecommerce.n_days Scenario.one_day_config))%nat)
    by (vm_compute; lia).
  split; [exact Hrun |]. split; [exact Hk |].
  destruct (C6_daily_count (H := Scenario.source _)
              Scenario.one_day_config Scenario.one_product
              Scenario.one_customer (Scenario.still Scenario.tuesday_noon)
              (Scenario.world_of _) _ _ 0%nat Hrun Hk)
    as (st_k & w_k & Hpre & Hcount & _).
  vm_compute in Hpre. injection Hpre as <- <-. exact Hcount.
Defined.

(** No product is configured.  On a day whose count is 0 the run returns
    its tables, the sale table empty; on a day whose count is 2 it ends
    with a ValueError after nine draws.  Neither is a ConfigurationError
    raised before the first draw. *)
Lemma C7_counterexample :
  (exists t w',
     Scenario.no_product_run Scenario.quiet_day_script = Ok t w' /\
     Ecommerce.t_products t = [] /\ Ecommerce.t_sales t = []) /\
  (exists w',
     Scenario.no_product_run Scenario.busy_day_script
     = Raise ValueError w' /\ w_draws w' = 9%nat) /\
  ~ fails_fast (Scenario.world_of Scenario.quiet_day_script)
      (Scenario.no_product_run Scenario.quiet_day_script) /\
  ~ fails_fast (Scenario.world_of Scenario.busy_day_script)
      (Scenario.no_product_run Scenario.busy_day_script).
Proof.
  split; [eexists _, _; vm_compute; repeat split |].
  split; [eexists; vm_compute; split; reflexivity |].
  split; intros (w' & Hr & _); vm_compute in Hr; discriminate.
Qed.

Lemma C7_witness :
  ([] = @nil Ecommerce.product \/ Scenario.one_customer = []) /\
  is_datetime Scenario.tuesday_noon /\
  window_start_exists Scenario.tuesday_noon 1 /\
  ((exists w', Scenario.no_product_sales Scenario.busy_day_script = Ok [] w')
   \/
   (exists w',
      Scenario.no_product_sales Scenario.busy_day_script
      = Raise ValueError w' /\
      (w_draws (Scenario.world_of Scenario.busy_day_script) < w_draws w')%nat)).
Proof.
  assert (Hnow : is_datetime Scenario.tuesday_noon)
    by (vm_compute; repeat split; discriminate).
  assert (Hok : window_start_exists Scenario.tuesday_noon 1)
    by (vm_compute; repeat split; discriminate).
  split; [left; reflexivity |]. split; [exact Hnow |].
  split; [exact Hok |].
  apply (C7_empty_tables_value_error_or_no_sales
           (H := Scenario.source Scenario.busy_day_script)
           Scenario.one_day_config [] Scenario.one_customer
           (Scenario.still Scenario.tuesday_noon)
           (Scenario.world_of Scenario.busy_day_script)).
  - left. reflexivity.
  - exact Hnow.
  - exact Hok.
Defined.

(** ** The whole run *)

Section RunShape.
Import Ecommerce.
Context {G : Type} `{RandomSource G}.

Lemma generate_all_data_Ok self clk w t w' :
  generate_all_data self clk w = Ok t w' ->
  exists products customers sales inventory w1 w2 w3,
    generate_products self clk w = Ok products w1 /\
    generate_customers self clk w1 = Ok customers w2 /\
    generate_sales self products customers clk w2 = Ok sales w3 /\
    generate_inventory products clk w3 = Ok inventory w' /\
    t = mkTables products (update_customers customers sales) sales inventory.
Proof.
  unfold generate_all_data. intros Hrun.
  apply bind_Ok in Hrun as (products & w1 & Hp & Hrun).
  apply bind_Ok in Hrun as (customers & w2 & Hc & Hrun).
  apply bind_Ok in Hrun as (sales & w3 & Hs & Hrun).
  apply bind_Ok in Hrun as (inventory & w4 & Hi & Hrun).
  apply ret_Ok in Hrun as [-> ->].
  exists products, customers, sales, inventory, w1, w2, w3. auto.
Qed.

Lemma assign_stats_id row :
  c_customer_id (assign_stats row) = c_customer_id (fst row).
Proof. destruct row as [c [[[spent orders] last] |]]; reflexivity. Qed.

Lemma update_customers_ids customers sales :
  map c_customer_id (update_customers customers sales)
  = map c_customer_id customers.
Proof.
  unfold update_customers, merge_left. destruct sales as [| s sales'].
  - reflexivity.
  - rewrite !map_map. apply map_ext. intros c. apply assign_stats_id.
Qed.

End RunShape.

(** ** [RobustDataGenerator], loop by loop *)

Section RobustRun.
Context {G : Type} `{RandomSource G}.
Variable products : list Robust.product.

Lemma sample1_Ok {A} (df : list A) clk w row w' :
  Robust.sample1 df clk w = Ok row w' -> In row df.
Proof.
  unfold Robust.sample1. destruct df as [| y l']; [discriminate |].
  intros Hb. apply bind_Ok in Hb as (i & w1 & _ & Hk).
  destruct ((y :: l') !! i) as [z |] eqn:E; [| discriminate].
  apply ret_Ok in Hk as [-> _].
  apply list_elem_of_In. eapply list_elem_of_lookup_2; eassumption.
Qed.

(** A row of the robust generator: its product is in the table, its
    customer id is a draw from 1..1000. *)
Lemma robust_one_sale_Ok current_date sales clk w sales' w' :
  Robust.one_sale products current_date sales clk w = Ok sales' w' ->
  exists s,
    sales' = sales ++ [s] /\
    Robust.s_date s = dt_date current_date /\
    (exists p, In p products /\ Robust.p_product_id p = Robust.s_product_id s)
    /\ 1 <= Robust.s_customer_id s <= 1000.
Proof.
  unfold Robust.one_sale. intros Hrun.
  apply bind_Ok in Hrun as (product & w1 & Hp & Hrun).
  apply sample1_Ok in Hp.
  apply bind_Ok in Hrun as (quantity & w2 & _ & Hrun).
  apply bind_Ok in Hrun as (customer_id & w3 & Hc & Hrun).
  apply randint_Ok in Hc as (_ & Hc & _).
  apply bind_Ok in Hrun as (region & w4 & _ & Hrun).
  apply ret_Ok in Hrun as [-> _].
  eexists. split; [reflexivity |]. simpl.
  split; [reflexivity |]. split; [eauto | lia].
Qed.


Lemma robust_generate_sales_rows n_days clk w sales w' :
  Robust.generate_sales products n_days clk w = Ok sales w' ->
  robust_rows_ok products sales.
Proof.
  unfold Robust.generate_sales. intros Hrun.
  apply bind_Ok in Hrun as (t & w1 & _ & Hrun).
  apply bind_Ok in Hrun as (start_date & w2 & _ & Hrun).
  eapply (for_each_invariant (robust_rows_ok products)) in Hrun.
  - exact Hrun.
  - intros day sa ck wa sb wb Ha Hday. unfold Robust.one_day in Hday.
    apply bind_Ok in Hday as (n & w3 & _ & Hday).
    eapply (for_each_invariant (robust_rows_ok products)) in Hday.
    + exact Hday.
    + intros x sc ck' wc sd wd Hc Hsale.
      apply robust_one_sale_Ok in Hsale as (s & -> & _ & Hp & Hid).
      apply Forall_app. split; [exact Hc |].
      constructor; [split; assumption | constructor].
    + exact Ha.
  - constructor.
Qed.

End RobustRun.

(* ================================================================== *)
(** * The claims on whole runs *)

Section RunClaims.
Import Ecommerce.
Context {G : Type} `{RandomSource G}.

(** C4, as the code has it.  In every run of
    [EcommerceDataGenerator.generate_all_data] every [Sale.product_id] is
    the [product_id] of a row of the product table and every
    [Sale.customer_id] the [customer_id] of a row of the customer table.
    In every run of [RobustDataGenerator.generate_all] every
    [Sale.product_id] is the [product_id] of a row of the product table;
    that class generates no customer table, and [Sale.customer_id] is an
    integer drawn between 1 and 1000. *)
Theorem C4_sale_references self clk w :
  (forall t w',
     generate_all_data self clk w = Ok t w' ->
     forall s, In s (t_sales t) ->
       In (s_product_id s) (map p_product_id (t_products t)) /\
       In (s_customer_id s) (map c_customer_id (t_customers t))) /\
  (forall t w',
     Robust.generate_all clk w = Ok t w' ->
     forall s, In s (Robust.t_sales t) ->
       In (Robust.s_product_id s)
          (map Robust.p_product_id (Robust.t_products t)) /\
       1 <= Robust.s_customer_id s <= 1000 /\
       Robust.generated_customer_ids t = []).
Proof.
  split.
  - intros t w' Hrun s Hin.
    apply generate_all_data_Ok in Hrun
      as (products & customers & sales & inventory & w1 & w2 & w3
          & _ & _ & Hsales & _ & ->).
    simpl in *. rewrite update_customers_ids.
    apply generate_sales_rows in Hsales.
    rewrite Forall_forall in Hsales. apply list_elem_of_In in Hin.
    destruct (Hsales s Hin)
      as (sid & day & d & p & c & q & pm & ch & Hp & Hc & _ & _ & ->).
    simpl. split; apply in_map; assumption.
  - intros t w' Hrun s Hin. unfold Robust.generate_all in Hrun.
    apply bind_Ok in Hrun as (products & w1 & _ & Hrun).
    apply bind_Ok in Hrun as (sales & w2 & Hsales & Hrun).
    destruct sales as [| s0 sales0]; [discriminate |].
    apply ret_Ok in Hrun as [-> _].
    cbn [Robust.t_sales Robust.t_products] in *.
    apply robust_generate_sales_rows in Hsales.
    unfold robust_rows_ok in Hsales. rewrite Forall_forall in Hsales.
    apply list_elem_of_In in Hin.
    destruct (Hsales s Hin) as [(p & Hp & Hid) Hc].
    split; [| split; [exact Hc | reflexivity]].
    rewrite <- Hid. apply in_map. exact Hp.
Qed.

End RunClaims.

(** A run of [RobustDataGenerator.generate_all] with one sale: its
    customer id is 1, and no customer record was generated. *)
Lemma C4_counterexample :
  Scenario.robust_run
  = Ok (Scenario.tables_of (Robust.mkTables [] []) Scenario.robust_run)
       (Scenario.world_after Scenario.robust_run) /\
  let t := Scenario.tables_of (Robust.mkTables [] []) Scenario.robust_run in
  map Robust.s_customer_id (Robust.t_sales t) = [1] /\
  ~ references_resolve
      (map Robust.p_product_id (Robust.t_products t))
      (Robust.generated_customer_ids t)
      (map (fun s => (Robust.s_product_id s, Robust.s_customer_id s))
         (Robust.t_sales t)).
Proof.
  split; [vm_compute; reflexivity |].
  split; [vm_compute; reflexivity |].
  intros Href. destruct (Href 1 1) as [_ Hc].
  - vm_compute. left. reflexivity.
  - exact Hc.
Qed.

Lemma C4_witness :
  let r := Scenario.full_run (Scenario.still Scenario.tuesday_noon) in
  let t := Scenario.tables_of (Ecommerce.mkTables [] [] [] []) r in
  r = Ok t (Scenario.world_after r) /\
  forall s, In s (Ecommerce.t_sales t) ->
    In (Ecommerce.s_product_id s)
       (map Ecommerce.p_product_id (Ecommerce.t_products t)) /\
    In (Ecommerce.s_customer_id s)
       (map Ecommerce.c_customer_id (Ecommerce.t_customers t)).
Proof.
  intros r t.
  split; [vm_compute; reflexivity |].
  assert (Hrun : Ecommerce.generate_all_data
                   (H := Scenario.source Scenario.full_script)
                   Scenario.one_day_config
                   (Scenario.still Scenario.tuesday_noon)
                   (Ecommerce.initial_world
                      (H := Scenario.source Scenario.full_script) 42)
                 = Ok t (Scenario.world_after r))
    by (vm_compute; reflexivity).
  exact (proj1 (C4_sale_references _ _ _) t (Scenario.world_after r) Hrun).
Defined.

(* ------------------------------------------------------------------ *)
(** ** The inventory walk *)

Section InventoryClaims.
Import Ecommerce.
Context {G : Type} `{RandomSource G}.

Lemma py_max_0 x : 0 <= py_max 0 x.
Proof. unfold py_max. destruct (0 <? x) eqn:E; [apply Z.ltb_lt in E |]; lia. Qed.

(** C9, as the code has it.  On a day of the inventory walk on which a
    restock occurs (the stock left after the day's sales is at most
    [reorder_point], and the draw of [random()] is below 0.3), the stock
    recorded for that day is the stock left after the sales plus a
    restock quantity drawn in [reorder_point, ideal_stock): the restock
    raises the stock BY a value of that range.  The recorded level is at
    least [reorder_point] and at most [reorder_point + ideal_stock - 1]. *)
Theorem C9_restock_adds_a_quantity product reorder_point ideal_stock day st
    clk w st' w' :
  inventory_day product reorder_point ideal_stock day st clk w = Ok st' w' ->
  let daily_sales := fst (np_poisson 2 (w_rng w)) in
  let g1 := snd (np_poisson 2 (w_rng w)) in
  let left := py_max 0 (st_current_stock st - daily_sales) in
  left <= reorder_point ->
  Qltb (fst (np_random g1)) 0.3 = true ->
  exists restock row,
    reorder_point <= restock < ideal_stock /\
    st_inventory st' = st_inventory st ++ [row] /\
    i_reorder_point row = reorder_point /\
    i_ideal_stock row = ideal_stock /\
    i_daily_sales row = daily_sales /\
    i_current_stock row = left + restock /\
    st_current_stock st' = left + restock /\
    reorder_point <= i_current_stock row <= reorder_point + ideal_stock - 1.
Proof.
  intros Hrun daily_sales g1 left Hlow Hdraw. unfold inventory_day in Hrun.
  apply bind_Ok in Hrun as (t & w1 & Hnow & Hrun).
  apply now_Ok in Hnow as [-> ->].
  apply bind_Ok in Hrun as (ds & w2 & Hds & Hrun).
  apply draw_Ok in Hds as [-> ->]. simpl in Hrun.
  fold daily_sales g1 left in Hrun.
  apply bind_Ok in Hrun as (stock & w3 & Hstock & Hrun).
  apply ret_Ok in Hrun as [-> _].
  apply Z.leb_le in Hlow as Hlowb. rewrite Hlowb in Hstock.
  apply bind_Ok in Hstock as (u & w4 & Hu & Hstock).
  apply draw_Ok in Hu as [-> ->]. simpl in Hstock. rewrite Hdraw in Hstock.
  apply bind_Ok in Hstock as (restock & w5 & Hr & Hstock).
  apply randint_Ok in Hr as (_ & Hrange & _).
  apply ret_Ok in Hstock as [-> _].
  pose proof (py_max_0 (st_current_stock st - daily_sales)) as Hleft.
  fold left in Hleft.
  eexists restock, _. simpl.
  split; [exact Hrange |]. split; [reflexivity |].
  repeat (split; [reflexivity |]). cbn [i_current_stock]. lia.
Qed.

End InventoryClaims.

(** Ten units in stock, reorder point 3, ideal stock 15: seven are sold,
    the restock test passes and 14 units are added; the row records 17. *)
Lemma C9_counterexample :
  Scenario.restock_day
  = Ok (Scenario.state_of Scenario.restock_day)
       (Scenario.world_after Scenario.restock_day) /\
  py_max 0 (10 - fst (Scripted.poisson 2 Scenario.restock_script)) = 3 /\
  Qltb (fst (Scripted.random
               (snd (Scripted.poisson 2 Scenario.restock_script)))) 0.3
  = true /\
  map Ecommerce.i_current_stock
    (Ecommerce.st_inventory (Scenario.state_of Scenario.restock_day)) = [17] /\
  ~ Forall restocked_into_range
      (Ecommerce.st_inventory (Scenario.state_of Scenario.restock_day)).
Proof.
  split; [vm_compute; reflexivity |].
  split; [vm_compute; reflexivity |].
  split; [vm_compute; reflexivity |].
  split; [vm_compute; reflexivity |].
  intros Hall. apply Forall_inv in Hall. vm_compute in Hall.
  destruct Hall as [_ Hhigh]. apply Hhigh. reflexivity.
Qed.

Lemma C9_witness :
  exists restock row,
    3 <= restock < 15 /\
    Ecommerce.st_inventory (Scenario.state_of Scenario.restock_day)
    = [] ++ [row] /\
    Ecommerce.i_current_stock row = 3 + restock.
Proof.
  assert (Hrun : Ecommerce.inventory_day
                   (H := Scenario.source Scenario.restock_script)
                   Scenario.the_product 3 15 0
                   (Ecommerce.mkStockState 10 [])
                   (Scenario.still Scenario.tuesday_noon)
                   (Scenario.world_of Scenario.restock_script)
                 = Ok (Scenario.state_of Scenario.restock_day)
                      (Scenario.world_after Scenario.restock_day))
    by (vm_compute; reflexivity).
  destruct (C9_restock_adds_a_quantity _ _ _ _ _ _ _ _ _ Hrun)
    as (restock & row & Hrange & Hrows & _ & _ & _ & Hstock & _).
  - vm_compute. discriminate.
  - vm_compute. reflexivity.
  - exists restock, row. split; [exact Hrange |].
    split; [exact Hrows | exact Hstock].
Defined.

(* ------------------------------------------------------------------ *)
(** ** The derived customer statistics *)

Section CustomerStats.
Import Ecommerce.

Lemma sum_total_app l1 l2 :
  (sum_total (l1 ++ l2) == sum_total l1 + sum_total l2)%Q.
Proof.
  induction l1 as [| s l1 IH]; simpl.
  - ring.
  - rewrite IH. ring.
Qed.

Lemma max_date_snoc l s :
  max_date (l ++ [s])
  = match max_date l with
    | None => Some (s_date s)
    | Some d => Some (Z.max d (s_date s))
    end.
Proof.
  induction l as [| x l IH]; simpl; [reflexivity |].
  rewrite IH. destruct (max_date l) as [d |]; f_equal; lia.
Qed.

Lemma sales_of_snoc cid l s :
  sales_of cid (l ++ [s])
  = sales_of cid l ++ (if decide (s_customer_id s = cid) then [s] else []).
Proof.
  unfold sales_of. rewrite filter_app. reflexivity.
Qed.


Lemma customer_stats_snoc sales s :
  customer_stats (sales ++ [s])
  = match customer_stats sales !! s_customer_id s with
    | None =>
        <[s_customer_id s := ((0 + s_total s)%Q, 1, s_date s)]>
          (customer_stats sales)
    | Some (spent, orders, last) =>
        <[s_customer_id s :=
            ((spent + s_total s)%Q, orders + 1, Z.max last (s_date s))]>
          (customer_stats sales)
    end.
Proof. unfold customer_stats. rewrite foldl_app. reflexivity. Qed.

Lemma customer_stats_lookup sales cid :
  stats_match cid sales (customer_stats sales !! cid).
Proof.
  induction sales as [| s sales IH] using rev_ind.
  - unfold customer_stats. simpl. rewrite lookup_empty. reflexivity.
  - rewrite customer_stats_snoc.
    destruct (decide (s_customer_id s = cid)) as [Heq | Hne].
    + rewrite Heq in *. unfold stats_match in *.
      destruct (customer_stats sales !! cid) as [[[spent orders] last] |];
        rewrite lookup_insert_eq; unfold count_orders in *;
        rewrite sales_of_snoc; rewrite decide_True by exact Heq.
      * destruct IH as (Hne & Hsum & Hcount & Hmax).
        split; [intros Habs; apply app_eq_nil in Habs as [_ Habs];
                discriminate |].
        rewrite sum_total_app, max_date_snoc, <- Hmax, length_app.
        simpl. rewrite Hsum, Hcount. split; [ring |]. split; [lia |].
        reflexivity.
      * rewrite IH. simpl. split; [discriminate |].
        split; [ring |]. split; reflexivity.
    + assert (Hkeep : stats_match cid (sales ++ [s])
                        (customer_stats sales !! cid)).
      { unfold stats_match, count_orders in *. rewrite sales_of_snoc.
        rewrite decide_False by exact Hne. rewrite app_nil_r. exact IH. }
      destruct (customer_stats sales !! s_customer_id s)
        as [[[spent orders] last] |];
        rewrite lookup_insert_ne by exact Hne; exact Hkeep.
Qed.

(** C3.  After the customer update of [generate_all_data] has run on a
    customer table and a sale table, every customer whose aggregate
    columns had their initial values (0.0, 0, None) has [total_orders]
    equal to the number of sales that carry its id, [total_spent] equal
    to the sum of their totals and [last_purchase_date] equal to the
    greatest of their dates; a customer without such a sale is left
    exactly as it was, with 0.0, 0 and None. *)
Theorem C3_customer_aggregates customers sales i c :
  customers !! i = Some c ->
  initialised c ->
  exists c',
    update_customers customers sales !! i = Some c' /\
    c_customer_id c' = c_customer_id c /\
    c_total_orders c' = count_orders (c_customer_id c) sales /\
    (c_total_spent c' == sum_total (sales_of (c_customer_id c) sales))%Q /\
    c_last_purchase_date c' = max_date (sales_of (c_customer_id c) sales) /\
    (sales_of (c_customer_id c) sales = [] ->
     c' = c /\ c_total_spent c' = 0.0%Q /\ c_total_orders c' = 0 /\
     c_last_purchase_date c' = None).
Proof.
  intros Hc (Hspent & Horders & Hlast). unfold update_customers.
  destruct sales as [| s0 sales0] eqn:Hsales.
  - exists c. split; [exact Hc |]. split; [reflexivity |].
    unfold count_orders, sales_of. simpl.
    rewrite Hspent, Horders, Hlast.
    split; [reflexivity |]. split; [reflexivity |]. split; [reflexivity |].
    intros _. auto.
  - rewrite <- Hsales. clear Hsales s0 sales0.
    exists (assign_stats (c, customer_stats sales !! c_customer_id c)).
    split.
    { unfold merge_left. rewrite !list_lookup_fmap, Hc. reflexivity. }
    pose proof (customer_stats_lookup sales (c_customer_id c)) as Hm.
    unfold stats_match in Hm.
    destruct (customer_stats sales !! c_customer_id c)
      as [[[spent orders] last] |]; simpl.
    + destruct Hm as (Hne & Hsum & Hcount & Hmax).
      split; [reflexivity |]. split; [exact Hcount |].
      split; [exact Hsum |]. split; [exact Hmax |].
      intros Habs. contradiction.
    + split; [reflexivity |]. unfold count_orders. rewrite Hm. simpl.
      rewrite Hspent, Horders, Hlast.
      split; [reflexivity |]. split; [reflexivity |].
      split; [reflexivity |]. intros _. auto.
Qed.

End CustomerStats.

Lemma C3_witness :
  exists c',
    Ecommerce.update_customers Scenario.one_customer
      (Scenario.rows_of Scenario.two_sales) !! 0%nat = Some c' /\
    Ecommerce.c_total_orders c'
    = count_orders 1 (Scenario.rows_of Scenario.two_sales) /\
    count_orders 1 (Scenario.rows_of Scenario.two_sales) = 2.
Proof.
  destruct (C3_customer_aggregates Scenario.one_customer
              (Scenario.rows_of Scenario.two_sales) 0%nat
              (Scenario.the_customer))
    as (c' & Hc' & _ & Horders & _).
  - reflexivity.
  - repeat split.
  - exists c'. split; [exact Hc' |]. split; [exact Horders |].
    vm_compute. reflexivity.
Defined.

(* ------------------------------------------------------------------ *)
(** ** Reproducibility *)

(** C1.  The constructor seeds the generators "para reproducibilidad",
    and yet the tables are not a function of (seed, configuration): the
    stages read the wall clock.  Seed 42 and the same configuration, the
    clock read at 12:00:00 and one microsecond later:
    [generate_all_data] returns the same product, customer and inventory
    tables and two different sale tables (their [datetime] column).
    [RobustDataGenerator.generate_all], seed 42, run on a Tuesday and on
    the Sunday before it, returns the same products and two different
    sale tables (their [date] column). *)
Theorem C1_same_seed_different_sale_tables :
  let r1 := Scenario.full_run (Scenario.still Scenario.tuesday_noon) in
  let r2 := Scenario.full_run (Scenario.still Scenario.tuesday_noon_later) in
  let none := Ecommerce.mkTables [] [] [] [] in
  let q1 := Scenario.robust_run_at Scenario.tuesday_noon in
  let q2 := Scenario.robust_run_at Scenario.sunday_noon in
  let nothing := Robust.mkTables [] [] in
  (r1 = Ok (Scenario.tables_of none r1) (Scenario.world_after r1) /\
   r2 = Ok (Scenario.tables_of none r2) (Scenario.world_after r2) /\
   Ecommerce.t_products (Scenario.tables_of none r1)
   = Ecommerce.t_products (Scenario.tables_of none r2) /\
   Ecommerce.t_customers (Scenario.tables_of none r1)
   = Ecommerce.t_customers (Scenario.tables_of none r2) /\
   Ecommerce.t_inventory (Scenario.tables_of none r1)
   = Ecommerce.t_inventory (Scenario.tables_of none r2) /\
   map Ecommerce.s_datetime (Ecommerce.t_sales (Scenario.tables_of none r1))
   <> map Ecommerce.s_datetime
        (Ecommerce.t_sales (Scenario.tables_of none r2)) /\
   r1 <> r2) /\
  (q1 = Ok (Scenario.tables_of nothing q1) (Scenario.world_after q1) /\
   q2 = Ok (Scenario.tables_of nothing q2) (Scenario.world_after q2) /\
   Robust.t_products (Scenario.tables_of nothing q1)
   = Robust.t_products (Scenario.tables_of nothing q2) /\
   map Robust.s_date (Robust.t_sales (Scenario.tables_of nothing q1))
   <> map Robust.s_date (Robust.t_sales (Scenario.tables_of nothing q2)) /\
   q1 <> q2).
Proof.
  intros r1 r2 none q1 q2 nothing. split.
  - split; [vm_compute; reflexivity |].
    split; [vm_compute; reflexivity |].
    split; [vm_compute; reflexivity |].
    split; [vm_compute; reflexivity |].
    split; [vm_compute; reflexivity |].
    split; vm_compute; intros Heq; discriminate.
  - split; [vm_compute; reflexivity |].
    split; [vm_compute; reflexivity |].
    split; [vm_compute; reflexivity |].
    split; vm_compute; intros Heq; discriminate.
Qed.

(* ================================================================== *)
(** * Further properties of the generators *)

(** ** Rounding keeps order and fixes what is already rounded *)

Lemma round_half_even_mono (x y : Q) :
  (x <= y)%Q -> round_half_even x <= round_half_even y.
Proof.
  intros Hxy. pose proof (Qfloor_resp_le _ _ Hxy) as Hf.
  unfold round_half_even.
  destruct (Z.eq_dec (Qfloor x) (Qfloor y)) as [Heq | Hne].
  - rewrite Heq.
    assert (Hd : (x - inject_Z (Qfloor y) <= y - inject_Z (Qfloor y))%Q)
      by (apply Qplus_le_l; exact Hxy).
    destruct (Qcompare_spec (x - inject_Z (Qfloor y)) (1 # 2))
      as [Hx | Hx | Hx];
      destruct (Qcompare_spec (y - inject_Z (Qfloor y)) (1 # 2))
        as [Hy | Hy | Hy];
      try (destruct (Z.even (Qfloor y))); try lia; exfalso;
      first
        [ rewrite Hx in Hd; apply Qle_not_lt in Hd; exact (Hd Hy)
        | rewrite Hy in Hd; apply Qle_not_lt in Hd; exact (Hd Hx)
        | exact (Qlt_irrefl _
                   (Qlt_trans _ _ _ (Qlt_le_trans _ _ _ Hx Hd) Hy)) ].
  - assert (Hlt : Qfloor x + 1 <= Qfloor y) by lia.
    destruct (Qcompare (x - inject_Z (Qfloor x)) (1 # 2));
      destruct (Qcompare (y - inject_Z (Qfloor y)) (1 # 2));
      try (destruct (Z.even (Qfloor x)));
      try (destruct (Z.even (Qfloor y))); lia.
Qed.

Lemma py_round_mono (x y : Q) n :
  (x <= y)%Q -> (py_round x n <= py_round y n)%Q.
Proof.
  intros Hxy. unfold py_round, Qle. simpl.
  apply Z.mul_le_mono_nonneg_r; [lia |].
  apply round_half_even_mono.
  apply Qmult_le_compat_r; [exact Hxy |]. unfold Qle; simpl; lia.
Qed.

Lemma round_half_even_integer (k : Z) : round_half_even (inject_Z k) = k.
Proof.
  unfold round_half_even. rewrite Qfloor_Z.
  assert (Hz : (inject_Z k - inject_Z k == 0)%Q) by ring.
  rewrite (Qcompare_comp _ _ Hz _ _ (Qeq_refl (1 # 2))). reflexivity.
Qed.

Lemma Qmult_le_nonneg_l (a b c : Q) :
  (0 <= a)%Q -> (b <= c)%Q -> (a * b <= a * c)%Q.
Proof.
  intros Ha Hbc. rewrite (Qmult_comm a b), (Qmult_comm a c).
  apply Qmult_le_compat_r; assumption.
Qed.

(** A value with [n] decimals is its own rounding. *)
Lemma py_round_decimal (k : Z) n :
  py_round (Qmake k (10 ^ Pos.of_nat n)) n = Qmake k (10 ^ Pos.of_nat n).
Proof.
  unfold py_round. f_equal.
  rewrite <- (round_half_even_integer k) at 2.
  apply round_half_even_comp.
  unfold Qeq, Qmult, inject_Z. simpl. lia.
Qed.

Lemma py_round_idempotent (x : Q) n :
  py_round (py_round x n) n = py_round x n.
Proof. unfold py_round at 2 3. apply py_round_decimal. Qed.

(** ** Loops that append one row per iteration *)

Section Builders.
Context {G : Type} `{RandomSource G}.

Lemma for_each_build {I A} (P : I -> A -> Prop) (xs : list I)
    (body : I -> list A -> M G (list A)) :
  (forall x acc clk w acc' w',
     body x acc clk w = Ok acc' w' ->
     exists row, acc' = acc ++ [row] /\ P x row) ->
  forall acc clk w r w',
    for_each xs body acc clk w = Ok r w' ->
    exists rows, r = acc ++ rows /\ Forall2 P xs rows.
Proof.
  intros Hbody. induction xs as [| x xs IH]; intros acc clk w r w' Hrun;
    simpl in Hrun.
  - apply ret_Ok in Hrun as [-> _]. exists []. rewrite app_nil_r.
    split; [reflexivity | constructor].
  - apply bind_Ok in Hrun as (acc1 & w1 & Hstep & Hrun).
    apply Hbody in Hstep as (row & -> & Hrow).
    apply IH in Hrun as (rows & -> & Hrows).
    exists (row :: rows). rewrite <- app_assoc. split; [reflexivity |].
    constructor; assumption.
Qed.

Lemma range2_length a b : length (range2 a b) = Z.to_nat (b - a).
Proof. unfold range2. rewrite length_map, length_seq. reflexivity. Qed.

Lemma range2_1 n : range2 1 (n + 1) = map Z.of_nat (seq 1 (Z.to_nat n)).
Proof.
  unfold range2. replace (n + 1 - 1) with n by lia.
  rewrite <- seq_shift, map_map. apply map_ext. intros k. lia.
Qed.

End Builders.

(** ** The product catalogue and the customer base *)

Section Catalogues.
Import Ecommerce.
Context {G : Type} `{RandomSource G}.

Lemma subcategories_of_Ok category clk (w : world G) subs w' :
  subcategories_of category clk w = Ok subs w' ->
  In (category, subs) subcategories /\ w' = w.
Proof.
  unfold subcategories_of.
  destruct (List.find _ subcategories) as [kv |] eqn:Hfind; [| discriminate].
  intros Hr. apply ret_Ok in Hr as [-> ->].
  apply find_some in Hfind as [Hin Heq].
  apply String.eqb_eq in Heq. subst category.
  destruct kv. auto.
Qed.

Lemma generate_products_rows self clk w products w' :
  generate_products self clk w = Ok products w' ->
  Forall2 product_row_ok (range2 1 (n_products self + 1)) products.
Proof.
  unfold generate_products. intros Hrun.
  eapply (for_each_build product_row_ok) in Hrun.
  - destruct Hrun as (rows & -> & Hrows). exact Hrows.
  - clear. intros i acc clk w acc' w' Hbody.
    apply bind_Ok in Hbody as (category & w1 & Hcat & Hbody).
    apply random_choice_Ok in Hcat.
    apply bind_Ok in Hbody as (subs & w2 & Hsubs & Hbody).
    apply subcategories_of_Ok in Hsubs as [Hsubs _].
    apply bind_Ok in Hbody as (subcategory & w3 & Hsub & Hbody).
    apply random_choice_Ok in Hsub.
    apply bind_Ok in Hbody as (x & w4 & _ & Hbody).
    apply bind_Ok in Hbody as (margin & w5 & Hmargin & Hbody).
    apply draw_Ok in Hmargin as [Hmargin _].
    apply bind_Ok in Hbody as (w1' & w6 & _ & Hbody).
    apply bind_Ok in Hbody as (w2' & w7 & _ & Hbody).
    apply bind_Ok in Hbody as (supplier & w8 & _ & Hbody).
    apply bind_Ok in Hbody as (weight & w9 & _ & Hbody).
    apply bind_Ok in Hbody as (created & w10 & _ & Hbody).
    apply ret_Ok in Hbody as [-> _].
    eexists. split; [reflexivity |].
    assert (Hm : (0.3 <= margin <= 0.7)%Q).
    { rewrite Hmargin. apply np_uniform_range. discriminate. }
    unfold product_row_ok. simpl.
    split; [reflexivity |]. split; [reflexivity |].
    split; [exact Hcat |]. split; [exists subs; auto |].
    split.
    + split.
      * change 30.0%Q with (py_round (0.3 * 100) 1).
        apply py_round_mono. apply Qmult_le_compat_r; [apply Hm | discriminate].
      * change 70.0%Q with (py_round (0.7 * 100) 1).
        apply py_round_mono. apply Qmult_le_compat_r; [apply Hm | discriminate].
    + intros Hprice. split.
      * apply Qle_trans with (py_round 0 2); [discriminate |].
        apply py_round_mono.
        apply Qmult_le_0_compat; [exact Hprice |].
        destruct Hm as [_ Hm]. unfold Qle in *. simpl in *. lia.
      * rewrite <- (py_round_idempotent (x * 10) 2) at 2.
        apply py_round_mono.
        rewrite <- (Qmult_1_r (py_round (x * 10) 2)) at 2.
        apply Qmult_le_nonneg_l; [exact Hprice |].
        destruct Hm as [Hm _]. unfold Qle in *. simpl in *. lia.
Qed.

End Catalogues.

(** ** The inventory walk, day by day *)

Section InventoryWalk.
Import Ecommerce.
Context {G : Type} `{RandomSource G}.

(** What one day appends, whichever branch it takes. *)
Lemma inventory_day_Ok product reorder_point ideal_stock day st clk w st' w' :
  inventory_day product reorder_point ideal_stock day st clk w = Ok st' w' ->
  exists row,
    st_inventory st' = st_inventory st ++ [row] /\
    st_current_stock st' = i_current_stock row /\
    i_date row = dt_date (clk (w_ticks w)) - (30 - day) /\
    i_product_id row = p_product_id product /\
    i_product_name row = p_product_name product /\
    i_category row = p_category product /\
    i_reorder_point row = reorder_point /\
    i_ideal_stock row = ideal_stock /\
    i_daily_sales row = fst (np_poisson 2 (w_rng w)) /\
    i_stock_status row
    = (if decide (i_current_stock row <= reorder_point)
       then "LOW" else "OK")%string /\
    let left := py_max 0 (st_current_stock st - i_daily_sales row) in
    (i_current_stock row = left \/
     left <= reorder_point /\
     exists restock,
       reorder_point <= restock < ideal_stock /\
       i_current_stock row = left + restock).
Proof.
  intros Hrun. unfold inventory_day in Hrun.
  apply bind_Ok in Hrun as (t & w1 & Hnow & Hrun).
  apply now_Ok in Hnow as [-> ->].
  apply bind_Ok in Hrun as (ds & w2 & Hds & Hrun).
  apply draw_Ok in Hds as [-> ->]. simpl in Hrun.
  apply bind_Ok in Hrun as (stock & w3 & Hstock & Hrun).
  apply ret_Ok in Hrun as [-> _].
  eexists. simpl. split; [reflexivity |].
  split; [reflexivity |]. split; [unfold dt_date; simpl; lia |].
  do 6 (split; [reflexivity |]).
  split.
  { destruct (reorder_point <? stock) eqn:E; case_decide; try reflexivity.
    - apply Z.ltb_lt in E. exfalso. cbn [i_current_stock] in *. lia.
    - apply Z.ltb_ge in E. exfalso. cbn [i_current_stock] in *. lia. }
  destruct (_ <=? reorder_point) eqn:Elow.
  - apply Z.leb_le in Elow.
    apply bind_Ok in Hstock as (u & w4 & _ & Hstock).
    destruct (Qltb u 0.3).
    + apply bind_Ok in Hstock as (restock & w5 & Hr & Hstock).
      apply randint_Ok in Hr as (_ & Hrange & _).
      apply ret_Ok in Hstock as [-> _].
      right. split; [exact Elow |]. exists restock. auto.
    + apply ret_Ok in Hstock as [-> _]. left. reflexivity.
  - apply ret_Ok in Hstock as [-> _]. left. reflexivity.
Qed.

Lemma restock_step_total left reorder_point ideal_stock clk (w : world G) :
  reorder_point < ideal_stock ->
  exists stock w',
    (if left <=? reorder_point
     then bind (draw np_random)
            (fun u =>
               if Qltb u 0.3
               then bind (randint reorder_point ideal_stock)
                      (fun restock => ret (left + restock))
               else ret left)
     else ret left) clk w = Ok stock w'.
Proof.
  intros Hlt. destruct (left <=? reorder_point).
  - run_draw. destruct (Qltb _ _).
    + edestruct (randint_total reorder_point ideal_stock clk)
        as (r & w2 & Hr & _); [exact Hlt |].
      run_with Hr. eexists _, _. reflexivity.
    + eexists _, _. reflexivity.
  - eexists _, _. reflexivity.
Qed.

Lemma inventory_day_total product reorder_point ideal_stock day st clk w :
  reorder_point < ideal_stock ->
  exists st' w',
    inventory_day product reorder_point ideal_stock day st clk w = Ok st' w'.
Proof.
  intros Hlt. unfold inventory_day.
  erewrite bind_run; [| reflexivity]. run_draw.
  edestruct (restock_step_total
               (py_max 0 (st_current_stock st
                          - fst (np_poisson 2 (w_rng w))))
               reorder_point ideal_stock clk)
    as (stock & w2 & Hstock); [exact Hlt |].
  run_with Hstock. eexists _, _. reflexivity.
Qed.

Lemma stock_bounds s :
  10 <= s < 100 ->
  py_int (inject_Z s * 0.3) = 3 * s / 10 /\
  py_int (inject_Z s * 1.5) = 15 * s / 10 /\
  3 <= 3 * s / 10 < 15 * s / 10.
Proof.
  intros Hs. unfold py_int. simpl.
  rewrite !Z.quot_div_nonneg by lia.
  replace (s * 3) with (3 * s) by lia. replace (s * 15) with (15 * s) by lia.
  split; [reflexivity |]. split; [reflexivity |].
  pose proof (Z.mul_div_le (3 * s) 10 ltac:(lia)).
  pose proof (Z.mul_succ_div_gt (3 * s) 10 ltac:(lia)).
  pose proof (Z.mul_div_le (15 * s) 10 ltac:(lia)).
  pose proof (Z.mul_succ_div_gt (15 * s) 10 ltac:(lia)).
  lia.
Qed.

Lemma for_each_extend {I A} (P : I -> list A -> Prop) (xs : list I)
    (body : I -> list A -> M G (list A)) :
  (forall x acc clk w acc' w',
     body x acc clk w = Ok acc' w' ->
     exists rows, acc' = acc ++ rows /\ P x rows) ->
  forall acc clk w r w',
    for_each xs body acc clk w = Ok r w' ->
    exists blocks, r = acc ++ concat blocks /\ Forall2 P xs blocks.
Proof.
  intros Hbody. induction xs as [| x xs IH]; intros acc clk w r w' Hrun;
    simpl in Hrun.
  - apply ret_Ok in Hrun as [-> _]. exists []. simpl. rewrite app_nil_r.
    split; [reflexivity | constructor].
  - apply bind_Ok in Hrun as (acc1 & w1 & Hstep & Hrun).
    apply Hbody in Hstep as (rows & -> & Hrows).
    apply IH in Hrun as (blocks & -> & Hblocks).
    exists (rows :: blocks). simpl. rewrite <- app_assoc.
    split; [reflexivity |]. constructor; assumption.
Qed.

(** The thirty days of one product. *)
Lemma inventory_days_Ok product s0 (days : list Z) st clk w st' w' :
  10 <= s0 < 100 ->
  for_each days
    (inventory_day product (3 * s0 / 10) (15 * s0 / 10)) st clk w
  = Ok st' w' ->
  exists rows,
    st_inventory st' = st_inventory st ++ rows /\
    length rows = length days /\
    Forall (inventory_row_ok [product]) rows.
Proof.
  intros Hs0. revert st w.
  induction days as [| day days IH]; intros st w Hrun; simpl in Hrun.
  - apply ret_Ok in Hrun as [-> _]. exists []. rewrite app_nil_r.
    split; [reflexivity |]. split; [reflexivity | constructor].
  - apply bind_Ok in Hrun as (st1 & w1 & Hday & Hrun).
    apply inventory_day_Ok in Hday
      as (row & Hrows & _ & _ & Hid & Hname & Hcat & Hrp & Hideal & Hds
          & Hstatus & Hstock).
    apply IH in Hrun as (rows & Hrows' & Hlen & Hall).
    exists (row :: rows). rewrite Hrows', Hrows, <- app_assoc.
    split; [reflexivity |]. split; [simpl; lia |].
    constructor; [| exact Hall].
    pose proof (Z.mul_div_le (3 * s0) 10 ltac:(lia)).
    pose proof (Z.mul_succ_div_gt (3 * s0) 10 ltac:(lia)).
    unfold inventory_row_ok. rewrite Hrp.
    split; [exists product; simpl; auto |].
    split; [exists s0; auto |].
    assert (Hsold : 0 <= i_daily_sales row)
      by (rewrite Hds; apply np_poisson_nonneg).
    split; [exact Hsold |]. split; [| exact Hstatus].
    cbv zeta in Hstock.
    pose proof (py_max_0 (st_current_stock st - i_daily_sales row)).
    destruct Hstock as [-> | (_ & restock & Hr & ->)]; lia.
Qed.

Lemma inventory_row_ok_weaken product products row :
  In product products ->
  inventory_row_ok [product] row -> inventory_row_ok products row.
Proof.
  intros Hin ((p & [<- | []] & Hp) & Hrest).
  split; [exists product; auto | exact Hrest].
Qed.

(** The rows of [generate_inventory], product by product. *)
Lemma generate_inventory_blocks products clk w inventory w' :
  generate_inventory products clk w = Ok inventory w' ->
  exists blocks,
    inventory = concat blocks /\
    Forall2 (fun p rows =>
               length rows = 30%nat /\ Forall (inventory_row_ok [p]) rows)
      products blocks.
Proof.
  unfold generate_inventory. intros Hrun.
  eapply for_each_extend in Hrun.
  - destruct Hrun as (blocks & -> & Hblocks). exists blocks.
    split; [reflexivity | exact Hblocks].
  - clear. intros product acc clk w acc' w' Hbody. cbv beta in Hbody.
    apply bind_Ok in Hbody as (s0 & w1 & Hs0 & Hbody).
    apply randint_Ok in Hs0 as (_ & Hs0 & _).
    destruct (stock_bounds s0 Hs0) as (Hrp & Hideal & _).
    rewrite Hrp, Hideal in Hbody.
    apply bind_Ok in Hbody as (st & w2 & Hdays & Hbody).
    apply ret_Ok in Hbody as [-> _].
    apply (inventory_days_Ok _ _ _ _ _ _ _ _ Hs0) in Hdays
      as (rows & Hrows & Hlen & Hall).
    exists rows. simpl in Hrows.
    split; [exact Hrows |]. split; [| exact Hall].
    rewrite Hlen, range_length. reflexivity.
Qed.

Lemma generate_inventory_total products clk w :
  exists inventory w', generate_inventory products clk w = Ok inventory w'.
Proof.
  unfold generate_inventory. apply for_each_total.
  intros product acc ck wa.
  destruct (randint_total 10 100 ck wa ltac:(lia)) as (s0 & w1 & Hs0 & Hr).
  run_with Hs0.
  destruct (stock_bounds s0 Hr) as (Hrp & Hideal & Hlt).
  rewrite Hrp, Hideal.
  edestruct (for_each_total (range 30)
               (inventory_day product (3 * s0 / 10) (15 * s0 / 10)))
    as (st & w2 & Hdays).
  { intros day st0 ck' w0. apply inventory_day_total. lia. }
  run_with Hdays. eexists _, _. reflexivity.
Qed.

Lemma generate_inventory_returns products clk w :
  exists inventory w',
    generate_inventory products clk w = Ok inventory w' /\
    length inventory = (30 * length products)%nat.
Proof.
  destruct (generate_inventory_total products clk w)
    as (inventory & w' & Hrun).
  exists inventory, w'. split; [exact Hrun |].
  apply generate_inventory_blocks in Hrun as (blocks & -> & Hblocks).
  clear w w'. induction Hblocks as [| p rows ps bs [Hlen _] _ IH]; simpl.
  - reflexivity.
  - rewrite length_app, Hlen, IH. lia.
Qed.

(** X1.  [generate_inventory] cannot fail, whatever the product table:
    the restock draw [randint(reorder_point, ideal_stock)] always has a
    non-empty range, because the initial stock is at least 10.  It
    returns thirty rows for every product. *)
Theorem X1_inventory_always_returns_30_rows_per_product products clk w :
  exists inventory w',
    generate_inventory products clk w = Ok inventory w' /\
    length inventory = (30 * length products)%nat.
Proof. apply generate_inventory_returns. Qed.

(** X2.  Every row of [generate_inventory] belongs to a product of the
    table (id, name and category copied from it); its reorder point and
    ideal stock are 30 and 150 percent (rounded down) of an initial stock
    between 10 and 99; daily sales and the recorded stock are never
    negative; and the status is "LOW" exactly when the recorded stock is
    at most the reorder point, "OK" otherwise. *)
Theorem X2_inventory_rows products clk w inventory w' :
  generate_inventory products clk w = Ok inventory w' ->
  Forall (inventory_row_ok products) inventory.
Proof.
  intros Hrun.
  apply generate_inventory_blocks in Hrun as (blocks & -> & Hblocks).
  clear w w'. induction Hblocks as [| p rows ps bs [_ Hrows] _ IH]; simpl.
  - constructor.
  - apply Forall_app. split.
    + eapply Forall_impl; [exact Hrows |]. intros row.
      apply inventory_row_ok_weaken. left. reflexivity.
    + eapply Forall_impl; [exact IH |]. intros row ((q & Hq & Hid) & Hrest).
      split; [exists q; split; [right; exact Hq | exact Hid] | exact Hrest].
Qed.

End InventoryWalk.

Lemma X2_witness :
  let r := Ecommerce.generate_inventory
             (H := Scenario.source Scenario.restock_script)
             Scenario.one_product (Scenario.still Scenario.tuesday_noon)
             (Scenario.world_of Scenario.restock_script) in
  r = Ok (Scenario.rows_of r) (Scenario.world_after r) /\
  Forall (inventory_row_ok Scenario.one_product) (Scenario.rows_of r).
Proof.
  intros r.
  assert (Hrun : Ecommerce.generate_inventory
                   (H := Scenario.source Scenario.restock_script)
                   Scenario.one_product
                   (Scenario.still Scenario.tuesday_noon)
                   (Scenario.world_of Scenario.restock_script)
                 = Ok (Scenario.rows_of r) (Scenario.world_after r))
    by (vm_compute; reflexivity).
  split; [exact Hrun |].
  exact (X2_inventory_rows _ _ _ _ _ Hrun).
Defined.


(** ** The two catalogues: rows and totality *)

Section CatalogueRuns.
Import Ecommerce.
Context {G : Type} `{RandomSource G}.

Lemma generate_customers_rows self clk w customers w' :
  generate_customers self clk w = Ok customers w' ->
  Forall2 customer_row_ok (range2 1 (n_customers self + 1)) customers.
Proof.
  unfold generate_customers. intros Hrun.
  eapply (for_each_build customer_row_ok) in Hrun.
  - destruct Hrun as (rows & -> & Hrows). exact Hrows.
  - clear. intros i acc clk w acc' w' Hbody.
    apply bind_Ok in Hbody as (signup & w1 & _ & Hbody).
    apply bind_Ok in Hbody as (first & w2 & _ & Hbody).
    apply bind_Ok in Hbody as (last & w3 & _ & Hbody).
    apply bind_Ok in Hbody as (mail & w4 & _ & Hbody).
    apply bind_Ok in Hbody as (phone & w5 & _ & Hbody).
    apply bind_Ok in Hbody as (town & w6 & _ & Hbody).
    apply bind_Ok in Hbody as (region & w7 & Hregion & Hbody).
    apply random_choice_Ok in Hregion.
    apply bind_Ok in Hbody as (ctype & w8 & Htype & Hbody).
    apply random_choice_Ok in Htype.
    apply ret_Ok in Hbody as [-> _].
    eexists. split; [reflexivity |].
    unfold customer_row_ok, initialised. simpl. auto 10.
Qed.

Lemma Forall2_ids {A} (P : Z -> A -> Prop) (id : A -> Z) n rows :
  (forall i row, P i row -> id row = i) ->
  Forall2 P (range2 1 (n + 1)) rows ->
  map id rows = map Z.of_nat (seq 1 (Z.to_nat n)).
Proof.
  intros Hid. rewrite range2_1. generalize (map Z.of_nat (seq 1 (Z.to_nat n))).
  intros l Hall. induction Hall as [| i row l rows Hrow _ IH]; simpl.
  - reflexivity.
  - rewrite (Hid _ _ Hrow), IH. reflexivity.
Qed.

(** X3.  When [generate_products] returns, the table has [n_products]
    rows with the ids 1, 2, ..., [n_products] in order; every row has
    the SKU "SKU-" followed by its id on four digits, a category of the
    taxonomy and a subcategory listed under that category, a margin
    between 30.0 and 70.0 percent, and, when its price is not negative, a
    cost between 0 and the price. *)
Theorem X3_product_catalogue self clk w products w' :
  generate_products self clk w = Ok products w' ->
  map p_product_id products
  = map Z.of_nat (seq 1 (Z.to_nat (n_products self))) /\
  Forall (fun p => product_row_ok (p_product_id p) p) products.
Proof.
  intros Hrun. apply generate_products_rows in Hrun. split.
  - eapply Forall2_ids; [| exact Hrun]. intros i p Hp. apply Hp.
  - clear -Hrun. induction Hrun as [| i p l ps Hp _ IH]; constructor.
    + destruct Hp as [Hid Hrest]. subst i. split; [reflexivity |].
      exact Hrest.
    + exact IH.
Qed.

(** X4.  When [generate_customers] returns, the table has [n_customers]
    rows with the ids 1, 2, ..., [n_customers] in order; every row has
    [total_spent] 0.0, [total_orders] 0 and no [last_purchase_date], a
    region of the five regions and a customer type of the four types. *)
Theorem X4_customer_base self clk w customers w' :
  generate_customers self clk w = Ok customers w' ->
  map c_customer_id customers
  = map Z.of_nat (seq 1 (Z.to_nat (n_customers self))) /\
  Forall (fun c => customer_row_ok (c_customer_id c) c) customers.
Proof.
  intros Hrun. apply generate_customers_rows in Hrun. split.
  - eapply Forall2_ids; [| exact Hrun]. intros i c Hc. apply Hc.
  - clear -Hrun. induction Hrun as [| i c l cs Hc _ IH]; constructor.
    + destruct Hc as [Hid Hrest]. subst i. split; [reflexivity |].
      exact Hrest.
    + exact IH.
Qed.

Lemma subcategories_of_total category clk (w : world G) :
  In category categories ->
  exists subs, subcategories_of category clk w = Ok subs w /\ subs <> [].
Proof.
  intros Hin. unfold subcategories_of.
  simpl in Hin.
  destruct Hin as [<- | [<- | [<- | [<- | [<- | [<- | []]]]]]];
    eexists; (split; [reflexivity | discriminate]).
Qed.

Lemma generate_products_total self clk w :
  exists products w', generate_products self clk w = Ok products w'.
Proof.
  unfold generate_products. apply for_each_total.
  intros i acc ck wa.
  destruct (random_choice_total categories ck wa ltac:(discriminate))
    as (category & w1 & Hcat).
  run_with Hcat. apply random_choice_Ok in Hcat as Hin.
  destruct (subcategories_of_total category ck w1 Hin) as (subs & Hsubs & Hne).
  run_with Hsubs.
  destruct (random_choice_total subs ck w1 Hne) as (sub & w2 & Hsub).
  run_with Hsub. do 6 run_draw.
  unfold date_between. unfold bind at 1. unfold bind at 1. unfold now.
  rewrite draw_run. eexists _, _. reflexivity.
Qed.

Lemma generate_customers_total self clk w :
  exists customers w', generate_customers self clk w = Ok customers w'.
Proof.
  unfold generate_customers. apply for_each_total.
  intros i acc ck wa.
  unfold date_between. unfold bind at 1. unfold bind at 1. unfold now.
  rewrite draw_run. do 5 run_draw.
  edestruct (random_choice_total regions ck) as (region & w1 & Hregion);
    [discriminate |].
  run_with Hregion.
  edestruct (random_choice_total customer_types ck) as (ctype & w2 & Htype);
    [discriminate |].
  run_with Htype. eexists _, _. reflexivity.
Qed.

End CatalogueRuns.

Lemma X3_witness :
  let r := Ecommerce.generate_products
             (H := Scenario.source Scenario.products_script)
             Scenario.two_rows_config (Scenario.still Scenario.tuesday_noon)
             (Scenario.world_of Scenario.products_script) in
  r = Ok (Scenario.rows_of r) (Scenario.world_after r) /\
  map Ecommerce.p_product_id (Scenario.rows_of r) = [1; 2] /\
  Forall (fun p => product_row_ok (Ecommerce.p_product_id p) p)
         (Scenario.rows_of r).
Proof.
  intros r.
  assert (Hrun : Ecommerce.generate_products
                   (H := Scenario.source Scenario.products_script)
                   Scenario.two_rows_config
                   (Scenario.still Scenario.tuesday_noon)
                   (Scenario.world_of Scenario.products_script)
                 = Ok (Scenario.rows_of r) (Scenario.world_after r))
    by (vm_compute; reflexivity).
  split; [exact Hrun |].
  exact (X3_product_catalogue _ _ _ _ _ Hrun).
Defined.

Lemma X4_witness :
  let r := Ecommerce.generate_customers
             (H := Scenario.source Scenario.customers_script)
             Scenario.two_rows_config (Scenario.still Scenario.tuesday_noon)
             (Scenario.world_of Scenario.customers_script) in
  r = Ok (Scenario.rows_of r) (Scenario.world_after r) /\
  map Ecommerce.c_customer_id (Scenario.rows_of r) = [1; 2] /\
  Forall (fun c => customer_row_ok (Ecommerce.c_customer_id c) c)
         (Scenario.rows_of r).
Proof.
  intros r.
  assert (Hrun : Ecommerce.generate_customers
                   (H := Scenario.source Scenario.customers_script)
                   Scenario.two_rows_config
                   (Scenario.still Scenario.tuesday_noon)
                   (Scenario.world_of Scenario.customers_script)
                 = Ok (Scenario.rows_of r) (Scenario.world_after r))
    by (vm_compute; reflexivity).
  split; [exact Hrun |].
  exact (X4_customer_base _ _ _ _ _ Hrun).
Defined.

(** ** The customer update as an operation *)

Section CustomerUpdate.
Import Ecommerce.

Lemma update_customers_lookup customers sales i c :
  customers !! i = Some c ->
  exists c',
    update_customers customers sales !! i = Some c' /\
    same_profile c c' /\
    (sales_of (c_customer_id c) sales = [] -> c' = c) /\
    (sales_of (c_customer_id c) sales <> [] ->
     c_total_orders c' = count_orders (c_customer_id c) sales /\
     (c_total_spent c' == sum_total (sales_of (c_customer_id c) sales))%Q /\
     c_last_purchase_date c' = max_date (sales_of (c_customer_id c) sales)).
Proof.
  intros Hc. unfold update_customers.
  destruct sales as [| s0 sales0] eqn:Hsales.
  - exists c. split; [exact Hc |]. split; [repeat split |].
    split; [reflexivity |]. intros Hne. contradiction.
  - rewrite <- Hsales. clear Hsales s0 sales0.
    exists (assign_stats (c, customer_stats sales !! c_customer_id c)).
    split.
    { unfold merge_left. rewrite !list_lookup_fmap, Hc. reflexivity. }
    pose proof (customer_stats_lookup sales (c_customer_id c)) as Hm.
    unfold stats_match in Hm.
    destruct (customer_stats sales !! c_customer_id c)
      as [[[spent orders] last] |]; simpl.
    + destruct Hm as (Hne & Hsum & Hcount & Hmax).
      split; [repeat split |]. split; [intros Habs; contradiction |].
      intros _. auto.
    + split; [repeat split |]. split; [reflexivity |].
      intros Hne. contradiction.
Qed.

(** X5.  The customer update is idempotent: run a second time on its own
    result with the same sale table, it changes nothing.  It keeps the
    number and the order of the rows and never writes the nine profile
    columns. *)
Theorem X5_update_is_idempotent customers sales :
  update_customers (update_customers customers sales) sales
  = update_customers customers sales /\
  Forall2 same_profile customers (update_customers customers sales).
Proof.
  split.
  - unfold update_customers. destruct sales as [| s0 sales0]; [reflexivity |].
    unfold merge_left. rewrite !map_map. apply map_ext. intros c.
    rewrite assign_stats_id. simpl.
    destruct (customer_stats (s0 :: sales0) !! c_customer_id c)
      as [[[spent orders] last] |]; reflexivity.
  - unfold update_customers. destruct sales as [| s0 sales0].
    + induction customers; constructor; [repeat split | assumption].
    + unfold merge_left. rewrite map_map.
      induction customers as [| c cs IH]; simpl; constructor; [| exact IH].
      destruct (customer_stats (s0 :: sales0) !! c_customer_id c)
        as [[[spent orders] last] |]; repeat split.
Qed.

Lemma indicator_sum (ids : list Z) (cid : Z) :
  NoDup ids -> In cid ids ->
  sum_Z (map (fun id => if decide (cid = id) then 1 else 0) ids) = 1.
Proof.
  intros Hnd Hin. induction Hnd as [| id ids Hnotin Hnd IH]; simpl in *.
  - contradiction.
  - destruct Hin as [<- | Hin].
    + rewrite decide_True by reflexivity.
      assert (Hzero : sum_Z (map (fun id0 => if decide (id = id0) then 1 else 0)
                               ids) = 0).
      { clear IH Hnd. induction ids as [| x xs IHx]; simpl; [reflexivity |].
        rewrite decide_False.
        - rewrite IHx; [reflexivity |]. intros Hx. apply Hnotin.
          apply list_elem_of_In. right. apply list_elem_of_In. exact Hx.
        - intros ->. apply Hnotin. left. }
      unfold sum_Z in *. lia.
    + rewrite decide_False.
      * rewrite IH by exact Hin. reflexivity.
      * intros ->. apply Hnotin. apply list_elem_of_In. exact Hin.
Qed.

Lemma count_orders_cons cid s sales :
  count_orders cid (s :: sales)
  = (if decide (s_customer_id s = cid) then 1 else 0)
    + count_orders cid sales.
Proof.
  unfold count_orders, sales_of.
  destruct (decide (s_customer_id s = cid)) as [Heq | Hne].
  - rewrite filter_cons_True by exact Heq. simpl. lia.
  - rewrite filter_cons_False by exact Hne. lia.
Qed.

Lemma sum_Z_add {A} (f g : A -> Z) l :
  sum_Z (map (fun x => f x + g x) l) = sum_Z (map f l) + sum_Z (map g l).
Proof.
  induction l as [| x l IH]; simpl; [reflexivity |].
  unfold sum_Z in *. simpl. lia.
Qed.

(** Every sale is counted for exactly one customer id. *)
Lemma orders_partition (ids : list Z) sales :
  NoDup ids ->
  Forall (fun s => In (s_customer_id s) ids) sales ->
  sum_Z (map (fun id => count_orders id sales) ids)
  = Z.of_nat (length sales).
Proof.
  intros Hnd Hall. induction Hall as [| s sales Hs _ IH].
  - induction ids as [| id ids IHids]; [reflexivity |].
    apply NoDup_cons in Hnd as [_ Hnd]. simpl.
    unfold sum_Z in *. simpl. rewrite (IHids Hnd). reflexivity.
  - erewrite map_ext; [| intros id; apply count_orders_cons].
    rewrite sum_Z_add, IH, (indicator_sum ids _ Hnd Hs).
    simpl length. lia.
Qed.

End CustomerUpdate.

(** ** The whole pipeline *)

Section Pipeline.
Import Ecommerce.
Context {G : Type} `{RandomSource G}.

Lemma Forall2_range2_length {A} (P : Z -> A -> Prop) n rows :
  Forall2 P (range2 1 (n + 1)) rows -> length rows = Z.to_nat n.
Proof.
  intros Hall. apply Forall2_length in Hall. rewrite <- Hall, range2_length.
  f_equal. lia.
Qed.

(** X6.  The tables [generate_all_data] returns hold [n_products]
    products, [n_customers] customers and thirty inventory rows per
    product, whatever the draws; and a sale table with a row in it only
    when both counts are at least 1. *)
Theorem X6_pipeline_table_sizes self clk w t w' :
  generate_all_data self clk w = Ok t w' ->
  length (t_products t) = Z.to_nat (n_products self) /\
  length (t_customers t) = Z.to_nat (n_customers self) /\
  length (t_inventory t) = (30 * Z.to_nat (n_products self))%nat /\
  (t_sales t <> [] -> 1 <= n_products self /\ 1 <= n_customers self).
Proof.
  intros Hrun.
  apply generate_all_data_Ok in Hrun
    as (products & customers & sales & inventory & w1 & w2 & w3
        & Hproducts & Hcustomers & Hsales & Hinventory & ->).
  cbn [t_products t_customers t_sales t_inventory].
  pose proof (Forall2_range2_length _ _ _
                (generate_products_rows _ _ _ _ _ Hproducts)) as Hlp.
  pose proof (Forall2_range2_length _ _ _
                (generate_customers_rows _ _ _ _ _ Hcustomers)) as Hlc.
  split; [exact Hlp |]. split.
  { rewrite <- Hlc.
    rewrite <- (length_map c_customer_id), update_customers_ids, length_map.
    reflexivity. }
  split.
  { destruct (generate_inventory_returns products clk w3)
      as (inventory' & w4 & Hinventory' & Hli).
    rewrite Hinventory in Hinventory'. injection Hinventory' as <- _.
    rewrite Hli, Hlp. reflexivity. }
  intros Hne. apply generate_sales_rows in Hsales.
  destruct sales as [| s sales]; [contradiction |].
  apply Forall_inv in Hsales
    as (sid & d & discount & p & c & q & pm & ch & Hp & Hc & _).
  destruct products as [| p0 products]; [destruct Hp |].
  destruct customers as [| c0 customers]; [destruct Hc |].
  simpl in Hlp, Hlc. lia.
Qed.

Lemma ids_NoDup n : NoDup (map Z.of_nat (seq 1 n)).
Proof. apply NoDup_fmap_2; [intros a b; lia | apply NoDup_seq]. Qed.

(** X7.  In the tables [generate_all_data] returns, every customer row
    carries the aggregates of the returned sale table: [total_orders] is
    the number of sales with its id, [total_spent] the sum of their
    totals, [last_purchase_date] the greatest of their dates (none
    without a sale).  Every sale is counted once: the [total_orders]
    column sums to the number of sales. *)
Theorem X7_pipeline_aggregates self clk w t w' :
  generate_all_data self clk w = Ok t w' ->
  Forall (fun c =>
            c_total_orders c = count_orders (c_customer_id c) (t_sales t) /\
            (c_total_spent c
             == sum_total (sales_of (c_customer_id c) (t_sales t)))%Q /\
            c_last_purchase_date c
            = max_date (sales_of (c_customer_id c) (t_sales t)))
    (t_customers t) /\
  sum_Z (map c_total_orders (t_customers t)) = Z.of_nat (length (t_sales t)).
Proof.
  intros Hrun.
  apply generate_all_data_Ok in Hrun
    as (products & customers & sales & inventory & w1 & w2 & w3
        & _ & Hcustomers & Hsales & _ & ->).
  simpl.
  apply generate_customers_rows in Hcustomers as Hrows.
  assert (Hids : map c_customer_id customers
                 = map Z.of_nat (seq 1 (Z.to_nat (n_customers self)))).
  { eapply Forall2_ids; [| exact Hrows]. intros i c Hc. apply Hc. }
  assert (Hinit : Forall initialised customers).
  { clear -Hrows. induction Hrows as [| i c l cs Hc _ IH]; constructor;
      [apply Hc | exact IH]. }
  assert (Hrow : forall i c',
             update_customers customers sales !! i = Some c' ->
             c_total_orders c' = count_orders (c_customer_id c') sales /\
             (c_total_spent c'
              == sum_total (sales_of (c_customer_id c') sales))%Q /\
             c_last_purchase_date c'
             = max_date (sales_of (c_customer_id c') sales)).
  { intros i c' Hc'.
    assert (Hlt : (i < length customers)%nat).
    { apply lookup_lt_Some in Hc'.
      rewrite <- (length_map c_customer_id), update_customers_ids,
        length_map in Hc'. exact Hc'. }
    destruct (lookup_lt_is_Some_2 customers i Hlt) as [c Hc].
    destruct (update_customers_lookup customers sales i c Hc)
      as (c2 & Hc2 & Hprofile & Hnone & Hsome).
    rewrite Hc' in Hc2. injection Hc2 as <-.
    destruct Hprofile as [Hid _]. rewrite Hid.
    destruct (sales_of (c_customer_id c) sales) as [| s0 rest] eqn:Hs.
    - rewrite (Hnone eq_refl).
      rewrite Forall_forall in Hinit.
      destruct (Hinit c (list_elem_of_lookup_2 _ _ _ Hc))
        as (Hspent & Horders & Hlast).
      unfold count_orders. rewrite Hs, Hspent, Horders, Hlast. simpl.
      split; [reflexivity |]. split; reflexivity.
    - apply Hsome. discriminate. }
  split.
  - apply Forall_lookup. exact Hrow.
  - assert (Hcol : map c_total_orders (update_customers customers sales)
                   = map (fun id => count_orders id sales)
                       (map c_customer_id (update_customers customers sales))).
    { rewrite map_map. apply list_eq. intros i.
      rewrite !list_lookup_fmap.
      destruct (update_customers customers sales !! i) as [c' |] eqn:Hc';
        [| reflexivity].
      simpl. f_equal. apply (Hrow i c' Hc'). }
    rewrite Hcol, update_customers_ids, Hids.
    apply orders_partition; [apply ids_NoDup |].
    rewrite <- Hids.
    apply generate_sales_rows in Hsales.
    eapply Forall_impl; [exact Hsales |]. intros s
      (sid & day & d & p & c & q & pm & ch & _ & Hc & _ & _ & ->).
    simpl. apply in_map. exact Hc.
Qed.

End Pipeline.

Lemma X6_witness :
  let r := Scenario.full_run (Scenario.still Scenario.tuesday_noon) in
  let t := Scenario.tables_of (Ecommerce.mkTables [] [] [] []) r in
  r = Ok t (Scenario.world_after r) /\
  length (Ecommerce.t_products t) = 1%nat /\
  length (Ecommerce.t_customers t) = 1%nat /\
  length (Ecommerce.t_inventory t) = 30%nat.
Proof.
  intros r t.
  assert (Hrun : Ecommerce.generate_all_data
                   (H := Scenario.source Scenario.full_script)
                   Scenario.one_day_config
                   (Scenario.still Scenario.tuesday_noon)
                   (Ecommerce.initial_world
                      (H := Scenario.source Scenario.full_script) 42)
                 = Ok t (Scenario.world_after r))
    by (vm_compute; reflexivity).
  split; [exact Hrun |].
  destruct (X6_pipeline_table_sizes _ _ _ _ _ Hrun)
    as (Hp & Hc & Hi & _).
  split; [exact Hp |]. split; [exact Hc | exact Hi].
Defined.

Lemma X7_witness :
  let r := Scenario.full_run (Scenario.still Scenario.tuesday_noon) in
  let t := Scenario.tables_of (Ecommerce.mkTables [] [] [] []) r in
  r = Ok t (Scenario.world_after r) /\
  sum_Z (map Ecommerce.c_total_orders (Ecommerce.t_customers t))
  = Z.of_nat (length (Ecommerce.t_sales t)).
Proof.
  intros r t.
  split; [vm_compute; reflexivity |].
  assert (Hrun : Ecommerce.generate_all_data
                   (H := Scenario.source Scenario.full_script)
                   Scenario.one_day_config
                   (Scenario.still Scenario.tuesday_noon)
                   (Ecommerce.initial_world
                      (H := Scenario.source Scenario.full_script) 42)
                 = Ok t (Scenario.world_after r))
    by (vm_compute; reflexivity).
  exact (proj2 (X7_pipeline_aggregates _ _ _ _ _ Hrun)).
Defined.

(** ** The rows of the transaction generator *)

Section SaleRows.
Import Ecommerce.
Context {G : Type} `{RandomSource G}.

Lemma emitted_row_ok products customers sale_id d discount s :
  emitted products customers sale_id d discount s ->
  sale_row_ok products customers s.
Proof.
  intros (p & c & q & pm & ch & Hp & Hc & Hq & [Hd0 Hd1] & ->).
  unfold sale_row_ok. simpl.
  split; [exists p; auto 10 |]. split; [exists c; auto |].
  split; [simpl in Hq; lia |]. split; [reflexivity |].
  assert (Hq0 : (0 <= inject_Z q)%Q)
    by (unfold Qle; simpl; simpl in Hq; lia).
  split.
  - split.
    + apply Qle_trans with (py_round 0 1); [discriminate |].
      apply py_round_mono. apply Qmult_le_0_compat; [exact Hd0 | discriminate].
    + change 30%Q with (inject_Z 30).
      apply Qle_trans with (py_round 30 1); [| discriminate].
      apply py_round_mono.
      apply Qle_trans with (0.3 * 100)%Q; [| discriminate].
      apply Qmult_le_compat_r; [exact Hd1 | discriminate].
  - intros Hprice.
    assert (Hsub : (0 <= p_price p * inject_Z q)%Q)
      by (apply Qmult_le_0_compat; assumption).
    assert (Hd1' : (discount <= 1)%Q)
      by (eapply Qle_trans; [exact Hd1 | discriminate]).
    assert (Hfactor : (p_price p * inject_Z q
                       - p_price p * inject_Z q * discount
                       == p_price p * inject_Z q * (1 - discount))%Q)
      by ring.
    split; split.
    + apply Qle_trans with (py_round 0 2); [discriminate |].
      apply py_round_mono. apply Qmult_le_0_compat; assumption.
    + apply py_round_mono.
      rewrite <- (Qmult_1_r (p_price p * inject_Z q)) at 2.
      apply Qmult_le_nonneg_l; assumption.
    + apply Qle_trans with (py_round 0 2); [discriminate |].
      apply py_round_mono.
      rewrite Hfactor.
      apply Qmult_le_0_compat; [exact Hsub |].
      unfold Qminus. rewrite <- (Qplus_opp_r discount).
      apply Qplus_le_l. exact Hd1'.
    + apply py_round_mono.
      rewrite Hfactor.
      rewrite <- (Qmult_1_r (p_price p * inject_Z q)) at 2.
      apply Qmult_le_nonneg_l; [exact Hsub |].
      rewrite <- (Qplus_0_r 1) at 2. unfold Qminus.
      apply Qplus_le_r. apply (Qopp_le_compat 0). exact Hd0.
Qed.

(** X8.  Given a non-empty product table and a non-empty customer
    table, [generate_sales] fails in one case only.  When the window has
    a start (the date [n_days] days before the clock reading exists) it
    returns: both [randint(0, len)] draws have a non-empty range and the
    positions drawn exist.  When the window has no start it raises the
    OverflowError of the date subtraction, the clock read and nothing
    drawn. *)
Theorem X8_sales_return_on_nonempty_tables self products customers clk w :
  products <> [] -> customers <> [] ->
  is_datetime (clk (w_ticks w)) ->
  (window_start_exists (clk (w_ticks w)) (n_days self) ->
   exists sales w',
     generate_sales self products customers clk w = Ok sales w') /\
  (~ window_start_exists (clk (w_ticks w)) (n_days self) ->
   generate_sales self products customers clk w
   = Raise OverflowError (ticked w)).
Proof.
  intros Hp Hc _. split.
  - apply generate_sales_total; assumption.
  - apply generate_sales_overflow.
Qed.

(** X9.  Every row of [generate_sales] copies unit price, category and
    subcategory from the product it references and the region from the
    customer it references; its cost is that product's cost times the
    quantity; the quantity is between 1 and 5; [date] is the date of
    [datetime]; [discount_pct] is between 0 and 30; and when the unit
    price is not negative, [discount_amount] and [total] are between 0
    and [subtotal]. *)
Theorem X9_sale_rows self products customers clk w sales w' :
  generate_sales self products customers clk w = Ok sales w' ->
  Forall (sale_row_ok products customers) sales.
Proof.
  intros Hrun. apply generate_sales_rows in Hrun.
  eapply Forall_impl; [exact Hrun |].
  intros s (sid & d & discount & Hs).
  eapply emitted_row_ok. exact Hs.
Qed.

End SaleRows.

Lemma X8_witness :
  is_datetime Scenario.tuesday_noon /\
  window_start_exists Scenario.tuesday_noon 1 /\
  exists sales w',
    Ecommerce.generate_sales (H := Scenario.source Scenario.two_sales_script)
      Scenario.one_day_config Scenario.one_product Scenario.one_customer
      (Scenario.still Scenario.tuesday_noon)
      (Scenario.world_of Scenario.two_sales_script) = Ok sales w'.
Proof.
  assert (Hnow : is_datetime Scenario.tuesday_noon)
    by (vm_compute; repeat split; discriminate).
  assert (Hok : window_start_exists Scenario.tuesday_noon 1)
    by (vm_compute; repeat split; discriminate).
  split; [exact Hnow |]. split; [exact Hok |].
  apply (X8_sales_return_on_nonempty_tables
           (H := Scenario.source Scenario.two_sales_script)
           Scenario.one_day_config Scenario.one_product
           Scenario.one_customer (Scenario.still Scenario.tuesday_noon)
           (Scenario.world_of Scenario.two_sales_script)).
  - discriminate.
  - discriminate.
  - exact Hnow.
  - exact Hok.
Defined.

Lemma X9_witness :
  Scenario.two_sales
  = Ok (Scenario.rows_of Scenario.two_sales)
       (Scenario.world_after Scenario.two_sales) /\
  Forall (sale_row_ok Scenario.one_product Scenario.one_customer)
    (Scenario.rows_of Scenario.two_sales).
Proof.
  assert (Hrun : Scenario.two_sales
                 = Ok (Scenario.rows_of Scenario.two_sales)
                      (Scenario.world_after Scenario.two_sales))
    by (vm_compute; reflexivity).
  split; [exact Hrun |].
  exact (X9_sale_rows (H := Scenario.source _)
           Scenario.one_day_config Scenario.one_product
           Scenario.one_customer (Scenario.still Scenario.tuesday_noon)
           (Scenario.world_of _) _ _ Hrun).
Defined.

(** ** [RobustDataGenerator]: rows, window and daily counts *)

Section RobustRows.
Context {G : Type} `{RandomSource G}.
Variable products : list Robust.product.

Lemma robust_one_sale_row current_date sales clk w sales' w' :
  Robust.one_sale products current_date sales clk w = Ok sales' w' ->
  exists s,
    sales' = sales ++ [s] /\
    Robust.s_date s = dt_date current_date /\
    robust_sale_ok products s.
Proof.
  unfold Robust.one_sale. intros Hrun.
  apply bind_Ok in Hrun as (product & w1 & Hp & Hrun).
  apply sample1_Ok in Hp.
  apply bind_Ok in Hrun as (quantity & w2 & Hq & Hrun).
  apply randint_Ok in Hq as (_ & Hq & _).
  apply bind_Ok in Hrun as (customer_id & w3 & Hc & Hrun).
  apply randint_Ok in Hc as (_ & Hc & _).
  apply bind_Ok in Hrun as (region & w4 & Hregion & Hrun).
  apply random_choice_Ok in Hregion.
  apply ret_Ok in Hrun as [-> _].
  eexists. split; [reflexivity |]. simpl. split; [reflexivity |].
  unfold robust_sale_ok. simpl.
  split; [exists product; auto 10 |].
  split; [lia |]. split; [lia | exact Hregion].
Qed.

Lemma robust_sale_loop {I} (xs : list I) current_date sales clk w sales' w' :
  for_each xs (fun _ => Robust.one_sale products current_date) sales clk w
  = Ok sales' w' ->
  exists new,
    sales' = sales ++ new /\
    length new = length xs /\
    Forall (fun s => Robust.s_date s = dt_date current_date
                     /\ robust_sale_ok products s) new.
Proof.
  revert sales w. induction xs as [| x xs IH]; intros sales w Hrun;
    simpl in Hrun.
  - apply ret_Ok in Hrun as [-> _]. exists []. rewrite app_nil_r.
    split; [reflexivity |]. split; [reflexivity | constructor].
  - apply bind_Ok in Hrun as (sales1 & w1 & Hsale & Hrun).
    apply robust_one_sale_row in Hsale as (s & -> & Hdate & Hrow).
    apply IH in Hrun as (new & -> & Hlen & Hall).
    exists (s :: new). rewrite <- app_assoc.
    split; [reflexivity |]. split; [simpl; lia |].
    constructor; [split; assumption | exact Hall].
Qed.

Lemma robust_one_day_Ok start_date day sales clk w sales' w' :
  Robust.one_day products start_date day sales clk w = Ok sales' w' ->
  let d := dt_date start_date + day in
  exists new,
    sales' = sales ++ new /\
    Z.of_nat (length new)
    = fst (np_poisson (if 5 <=? weekday d then 60 else 40) (w_rng w)) /\
    Forall (fun s => Robust.s_date s = d /\ robust_sale_ok products s) new.
Proof.
  intros Hrun d. unfold Robust.one_day in Hrun.
  apply bind_Ok in Hrun as (n & w1 & Hn & Hrun).
  apply draw_Ok in Hn as [-> _].
  apply robust_sale_loop in Hrun as (new & -> & Hlen & Hall).
  exists new. split; [reflexivity |]. split; [| exact Hall].
  rewrite Hlen, range_length. fold d.
  rewrite Z2Nat.id; [reflexivity | apply np_poisson_nonneg].
Qed.

(** A run of days appends, for each day of the list, rows of that day. *)
Lemma robust_day_loop start_date (days : list Z) sales clk w sales' w' :
  for_each days (Robust.one_day products start_date) sales clk w
  = Ok sales' w' ->
  exists blocks,
    sales' = sales ++ concat blocks /\
    Forall2 (fun day block =>
               Forall (fun s => Robust.s_date s = dt_date start_date + day
                                /\ robust_sale_ok products s) block)
      days blocks.
Proof.
  intros Hrun. eapply for_each_extend in Hrun; [exact Hrun |].
  clear. intros day acc clk w acc' w' Hday.
  apply robust_one_day_Ok in Hday as (new & -> & _ & Hall).
  exists new. split; [reflexivity | exact Hall].
Qed.

Lemma blocks_sorted (a : Z) (days : list Z)
    (blocks : list (list Robust.sale)) :
  StronglySorted Z.le days ->
  Forall2 (fun day block =>
             Forall (fun s => Robust.s_date s = a + day
                              /\ robust_sale_ok products s) block)
    days blocks ->
  StronglySorted robust_date_le (concat blocks) /\
  Forall (fun s => exists day, In day days /\ Robust.s_date s = a + day)
    (concat blocks).
Proof.
  intros Hsorted Hblocks.
  induction Hblocks as [| day block days blocks Hblock _ IH]; simpl.
  - split; constructor.
  - inversion Hsorted as [| d ds Hrest Hle]; subst.
    destruct (IH Hrest) as [IHs IHd]. split.
    + apply StronglySorted_app_between.
      * clear -Hblock. induction Hblock as [| s block [Hs _] Hb IHb];
          constructor; [exact IHb |].
        eapply Forall_impl; [exact Hb |]. intros s2 [Hs2 _].
        unfold robust_date_le. lia.
      * exact IHs.
      * intros s1 s2 Hs1 Hs2. unfold robust_date_le.
        rewrite Forall_forall in Hblock, IHd.
        apply list_elem_of_In in Hs1, Hs2.
        destruct (Hblock s1 Hs1) as [Hd1 _].
        destruct (IHd s2 Hs2) as (day2 & Hin2 & Hd2).
        rewrite Forall_forall in Hle. apply list_elem_of_In in Hin2.
        specialize (Hle day2 Hin2). lia.
    + apply Forall_app. split.
      * eapply Forall_impl; [exact Hblock |]. intros s [Hs _].
        exists day. split; [left; reflexivity | exact Hs].
      * eapply Forall_impl; [exact IHd |]. intros s (day2 & Hin2 & Hd2).
        exists day2. split; [right; exact Hin2 | exact Hd2].
Qed.

Lemma range_sorted n : StronglySorted Z.le (range n).
Proof.
  unfold range. generalize 0%nat.
  induction (Z.to_nat n) as [| m IH]; intros start; simpl; constructor.
  - apply IH.
  - apply Forall_forall. intros x Hx.
    apply list_elem_of_In, in_map_iff in Hx as (k & <- & Hk).
    apply in_seq in Hk. lia.
Qed.

Lemma range_In n x : In x (range n) -> 0 <= x < n.
Proof.
  unfold range. intros Hx. apply in_map_iff in Hx as (k & <- & Hk).
  apply in_seq in Hk. lia.
Qed.

Lemma robust_generate_sales_Ok n_days clk w sales w' :
  Robust.generate_sales products n_days clk w = Ok sales w' ->
  for_each (range n_days)
    (Robust.one_day products (add_days (clk (w_ticks w)) (- n_days)))
    [] clk (ticked w) = Ok sales w'.
Proof.
  unfold Robust.generate_sales. intros Hrun.
  apply bind_Ok in Hrun as (t & w1 & Hnow & Hrun).
  apply now_Ok in Hnow as [-> ->].
  apply bind_Ok in Hrun as (start_date & w2 & Hstart & Hrun).
  apply sub_days_Ok in Hstart as (-> & -> & _). exact Hrun.
Qed.

(** X10.  The rows of [RobustDataGenerator.generate_sales] are in
    non-decreasing order of date, and their dates lie in the [n_days]
    days that end on the eve of the day the clock showed: from
    [today - n_days] to [today - 1]. *)
Theorem X10_robust_window n_days clk w sales w' :
  Robust.generate_sales products n_days clk w = Ok sales w' ->
  let today := dt_date (clk (w_ticks w)) in
  StronglySorted robust_date_le sales /\
  Forall (fun s => today - n_days <= Robust.s_date s <= today - 1) sales.
Proof.
  intros Hrun today. apply robust_generate_sales_Ok in Hrun.
  apply robust_day_loop in Hrun as (blocks & -> & Hblocks). simpl.
  destruct (blocks_sorted _ _ _ (range_sorted n_days) Hblocks)
    as [Hsorted Hdates].
  split; [exact Hsorted |].
  eapply Forall_impl; [exact Hdates |]. intros s (day & Hday & Hs).
  apply range_In in Hday. rewrite Hs.
  unfold dt_date, add_days in *. simpl. subst today. lia.
Qed.

(** X11.  Every row of [RobustDataGenerator.generate_sales] copies id,
    name, category and unit price from a product of the table; its
    quantity is 1, 2 or 3; [total], [cost] and [profit] are the unit
    price, the unit cost and their difference times the quantity, each
    rounded to two decimals; its customer id lies between 1 and 1000 and
    its region is one of the five regions. *)
Theorem X11_robust_rows n_days clk w sales w' :
  Robust.generate_sales products n_days clk w = Ok sales w' ->
  Forall (robust_sale_ok products) sales.
Proof.
  intros Hrun. apply robust_generate_sales_Ok in Hrun.
  apply robust_day_loop in Hrun as (blocks & -> & Hblocks). simpl.
  clear -Hblocks. induction Hblocks as [| day block days blocks Hb _ IH];
    simpl; [constructor |].
  apply Forall_app. split; [| exact IH].
  eapply Forall_impl; [exact Hb |]. intros s [_ Hs]. exact Hs.
Qed.

Lemma range_split (n : Z) (k : nat) :
  (k < Z.to_nat n)%nat ->
  range n
  = range (Z.of_nat k)
    ++ Z.of_nat k
       :: map Z.of_nat (seq (S k) (Z.to_nat n - S k)).
Proof.
  intros Hk. unfold range. rewrite Nat2Z.id.
  replace (Z.to_nat n) with (k + S (Z.to_nat n - S k))%nat at 1 by lia.
  rewrite seq_app, map_app. reflexivity.
Qed.

Lemma block_dates (a : Z) (days : list Z)
    (blocks : list (list Robust.sale)) :
  Forall2 (fun day block =>
             Forall (fun s => Robust.s_date s = a + day
                              /\ robust_sale_ok products s) block)
    days blocks ->
  Forall (fun s => exists day, In day days /\ Robust.s_date s = a + day)
    (concat blocks).
Proof.
  intros Hblocks.
  induction Hblocks as [| day block days blocks Hblock _ IH]; simpl.
  - constructor.
  - apply Forall_app. split.
    + eapply Forall_impl; [exact Hblock |]. intros s [Hs _].
      exists day. split; [left; reflexivity | exact Hs].
    + eapply Forall_impl; [exact IH |]. intros s (day2 & Hin2 & Hd2).
      exists day2. split; [right; exact Hin2 | exact Hd2].
Qed.

(** X12.  [RobustDataGenerator.generate_sales] applies no multiplier: the
    number of rows dated the k-th day of the window is the Poisson draw
    made when the run reaches that day, drawn with mean 60 when the day
    is a Saturday or a Sunday ([weekday() >= 5]) and with mean 40
    otherwise. *)
Theorem X12_robust_daily_count n_days clk w sales w' (k : nat) :
  Robust.generate_sales products n_days clk w = Ok sales w' ->
  (k < Z.to_nat n_days)%nat ->
  let start_date := add_days (clk (w_ticks w)) (- n_days) in
  let d := dt_date start_date + Z.of_nat k in
  exists sales_k w_k,
    for_each (range (Z.of_nat k)) (Robust.one_day products start_date)
      [] clk (ticked w) = Ok sales_k w_k /\
    robust_sales_on d sales
    = fst (np_poisson (if 5 <=? weekday d then 60 else 40) (w_rng w_k)).
Proof.
  intros Hrun Hk start_date d. apply robust_generate_sales_Ok in Hrun.
  fold start_date in Hrun.
  rewrite (range_split n_days k Hk), for_each_app in Hrun.
  apply bind_Ok in Hrun as (sales_k & w_k & Hpre & Hrun).
  simpl in Hrun. apply bind_Ok in Hrun as (sales1 & w1 & Hday & Hrest).
  exists sales_k, w_k. split; [exact Hpre |].
  apply robust_day_loop in Hpre as (blocks0 & -> & Hblocks0).
  apply robust_one_day_Ok in Hday as (new1 & -> & Hlen1 & Hall1).
  apply robust_day_loop in Hrest as (blocks2 & -> & Hblocks2).
  apply block_dates in Hblocks0, Hblocks2. simpl.
  unfold robust_sales_on. rewrite !filter_app, !length_app.
  rewrite (filter_none _ (concat blocks0)), (filter_all _ new1),
    (filter_none _ (concat blocks2)).
  - simpl. rewrite Nat.add_0_r. exact Hlen1.
  - eapply Forall_impl; [exact Hblocks2 |]. cbv beta.
    intros s (day & Hin & Hs).
    apply in_map_iff in Hin as (j & <- & Hj). apply in_seq in Hj.
    subst d. lia.
  - eapply Forall_impl; [exact Hall1 |]. intros s [Hs _]. exact Hs.
  - eapply Forall_impl; [exact Hblocks0 |]. cbv beta.
    intros s (day & Hin & Hs). apply range_In in Hin. subst d. lia.
Qed.

End RobustRows.

Lemma X10_witness :
  let r := Scenario.robust_sales in
  r = Ok (Scenario.rows_of r) (Scenario.world_after r) /\
  Forall (fun s => 738950 - 2 <= Robust.s_date s <= 738950 - 1)
    (Scenario.rows_of r).
Proof.
  intros r.
  assert (Hrun : Robust.generate_sales
                   (H := Scenario.source Scenario.robust_sales_script)
                   Scenario.robust_products 2
                   (Scenario.still Scenario.tuesday_noon)
                   (Scenario.world_of Scenario.robust_sales_script)
                 = Ok (Scenario.rows_of r) (Scenario.world_after r))
    by (vm_compute; reflexivity).
  split; [exact Hrun |].
  exact (proj2 (X10_robust_window _ _ _ _ _ _ Hrun)).
Defined.

Lemma X11_witness :
  let r := Scenario.robust_sales in
  r = Ok (Scenario.rows_of r) (Scenario.world_after r) /\
  Forall (robust_sale_ok Scenario.robust_products) (Scenario.rows_of r).
Proof.
  intros r.
  assert (Hrun : Robust.generate_sales
                   (H := Scenario.source Scenario.robust_sales_script)
                   Scenario.robust_products 2
                   (Scenario.still Scenario.tuesday_noon)
                   (Scenario.world_of Scenario.robust_sales_script)
                 = Ok (Scenario.rows_of r) (Scenario.world_after r))
    by (vm_compute; reflexivity).
  split; [exact Hrun |].
  exact (X11_robust_rows _ _ _ _ _ _ Hrun).
Defined.

Lemma X12_witness :
  let r := Scenario.robust_sales in
  r = Ok (Scenario.rows_of r) (Scenario.world_after r) /\
  (1 < Z.to_nat 2)%nat /\
  exists sales_k w_k,
    for_each (range (Z.of_nat 1))
      (Robust.one_day (H := Scenario.source Scenario.robust_sales_script)
         Scenario.robust_products
         (add_days (Scenario.still Scenario.tuesday_noon
                      (w_ticks (Scenario.world_of
                                  Scenario.robust_sales_script)))
            (- 2)))
      [] (Scenario.still Scenario.tuesday_noon)
      (ticked (Scenario.world_of Scenario.robust_sales_script))
    = Ok sales_k w_k.
Proof.
  intros r.
  assert (Hrun : Robust.generate_sales
                   (H := Scenario.source Scenario.robust_sales_script)
                   Scenario.robust_products 2
                   (Scenario.still Scenario.tuesday_noon)
                   (Scenario.world_of Scenario.robust_sales_script)
                 = Ok (Scenario.rows_of r) (Scenario.world_after r))
    by (vm_compute; reflexivity).
  assert (Hk : (1 < Z.to_nat 2)%nat) by (vm_compute; lia).
  split; [exact Hrun |]. split; [exact Hk |].
  destruct (X12_robust_daily_count _ _ _ _ _ _ 1%nat Hrun Hk)
    as (sales_k & w_k & Hpre & _).
  exists sales_k, w_k. exact Hpre.
Defined.

(** ** [RobustDataGenerator]: the catalogue and the whole run *)

Section RobustCatalogue.
Context {G : Type} `{RandomSource G}.

Lemma robust_generate_products_rows clk w products w' :
  Robust.generate_products clk w = Ok products w' ->
  Forall2 robust_product_ok (range2 1 (100 + 1)) products.
Proof.
  unfold Robust.generate_products. intros Hrun.
  eapply (for_each_build robust_product_ok) in Hrun.
  - destruct Hrun as (rows & -> & Hrows). exact Hrows.
  - clear. intros i acc clk w acc' w' Hbody.
    apply bind_Ok in Hbody as (category & w1 & Hcat & Hbody).
    apply random_choice_Ok in Hcat.
    apply bind_Ok in Hbody as (x & w2 & Hx & Hbody).
    apply draw_Ok in Hx as [Hx _].
    apply bind_Ok in Hbody as (y & w3 & Hy & Hbody).
    apply draw_Ok in Hy as [Hy _].
    apply ret_Ok in Hbody as [-> _].
    eexists. split; [reflexivity |].
    assert (Hxr : (10 <= x <= 500)%Q)
      by (rewrite Hx; apply np_uniform_range; discriminate).
    assert (Hyr : (0.3 <= y <= 0.7)%Q)
      by (rewrite Hy; apply np_uniform_range; discriminate).
    assert (Hprice : (10 <= py_round x 2 <= 500)%Q).
    { split.
      - apply Qle_trans with (py_round 10 2); [discriminate |].
        apply py_round_mono. apply Hxr.
      - apply Qle_trans with (py_round 500 2); [| discriminate].
        apply py_round_mono. apply Hxr. }
    assert (Hp0 : (0 <= py_round x 2)%Q)
      by (eapply Qle_trans; [| apply Hprice]; discriminate).
    unfold robust_product_ok. simpl.
    split; [reflexivity |]. split; [reflexivity |].
    split; [exact Hcat |]. split; [exact Hprice |]. split.
    + apply Qle_trans with (py_round 0 2); [discriminate |].
      apply py_round_mono. apply Qmult_le_0_compat; [exact Hp0 |].
      eapply Qle_trans; [| apply Hyr]. discriminate.
    + rewrite <- (py_round_idempotent x 2) at 2.
      apply py_round_mono.
      rewrite <- (Qmult_1_r (py_round x 2)) at 2.
      apply Qmult_le_nonneg_l; [exact Hp0 |].
      eapply Qle_trans; [apply Hyr |]. discriminate.
Qed.

Lemma robust_generate_products_total clk w :
  exists products w', Robust.generate_products clk w = Ok products w'.
Proof.
  unfold Robust.generate_products. apply for_each_total.
  intros i acc ck wa.
  edestruct (random_choice_total Robust.categories ck)
    as (category & w1 & Hcat); [discriminate |].
  run_with Hcat. do 2 run_draw. eexists _, _. reflexivity.
Qed.

(** X13.  [RobustDataGenerator.generate_products] cannot fail; it returns
    100 rows with the ids 1, ..., 100 in order, each named "Product"
    followed by its id, with a category of the five categories, a price
    between 10 and 500 and a cost between 0 and the price. *)
Theorem X13_robust_catalogue clk w :
  exists products w',
    Robust.generate_products clk w = Ok products w' /\
    map Robust.p_product_id products = map Z.of_nat (seq 1 100) /\
    Forall (fun p => robust_product_ok (Robust.p_product_id p) p) products.
Proof.
  destruct (robust_generate_products_total clk w) as (products & w' & Hrun).
  exists products, w'. split; [exact Hrun |].
  apply robust_generate_products_rows in Hrun. split.
  - apply (Forall2_ids robust_product_ok Robust.p_product_id 100);
      [| exact Hrun].
    intros i p Hp. apply Hp.
  - clear -Hrun. induction Hrun as [| i p l ps Hp _ IH]; constructor.
    + destruct Hp as [Hid Hrest]. subst i. split; [reflexivity |].
      exact Hrest.
    + exact IH.
Qed.

Lemma sample1_total {A} (df : list A) clk w :
  df <> [] -> exists row w', Robust.sample1 df clk w = Ok row w'.
Proof.
  intros Hne. unfold Robust.sample1. destruct df as [| y l']; [congruence |].
  erewrite bind_run; [| apply draw_run].
  destruct (lookup_lt_is_Some_2 (y :: l')
              (fst (pd_sample (length (y :: l')) (w_rng w))))
    as [x Hx].
  { apply pd_sample_lt. simpl. lia. }
  rewrite Hx. eexists _, _. reflexivity.
Qed.

Lemma robust_generate_sales_total products n_days clk w :
  products <> [] ->
  window_start_exists (clk (w_ticks w)) n_days ->
  exists sales w', Robust.generate_sales products n_days clk w = Ok sales w'.
Proof.
  intros Hne Hok. unfold Robust.generate_sales.
  erewrite bind_run; [| reflexivity].
  erewrite bind_run; [| apply sub_days_run; exact Hok].
  apply for_each_total. intros day sales ck wa.
  unfold Robust.one_day. run_draw.
  apply for_each_total. intros x acc ck' wb. unfold Robust.one_sale.
  destruct (sample1_total products ck' wb Hne) as (product & w1 & Hp).
  run_with Hp.
  destruct (randint_total 1 4 ck' w1 ltac:(lia)) as (q & w2 & Hq & _).
  run_with Hq.
  destruct (randint_total 1 1001 ck' w2 ltac:(lia)) as (c & w3 & Hc & _).
  run_with Hc.
  edestruct (random_choice_total
               ["North"; "South"; "East"; "West"; "Central"]%string ck')
    as (region & w4 & Hregion); [discriminate |].
  run_with Hregion. eexists _, _. reflexivity.
Qed.

Lemma robust_generate_sales_overflow products n_days clk w :
  ~ window_start_exists (clk (w_ticks w)) n_days ->
  Robust.generate_sales products n_days clk w
  = Raise OverflowError (ticked w).
Proof.
  intros Hno. unfold Robust.generate_sales.
  erewrite bind_run; [| reflexivity].
  unfold bind. rewrite sub_days_raise by exact Hno. reflexivity.
Qed.

(** X14.  A run of [RobustDataGenerator.generate_all] that returns,
    returns the 100 rows of [generate_products] and the rows
    [generate_sales] made from them for the 180 days before the run, at
    least one: after a run that generated no sale the summary reads the
    ['date'] column of an empty frame, a KeyError, and nothing is
    returned. *)
Theorem X14_robust_run_returns_sales clk w t w' :
  Robust.generate_all clk w = Ok t w' ->
  length (Robust.t_products t) = 100%nat /\
  Robust.t_sales t <> [] /\
  exists w1,
    Robust.generate_products clk w = Ok (Robust.t_products t) w1 /\
    Robust.generate_sales (Robust.t_products t) 180 clk w1
    = Ok (Robust.t_sales t) w'.
Proof.
  unfold Robust.generate_all. intros Hrun.
  apply bind_Ok in Hrun as (products & w1 & Hp & Hrun).
  apply bind_Ok in Hrun as (sales & w2 & Hs & Hrun).
  destruct sales as [| s sales]; [discriminate |].
  apply ret_Ok in Hrun as [-> ->].
  cbn [Robust.t_products Robust.t_sales].
  split.
  - apply robust_generate_products_rows in Hp.
    apply Forall2_length in Hp. rewrite range2_length in Hp.
    rewrite <- Hp. reflexivity.
  - split; [discriminate |]. exists w1. split; assumption.
Qed.

End RobustCatalogue.

Lemma X14_witness :
  let r := Scenario.robust_run in
  let t := Scenario.tables_of (Robust.mkTables [] []) r in
  r = Ok t (Scenario.world_after r) /\
  length (Robust.t_products t) = 100%nat /\
  Robust.t_sales t <> [].
Proof.
  intros r t.
  assert (Hrun : Robust.generate_all
                   (H := Scenario.source Scenario.robust_script)
                   (Scenario.still Scenario.tuesday_noon)
                   (mkWorld (rs_seed
                               (RandomSource :=
                                  Scenario.source Scenario.robust_script) 42)
                      0 0)
                 = Ok t (Scenario.world_after r))
    by (vm_compute; reflexivity).
  split; [exact Hrun |].
  destruct (X14_robust_run_returns_sales _ _ _ _ Hrun) as (Hp & Hs & _).
  split; [exact Hp | exact Hs].
Defined.

(** ** The inventory ledger as a walk *)

Section InventoryLedger.
Import Ecommerce.
Context {G : Type} `{RandomSource G}.

Lemma inventory_days_walk product reorder_point ideal_stock
    (days : list Z) st clk w st' w' :
  for_each days (inventory_day product reorder_point ideal_stock) st clk w
  = Ok st' w' ->
  exists rows,
    st_inventory st' = st_inventory st ++ rows /\
    stock_walk (st_current_stock st) rows /\
    Forall2 (fun day row =>
               exists k, i_date row = dt_date (clk k) - (30 - day))
      days rows /\
    Forall (fun row => i_product_id row = p_product_id product) rows.
Proof.
  revert st w. induction days as [| day days IH]; intros st w Hrun;
    simpl in Hrun.
  - apply ret_Ok in Hrun as [-> _]. exists []. rewrite app_nil_r.
    split; [reflexivity |]. split; [exact I |]. split; constructor.
  - apply bind_Ok in Hrun as (st1 & w1 & Hday & Hrun).
    apply inventory_day_Ok in Hday
      as (row & Hrows & Hcur & Hdate & Hid & _ & _ & Hrp & Hideal & _ & _
          & Hstep).
    apply IH in Hrun as (rows & Hrows' & Hwalk & Hdates & Hids).
    exists (row :: rows). rewrite Hrows', Hrows, <- app_assoc.
    split; [reflexivity |]. split; [| split].
    + simpl. split.
      * unfold stock_step. rewrite Hrp, Hideal. exact Hstep.
      * rewrite <- Hcur. exact Hwalk.
    + constructor; [| exact Hdates]. exists (w_ticks w). exact Hdate.
    + constructor; [exact Hid | exact Hids].
Qed.

Lemma for_each_extend_at {I A} (P : I -> list A -> Prop) (xs : list I)
    (body : I -> list A -> M G (list A)) clk :
  (forall x acc w acc' w',
     body x acc clk w = Ok acc' w' ->
     exists rows, acc' = acc ++ rows /\ P x rows) ->
  forall acc w r w',
    for_each xs body acc clk w = Ok r w' ->
    exists blocks, r = acc ++ concat blocks /\ Forall2 P xs blocks.
Proof.
  intros Hbody. induction xs as [| x xs IH]; intros acc w r w' Hrun;
    simpl in Hrun.
  - apply ret_Ok in Hrun as [-> _]. exists []. simpl. rewrite app_nil_r.
    split; [reflexivity | constructor].
  - apply bind_Ok in Hrun as (acc1 & w1 & Hstep & Hrun).
    apply Hbody in Hstep as (rows & -> & Hrows).
    apply IH in Hrun as (blocks & -> & Hblocks).
    exists (rows :: blocks). simpl. rewrite <- app_assoc.
    split; [reflexivity |]. constructor; assumption.
Qed.

(** X15.  The inventory table is the concatenation of one block of rows
    per product, in the order of the product table.  Each block is a
    stock walk that starts from an initial stock between 10 and 99: from
    one row to the next the stock is what the day's sales leave (never
    below 0), raised only by a restock, which happens only when that
    remainder is at most the reorder point and adds a quantity of
    [reorder_point, ideal_stock).  The row of day [d] (0 to 29) is dated
    30 - d days before the date of a clock reading. *)
Theorem X15_inventory_ledger products clk w inventory w' :
  generate_inventory products clk w = Ok inventory w' ->
  exists blocks,
    inventory = concat blocks /\
    Forall2 (fun (p : product) rows =>
               inventory_block_ok clk rows /\
               Forall (fun row => i_product_id row = p_product_id p) rows)
      products blocks.
Proof.
  unfold generate_inventory. intros Hrun.
  eapply (for_each_extend_at
            (fun (p : product) rows =>
               inventory_block_ok clk rows /\
               Forall (fun row => i_product_id row = p_product_id p) rows))
    in Hrun.
  - destruct Hrun as (blocks & -> & Hblocks). exists blocks.
    split; [reflexivity | exact Hblocks].
  - clear. intros product acc w acc' w' Hbody. cbv beta in Hbody.
    apply bind_Ok in Hbody as (s0 & w1 & Hs0 & Hbody).
    apply randint_Ok in Hs0 as (_ & Hs0 & _).
    apply bind_Ok in Hbody as (st & w2 & Hdays & Hbody).
    apply ret_Ok in Hbody as [-> _].
    apply inventory_days_walk in Hdays
      as (rows & Hrows & Hwalk & Hdates & Hids).
    exists rows. simpl in Hrows, Hwalk.
    split; [exact Hrows |]. split; [| exact Hids].
    split; [exists s0; auto | exact Hdates].
Qed.

End InventoryLedger.

Lemma X15_witness :
  let r := Ecommerce.generate_inventory
             (H := Scenario.source Scenario.restock_script)
             Scenario.one_product (Scenario.still Scenario.tuesday_noon)
             (Scenario.world_of Scenario.restock_script) in
  r = Ok (Scenario.rows_of r) (Scenario.world_after r) /\
  exists blocks,
    Scenario.rows_of r = concat blocks /\
    length blocks = 1%nat.
Proof.
  intros r.
  assert (Hrun : Ecommerce.generate_inventory
                   (H := Scenario.source Scenario.restock_script)
                   Scenario.one_product
                   (Scenario.still Scenario.tuesday_noon)
                   (Scenario.world_of Scenario.restock_script)
                 = Ok (Scenario.rows_of r) (Scenario.world_after r))
    by (vm_compute; reflexivity).
  split; [exact Hrun |].
  destruct (X15_inventory_ledger _ _ _ _ _ Hrun) as (blocks & Heq & Hall).
  exists blocks. split; [exact Heq |].
  apply Forall2_length in Hall. symmetry. exact Hall.
Defined.

(** ** Sales of customers the table does not know *)

Section UnknownCustomers.
Import Ecommerce.

Lemma customer_stats_local sales cid :
  customer_stats sales !! cid = customer_stats (sales_of cid sales) !! cid.
Proof.
  induction sales as [| s sales IH] using rev_ind; [reflexivity |].
  rewrite sales_of_snoc, customer_stats_snoc.
  destruct (decide (s_customer_id s = cid)) as [Heq | Hne].
  - rewrite customer_stats_snoc, Heq.
    destruct (customer_stats sales !! cid) as [[[sp1 n1] d1] |] eqn:E1;
      destruct (customer_stats (sales_of cid sales) !! cid)
        as [[[sp2 n2] d2] |] eqn:E2;
      try discriminate IH.
    + injection IH as -> -> ->.
      etrans; [apply lookup_insert_eq | symmetry; apply lookup_insert_eq].
    + etrans; [apply lookup_insert_eq | symmetry; apply lookup_insert_eq].
  - rewrite app_nil_r.
    destruct (customer_stats sales !! s_customer_id s)
      as [[[spent orders] last] |];
      (etrans; [apply lookup_insert_ne; exact Hne | exact IH]).
Qed.

Lemma update_customers_map customers sales :
  update_customers customers sales
  = map (fun c => assign_stats (c, customer_stats sales !! c_customer_id c))
      customers.
Proof.
  unfold update_customers, merge_left. destruct sales as [| s sales].
  - unfold customer_stats. simpl.
    induction customers as [| c cs IH]; [reflexivity |].
    simpl. rewrite lookup_empty. simpl. rewrite <- IH. reflexivity.
  - rewrite map_map. reflexivity.
Qed.

(** X16.  The customer update ignores, without any error, every sale
    whose [customer_id] matches no row of the customer table: the result
    is the same as on the sale table without those rows. *)
Theorem X16_update_ignores_unknown_customers customers sales :
  update_customers customers sales
  = update_customers customers
      (filter (fun s => s_customer_id s ∈ map c_customer_id customers) sales).
Proof.
  rewrite !update_customers_map. apply map_ext_in. intros c Hc.
  f_equal. f_equal.
  rewrite customer_stats_local, (customer_stats_local (filter _ _)).
  f_equal. f_equal. unfold sales_of.
  rewrite list_filter_filter_l; [reflexivity |].
  intros s ->. apply list_elem_of_In. apply in_map. exact Hc.
Qed.

End UnknownCustomers.

(** ** The seasonal adjustment never lowers a day's count *)

Section SeasonalBounds.
Import Ecommerce.
Context {G : Type} `{RandomSource G}.

Lemma seasonal_factor_range d : (1 <= seasonal_factor d <= 3.75)%Q.
Proof.
  unfold seasonal_factor, day_factor, month_factor.
  destruct (4 <=? weekday (dt_date d));
    destruct (month (dt_date d) =? 12);
    destruct (month (dt_date d) =? 11);
    destruct ((month (dt_date d) =? 6) || (month (dt_date d) =? 7));
    split; discriminate.
Qed.

(** X17.  On every day of [generate_sales] the number of rows appended is
    at least the Poisson base draw and at most 3.75 times it: the
    seasonal factor lies between 1.0 and 3.75 (a Friday, Saturday or
    Sunday in December). *)
Theorem X17_daily_count_bounds products customers st clk w st' w' :
  one_day products customers st clk w = Ok st' w' ->
  let base := fst (np_poisson 50 (w_rng w)) in
  exists new,
    ss_sales st' = ss_sales st ++ new /\
    base <= Z.of_nat (length new) /\
    4 * Z.of_nat (length new) <= 15 * base.
Proof.
  intros Hrun base.
  apply one_day_dates in Hrun as (_ & new & Hnew & Hlen & _).
  exists new. split; [exact Hnew |]. fold base in Hlen.
  set (f := seasonal_factor (add_days (ss_current_date st) 1)) in *.
  pose proof (seasonal_factor_range (add_days (ss_current_date st) 1))
    as [Hlo Hhi]. fold f in Hlo, Hhi.
  pose proof (np_poisson_nonneg 50 (w_rng w)) as Hbase. fold base in Hbase.
  assert (Hb0 : (0 <= inject_Z base)%Q) by (unfold Qle; simpl; lia).
  assert (Hpos : (0 <= inject_Z base * f)%Q).
  { apply Qmult_le_0_compat; [exact Hb0 |].
    eapply Qle_trans; [| exact Hlo]. discriminate. }
  rewrite py_int_floor in Hlen by exact Hpos.
  assert (Hfl0 : 0 <= Qfloor (inject_Z base * f))
    by (apply (Qfloor_resp_le 0); exact Hpos).
  rewrite Hlen, Z2Nat.id by exact Hfl0. split.
  - apply Z.le_trans with (Qfloor (inject_Z base));
      [rewrite Qfloor_Z; lia |].
    apply Qfloor_resp_le.
    rewrite <- (Qmult_1_r (inject_Z base)) at 1.
    apply Qmult_le_nonneg_l; assumption.
  - assert (Hup : (inject_Z (Qfloor (inject_Z base * f))
                   <= inject_Z base * 3.75)%Q).
    { eapply Qle_trans; [apply Qfloor_le |].
      apply Qmult_le_nonneg_l; assumption. }
    unfold Qle in Hup.
    change (Qfloor (inject_Z base * f) * 100 <= base * 375 * 1) in Hup.
    lia.
Qed.

End SeasonalBounds.

Lemma X17_witness :
  exists new,
    Ecommerce.ss_sales (Scenario.day_state Scenario.one_day_run)
    = [] ++ new /\
    2 <= Z.of_nat (length new).
Proof.
  assert (Hrun : Ecommerce.one_day
                   (H := Scenario.source Scenario.two_sales_script)
                   Scenario.one_product Scenario.one_customer
                   (Ecommerce.mkSalesState Scenario.tuesday_noon 1 [])
                   (Scenario.still Scenario.tuesday_noon)
                   (Scenario.world_of Scenario.two_sales_script)
                 = Ok (Scenario.day_state Scenario.one_day_run)
                      (Scenario.world_after Scenario.one_day_run))
    by (vm_compute; reflexivity).
  destruct (X17_daily_count_bounds _ _ _ _ _ _ _ Hrun)
    as (new & Hnew & Hlo & _).
  exists new. split; [exact Hnew | exact Hlo].
Defined.

(* ------------------------------------------------------------------ *)
(** ** [RobustDataGenerator.generate_sales] on any product table *)

Section RobustTables.
Context {G : Type} `{RandomSource G}.

(** A day over an empty product table: no sale drawn, or the first
    [sample(1)] raises. *)
Lemma robust_one_day_empty start_date day sales clk w :
  (exists w', Robust.one_day [] start_date day sales clk w = Ok sales w') \/
  (exists w', Robust.one_day [] start_date day sales clk w
              = Raise ValueError w').
Proof.
  unfold Robust.one_day. run_draw.
  destruct (range _) as [| x xs]; simpl.
  - left. eexists. reflexivity.
  - right. eexists. reflexivity.
Qed.

Lemma robust_day_loop_empty (days : list Z) start_date sales clk w :
  (exists w', for_each days (Robust.one_day [] start_date) sales clk w
              = Ok sales w') \/
  (exists w', for_each days (Robust.one_day [] start_date) sales clk w
              = Raise ValueError w').
Proof.
  revert w. induction days as [| day days IH]; intros w; simpl.
  - left. eexists. reflexivity.
  - destruct (robust_one_day_empty start_date day sales clk w)
      as [(w1 & Hday) | (w1 & Hday)].
    + run_with Hday. apply IH.
    + right. exists w1. unfold bind. rewrite Hday. reflexivity.
Qed.

(** X18.  Given a non-empty product table,
    [RobustDataGenerator.generate_sales] fails in one case only.  When
    the window has a start (the date [n_days] days before the clock
    reading exists) it returns: [sample(1)] has a row to return and the
    ranges of both [randint] draws are not empty.  When the window has
    no start it raises the OverflowError of the date subtraction, the
    clock read and nothing drawn. *)
Theorem X18_robust_sales_return products n_days clk w :
  products <> [] ->
  is_datetime (clk (w_ticks w)) ->
  (window_start_exists (clk (w_ticks w)) n_days ->
   exists sales w',
     Robust.generate_sales products n_days clk w = Ok sales w') /\
  (~ window_start_exists (clk (w_ticks w)) n_days ->
   Robust.generate_sales products n_days clk w
   = Raise OverflowError (ticked w)).
Proof.
  intros Hne _. split.
  - apply robust_generate_sales_total. exact Hne.
  - apply robust_generate_sales_overflow.
Qed.

(** X19.  Over an empty product table
    [RobustDataGenerator.generate_sales] never produces a row.  When the
    window has a start it returns the empty table, or it stops with the
    ValueError that [sample(1)] raises on an empty frame; when the
    window has no start it raises the OverflowError of the date
    subtraction.  No other outcome exists. *)
Theorem X19_robust_sales_without_products n_days clk w :
  is_datetime (clk (w_ticks w)) ->
  (window_start_exists (clk (w_ticks w)) n_days ->
   (exists w', Robust.generate_sales [] n_days clk w = Ok [] w') \/
   (exists w', Robust.generate_sales [] n_days clk w
               = Raise ValueError w')) /\
  (~ window_start_exists (clk (w_ticks w)) n_days ->
   Robust.generate_sales [] n_days clk w = Raise OverflowError (ticked w)).
Proof.
  intros _. split; [| apply robust_generate_sales_overflow].
  intros Hok. unfold Robust.generate_sales.
  erewrite bind_run; [| reflexivity].
  erewrite bind_run; [| apply sub_days_run; exact Hok].
  apply robust_day_loop_empty.
Qed.

End RobustTables.

Lemma X18_witness :
  is_datetime Scenario.tuesday_noon /\
  window_start_exists Scenario.tuesday_noon 2 /\
  exists sales w',
    Robust.generate_sales (H := Scenario.source Scenario.robust_sales_script)
      Scenario.robust_products 2 (Scenario.still Scenario.tuesday_noon)
      (Scenario.world_of Scenario.robust_sales_script) = Ok sales w'.
Proof.
  assert (Hnow : is_datetime Scenario.tuesday_noon)
    by (vm_compute; repeat split; discriminate).
  assert (Hok : window_start_exists Scenario.tuesday_noon 2)
    by (vm_compute; repeat split; discriminate).
  split; [exact Hnow |]. split; [exact Hok |].
  apply (X18_robust_sales_return
           (H := Scenario.source Scenario.robust_sales_script)
           Scenario.robust_products 2 (Scenario.still Scenario.tuesday_noon)
           (Scenario.world_of Scenario.robust_sales_script)).
  - discriminate.
  - exact Hnow.
  - exact Hok.
Defined.

Lemma X19_witness :
  is_datetime Scenario.tuesday_noon /\
  ~ window_start_exists Scenario.tuesday_noon 1000000 /\
  Robust.generate_sales (H := Scenario.source Scenario.robust_sales_script)
    [] 1000000 (Scenario.still Scenario.tuesday_noon)
    (Scenario.world_of Scenario.robust_sales_script)
  = Raise OverflowError
      (ticked (Scenario.world_of Scenario.robust_sales_script)).
Proof.
  assert (Hnow : is_datetime Scenario.tuesday_noon)
    by (vm_compute; repeat split; discriminate).
  assert (Hno : ~ window_start_exists Scenario.tuesday_noon 1000000)
    by (intros [_ [Hlo _]]; vm_compute in Hlo; apply Hlo; reflexivity).
  split; [exact Hnow |]. split; [exact Hno |].
  apply (X19_robust_sales_without_products
           (H := Scenario.source Scenario.robust_sales_script)
           1000000 (Scenario.still Scenario.tuesday_noon)
           (Scenario.world_of Scenario.robust_sales_script)).
  - exact Hnow.
  - exact Hno.
Defined.
